(** * webpack-babel-multi-target-plugin: the targeting engine and the orchestrator

    A shallow embedding of
      - src/babel.target.single.entry.dependency.ts (class
        BabelTargetSingleEntryDependency),
      - the targeting plugin that follows it in the same source file (class
        TargetingPlugin), and
      - src/webpack.babel.multi.target.plugin.js (class
        WebpackBabelMultiTargetPlugin),
    together with the properties the specification states about them.

    JavaScript objects used as dictionaries are finite maps ([gmap]) of their
    own properties, keyed by strings; what such an object inherits from
    [Object.prototype] is [Js.inherited].  Arrays are lists, [undefined] is
    [None], and a [throw] is the [Throw] constructor of [Result].  Mutable
    fields of the plugin are threaded explicitly: a method that writes them
    returns the new plugin state next to its result, also when it throws.
    Objects compared by identity (loader chain entries, plugin instances)
    carry their identity as a number.

    Not embedded: the taps of [apply] and the [make] handler of the
    orchestrator, which runs the child compilers. *)

From stdpp Require Import base strings list gmap.

Local Open Scope string_scope.
Local Open Scope list_scope.
Local Set Warnings "-register-all".

(* ===================================================================== *)
(** * JavaScript primitives the sources rely on *)
(* ===================================================================== *)

Module Js.

(** The exceptions the two files can raise.  [TypeError] is what the
    runtime raises on a property access on [undefined]. *)
Inductive JsError :=
  | TypeError (message : string)
  | Error (message : string)
  | BlindTargetingError (key : string).

Inductive Result (A : Type) :=
  | Ok (value : A)
  | Throw (e : JsError).
Global Arguments Ok {A} value.
Global Arguments Throw {A} e.

Global Instance Result_ret : MRet Result := @Ok.
Global Instance Result_bind : MBind Result := fun A B f m =>
  match m with
  | Ok a => f a
  | Throw e => Throw e
  end.

Definition is_Ok {A} (r : Result A) : bool :=
  match r with Ok _ => true | Throw _ => false end.

(** Truthiness of a possibly missing string: [undefined] and the empty
    string are falsy. *)
Definition truthy (s : option string) : bool :=
  match s with
  | None => false
  | Some s => negb (String.eqb s "")
  end.

(** [String(x)] for a possibly missing string, as [RegExp.prototype.test]
    and property keys coerce their argument. *)
Definition toString (s : option string) : string :=
  match s with
  | None => "undefined"
  | Some s => s
  end.

(** [s.startsWith(p)] *)
Definition startsWith (s p : string) : bool := String.prefix p s.

(** [s.includes(p)] *)
Fixpoint includes (s p : string) : bool :=
  String.prefix p s ||
  match s with
  | EmptyString => false
  | String _ s' => includes s' p
  end.

(** [s.endsWith(p)] *)
Definition endsWith (s p : string) : bool :=
  let n := String.length s in
  let k := String.length p in
  (k <=? n)%nat && String.eqb (String.substring (n - k) k s) p.

(** A regular expression is used through [test] only.  Patterns carry no
    [g] or [y] flag, so [test] does not depend on earlier calls. *)
Record RegExp := { test : string → bool }.

(** [arr.find(p)] *)
Fixpoint find {A} (p : A → bool) (l : list A) : option A :=
  match l with
  | [] => None
  | x :: l' => if p x then Some x else find p l'
  end.

(** Truthiness of the result of [find] over objects. *)
Definition isSome {A} (o : option A) : bool :=
  match o with Some _ => true | None => false end.

(** [x === s] for a possibly missing string [x] *)
Definition strictEq (x : option string) (s : string) : bool :=
  match x with Some r => String.eqb r s | None => false end.

(** The properties an object created by [{}] inherits from
    [Object.prototype], each with what [.length] of the inherited value is:
    the number of parameters of a method, and [undefined] ([None]) for the
    prototype itself, which [__proto__] answers with.  Every inherited value is
    truthy, and none has a method [shift].  These are the properties the
    runtime defines: no program is taken to have added to the prototype. *)
Definition OBJECT_PROTOTYPE : list (string * option nat) :=
  [ ("constructor", Some 1);
    ("__defineGetter__", Some 2);
    ("__defineSetter__", Some 2);
    ("hasOwnProperty", Some 1);
    ("__lookupGetter__", Some 1);
    ("__lookupSetter__", Some 1);
    ("isPrototypeOf", Some 1);
    ("propertyIsEnumerable", Some 1);
    ("toString", Some 0);
    ("valueOf", Some 0);
    ("toLocaleString", Some 0);
    ("__proto__", None) ].

(** [({})[name]], by the [.length] of what it answers: [None] when [name] is
    no inherited property, so that the lookup answers [undefined]. *)
Definition inherited (name : string) : option (option nat) :=
  snd <$> find (λ entry, String.eqb entry.1 name) OBJECT_PROTOTYPE.

(** [arr.indexOf(x)]: the first position holding [x], or -1 *)
Fixpoint indexOf {A} `{EqDecision A} (l : list A) (x : A) : Z :=
  match l with
  | [] => -1
  | y :: l' =>
      if decide (y = x) then 0
      else let i := indexOf l' x in if (i <? 0)%Z then -1 else (i + 1)%Z
  end.

(** [arr.splice(start, deleteCount, ...items)], the array afterwards: a
    negative [start] counts from the end, and both are clamped. *)
Definition splice {A} (l : list A) (start : Z) (deleteCount : nat)
    (items : list A) : list A :=
  let len := Z.of_nat (length l) in
  let s := Z.to_nat (if (start <? 0)%Z then Z.max (len + start) 0
                     else Z.min start len) in
  (take s l ++ items ++ drop (s + deleteCount) l)%list.

End Js.
Import Js.

(* ===================================================================== *)
(** * Build targets (babel.target.ts, imported by both classes) *)
(* ===================================================================== *)

(** The fields of a [BabelTarget] the two files read: its key and the
    transform options handed to the babel loader (opaque here). *)
Record BabelTarget := {
  key : string;
  options : string;
}.

Global Instance BabelTarget_eq_dec : EqDecision BabelTarget.
Proof. solve_decision. Defined.

(** What the two files import and this development does not have the source
    of: the methods of [BabelTarget], two constants, the exclusion tables and
    Node's [path.resolve] and [require.resolve]. *)
Class Imports := {
  (** [babelTarget.getTargetedRequest(request)] *)
  getTargetedRequest : BabelTarget → string → string;
  (** [babelTarget.getTargetedAssetName(name)] *)
  getTargetedAssetName : BabelTarget → string → string;
  (** [BabelTarget.getTargetFromTag(request, targets)] *)
  getTargetFromTag : string → list BabelTarget → option BabelTarget;
  (** [BabelTarget.findTarget(module)], on the identifier of the module *)
  findTarget : string → option BabelTarget;
  (** [DEV_SERVER_CLIENT] of ./constants *)
  DEV_SERVER_CLIENT : string;
  (** [STANDARD_EXCLUDED] and [KNOWN_EXCLUDED] of ./excluded.packages *)
  STANDARD_EXCLUDED : list RegExp;
  KNOWN_EXCLUDED : list RegExp;
  (** [require.resolve('babel-loader')] *)
  babelLoaderPath : string;
  (** [path.resolve(root, entry)] on two strings *)
  path_resolve : string → string → string;
}.

(* ===================================================================== *)
(** * BabelTargetSingleEntryDependency *)
(* ===================================================================== *)

Module SingleEntry.

(** The object after construction.  [request] and [userRequest] are set by
    the constructor of webpack's [ModuleDependency], which stores its
    argument in both. *)
Record BabelTargetSingleEntryDependency := {
  babelTarget : BabelTarget;
  originalName : string;
  request : string;
  userRequest : string;
  name : string;
  loc : string;
}.

Definition type (_ : BabelTargetSingleEntryDependency) : string :=
  "babel target single entry".

Definition getResourceIdentifier (d : BabelTargetSingleEntryDependency)
  : string :=
  "module" +:+ request d +:+ "!" +:+ key (babelTarget d).

Definition constructor `{Imports} (babelTarget : BabelTarget)
    (request originalName : string) (loc : option string)
  : BabelTargetSingleEntryDependency :=
  (* super(`${request.startsWith(DEV_SERVER_CLIENT) ? request : ...}`) *)
  let super_request :=
    if startsWith request DEV_SERVER_CLIENT then request
    else getTargetedRequest babelTarget request in
  {| babelTarget := babelTarget;
     originalName := originalName;
     request := super_request;
     userRequest := super_request;
     name := getTargetedAssetName babelTarget originalName;
     loc :=
       (* if (!loc) loc = `${this.request}:${key}` else loc += `:${key}` *)
       if truthy loc
       then toString loc +:+ ":" +:+ key babelTarget
       else super_request +:+ ":" +:+ key babelTarget |}.

End SingleEntry.

(* ===================================================================== *)
(** * TargetingPlugin: the data it works on *)
(* ===================================================================== *)

(** [ExternalsElement | ExternalsElement[]] by run-time type, as
    [isExternalRequest] distinguishes them. *)
Inductive Externals :=
  | ExtUndefined
  | ExtString (s : string)
  | ExtRegExp (r : RegExp)
  | ExtObject (keys : list string)   (* a mapping, through [Object.keys] *)
  | ExtFunction
  | ExtArray (elements : list Externals).

(** A webpack dependency, with the properties the plugin reads or writes. *)
Module Dep.
Record t := {
  request : option string;
  userRequest : option string;
  babelTarget : option BabelTarget;
  originModule : option string;
  (** [dep.block.groupOptions.name], when the whole path exists *)
  groupName : option string;
}.

Definition set_request (r : string) (d : t) : t :=
  {| request := Some r; userRequest := userRequest d;
     babelTarget := babelTarget d; originModule := originModule d;
     groupName := groupName d |}.

Definition set_groupName (n : string) (d : t) : t :=
  {| request := request d; userRequest := userRequest d;
     babelTarget := babelTarget d; originModule := originModule d;
     groupName := Some n |}.
End Dep.

(** A module as the [module] hook of the normal module factory passes it.
    [addDependency] is the method currently installed on the object; it acts
    on the module's dependency list. *)
Module Mod.
Record Options := {
  babelTarget : option BabelTarget;
  other : string;   (* the remaining properties, untouched *)
}.

Record t := {
  request : string;
  options : option Options;
  dependencies : list Dep.t;
  addDependency : Dep.t → list Dep.t → Result (list Dep.t);
}.

(** [DependenciesBlock.prototype.addDependency] of webpack: the
    registration itself. *)
Definition registerDependency (dep : Dep.t) (deps : list Dep.t)
  : Result (list Dep.t) :=
  Ok (deps ++ [dep])%list.

(** [module.addDependency(dep)] *)
Definition callAddDependency (m : t) (dep : Dep.t) : Result t :=
  deps ← addDependency m dep (dependencies m);
  mret {| request := request m; options := options m;
          dependencies := deps; addDependency := addDependency m |}.
End Mod.

(** The [browser] field of a package manifest by run-time type.  A mapping is
    given by its values, [None] standing for a value that is not a string
    (the [false] of an ignored module). *)
Inductive BrowserField :=
  | BrowserAbsent
  | BrowserString (s : string)
  | BrowserArray (entries : list string)
  | BrowserObject (values : list (option string))
  | BrowserOther.   (* [true] or a number: truthy, without own values *)

Record PackageJson := {
  main : option string;
  browser : BrowserField;
}.

(** An entry of a loader chain.  [oid] is the identity of the object:
    [indexOf] and the per-key cache compare objects, not contents. *)
Inductive LoaderOptions :=
  | Opts (isBabelMultiTargetLoader : bool)
         (loaderOptions : option LoaderOptions)
         (other : string).

Module Loader.
Record t := {
  oid : nat;
  loader : string;
  options : option LoaderOptions;
  ident : option string;
}.

Global Instance eq_dec_options : EqDecision LoaderOptions.
Proof.
  refine (fix go (x y : LoaderOptions) : Decision (x = y) :=
    match x, y with
    | Opts f1 l1 o1, Opts f2 l2 o2 =>
        let dl : Decision (l1 = l2) :=
          match l1 as a, l2 as b return Decision (a = b) with
          | Some a, Some b => cast_if (go a b)
          | None, None => left _
          | _, _ => right _
          end in
        cast_if_and3 (decide (f1 = f2)) dl (decide (o1 = o2))
    end); try congruence.
  Unshelve. all: congruence.
Defined.

Global Instance eq_dec : EqDecision t.
Proof. solve_decision. Defined.

(** [loaderInfo.options && loaderInfo.options.isBabelMultiTargetLoader] *)
Definition isMarker (l : t) : bool :=
  match options l with
  | Some (Opts flag _ _) => flag
  | None => false
  end.
End Loader.

(** The context object of the [afterResolve] hook. *)
Module Ctx.
Record ContextInfo := { babelTarget : option BabelTarget }.

Record IssuerContext := {
  issuer : option string;
  issuerTarget : option BabelTarget;   (* [context.babelTarget] *)
}.

Record ResolveData := {
  context : option IssuerContext;
  descriptionFileRoot : string;
  descriptionFileData : option PackageJson;
}.

Record t := {
  request : string;
  resource : option string;
  (** [resolveContext.resolve]; webpack sets no such property *)
  resolve : option string;
  contextInfo : option ContextInfo;
  resourceResolveData : option ResolveData;
  dependencies : list Dep.t;
  loaders : list Loader.t;
}.

Definition set_dependencies (ds : list Dep.t) (c : t) : t :=
  {| request := request c; resource := resource c; resolve := resolve c;
     contextInfo := contextInfo c;
     resourceResolveData := resourceResolveData c;
     dependencies := ds; loaders := loaders c |}.

Definition set_request (r : string) (res : option string) (c : t) : t :=
  {| request := r; resource := res; resolve := resolve c;
     contextInfo := contextInfo c;
     resourceResolveData := resourceResolveData c;
     dependencies := dependencies c; loaders := loaders c |}.

Definition set_loaders (ls : list Loader.t) (c : t) : t :=
  {| request := request c; resource := resource c; resolve := resolve c;
     contextInfo := contextInfo c;
     resourceResolveData := resourceResolveData c;
     dependencies := dependencies c; loaders := ls |}.
End Ctx.

(* ===================================================================== *)
(** * TargetingPlugin: the methods *)
(* ===================================================================== *)

Module Targeting.

(** [{ [issuer: string]: { [file: string]: BabelTarget[] } }], by the own
    properties of the object and of the buckets it holds.  Both are created
    by [{}], so a lookup that finds no own property goes on to
    [Object.prototype] ([inherited]). *)
Abbreviation Issuers := (gmap string (gmap string (list BabelTarget))).

Record TargetingPlugin := {
  babelLoaders : gmap string Loader.t;
  (** the code tests the field itself for being falsy, hence the option *)
  remainingTargets : option Issuers;
  targets : list BabelTarget;
  exclude : list RegExp;
  doNotTarget : list RegExp;
  externals : Externals;
}.

Definition set_remainingTargets (rt : Issuers) (p : TargetingPlugin)
  : TargetingPlugin :=
  {| babelLoaders := babelLoaders p; remainingTargets := Some rt;
     targets := targets p; exclude := exclude p;
     doNotTarget := doNotTarget p; externals := externals p |}.

Definition set_babelLoaders (bl : gmap string Loader.t) (p : TargetingPlugin)
  : TargetingPlugin :=
  {| babelLoaders := bl; remainingTargets := remainingTargets p;
     targets := targets p; exclude := exclude p;
     doNotTarget := doNotTarget p; externals := externals p |}.

(** [const NOT_TARGETED = [ /\.s?css$/ ]] *)
Definition NOT_TARGETED : list RegExp :=
  [ {| test := λ s, endsWith s ".css" || endsWith s ".scss" |} ].

(** [new TargetingPlugin(targets, exclude, doNotTarget, externals)], with
    the field initialisers of the class. *)
Definition constructor (targets : list BabelTarget) (exclude : list RegExp)
    (doNotTarget : option (list RegExp)) (externals : Externals)
  : Result TargetingPlugin :=
  Ok {| babelLoaders := ∅;
        remainingTargets := Some ∅;
        targets := targets;
        exclude := exclude;
        (* NOT_TARGETED.concat(doNotTarget || []) *)
        doNotTarget := (NOT_TARGETED ++ default [] doNotTarget)%list;
        externals := externals |}.

(** The [watchRun] tap: [this.remainingTargets = {}]. *)
Definition watchRun (p : TargetingPlugin) : TargetingPlugin :=
  set_remainingTargets ∅ p.

(** [getBlindTarget(issuer, key)].  A [key] that names an inherited property
    finds that property in the bucket of the issuer: it is truthy, so no queue
    is stored, and it is no array.  An [issuer] is taken to name a bucket of
    the ledger itself: for an [issuer] that names an inherited property the
    code goes on with the inherited object in place of a bucket, and what that
    object holds is the runtime's; the properties of the ledger are stated for
    issuers that are no such name. *)
Definition getBlindTarget (p : TargetingPlugin) (issuer key : string)
  : TargetingPlugin * Result BabelTarget :=
  (* if (!this.remainingTargets) this.remainingTargets = {} *)
  let rt : Issuers := default ∅ (remainingTargets p) in
  (* if (!this.remainingTargets[issuer]) this.remainingTargets[issuer] = {} *)
  let files : gmap string (list BabelTarget) := default ∅ (rt !! issuer) in
  match files !! key, inherited key with
  | None, Some length =>
      (* this.remainingTargets[issuer][key] is the inherited value *)
      (set_remainingTargets (<[issuer := files]> rt) p,
       match length with
       | Some (S _) =>
           Throw (TypeError
                    "this.remainingTargets[issuer][key].shift is not a function")
       | _ =>
           (* [!value.length], for a length of 0 or [undefined] *)
           Throw (BlindTargetingError key)
       end)
  | own, _ =>
      (* if (!this.remainingTargets[issuer][key]) ... = this.targets.slice(0);
         an array is truthy, also when it is empty *)
      let queue := default (targets p) own in
      match queue with
      | [] =>
          (* the initialisations above are kept when the call throws *)
          (set_remainingTargets (<[issuer := <[key := []]> files]> rt) p,
           Throw (BlindTargetingError key))
      | head :: rest =>
          (* return this.remainingTargets[issuer][key].shift() *)
          (set_remainingTargets (<[issuer := <[key := rest]> files]> rt) p,
           Ok head)
      end
  end.

(** The queue of a pair as the next call for it will find it: the whole
    target list for a pair never seen, and nothing for a key under which the
    bucket finds an inherited property instead of a queue. *)
Definition pending (p : TargetingPlugin) (issuer key : string)
  : list BabelTarget :=
  match default ∅ (default ∅ (remainingTargets p) !! issuer) !! key,
        inherited key with
  | None, Some _ => []
  | own, _ => default (targets p) own
  end.

(** A run of calls, each with its own [(issuer, key)], in order, with the
    outcome of each. *)
Fixpoint blindCalls (p : TargetingPlugin) (calls : list (string * string))
  : TargetingPlugin * list (Result BabelTarget) :=
  match calls with
  | [] => (p, [])
  | (issuer, key) :: calls' =>
      let '(p1, r) := getBlindTarget p issuer key in
      let '(p2, rs) := blindCalls p1 calls' in
      (p2, r :: rs)
  end.

(** What [k] calls for one pair return when its queue holds [queue]: the
    queue front to back, and a blind targeting error once it is used up. *)
Definition served (key : string) (queue : list BabelTarget) (k : nat)
  : list (Result BabelTarget) :=
  (Ok <$> take k queue) ++
  replicate (k - length queue) (Throw (BlindTargetingError key)).

(** The outcomes of the calls made for one pair, in order. *)
Fixpoint outcomesFor (pair : string * string) (calls : list (string * string))
    (outcomes : list (Result BabelTarget)) : list (Result BabelTarget) :=
  match calls, outcomes with
  | call :: calls', r :: outcomes' =>
      if decide (call = pair) then r :: outcomesFor pair calls' outcomes'
      else outcomesFor pair calls' outcomes'
  | _, _ => []
  end.

(** [new Error('Using an ExternalsFunctionElement is not supported')] *)
Definition UNSUPPORTED : JsError :=
  Error "Using an ExternalsFunctionElement is not supported".

(** [isExternalRequest(context, request, externals)]; [context] is not read.
    A mapping recurses on the array of its keys, which are strings. *)
Fixpoint isExternalRequest (request : string) (externals : Externals)
  : Result bool :=
  match externals with
  | ExtUndefined => Ok false
  | ExtArray elements =>
      (fix loop (l : list Externals) : Result bool :=
         match l with
         | [] => Ok false
         | ext :: l' =>
             b ← isExternalRequest request ext;
             if b : bool then Ok true else loop l'
         end) elements
  | ExtFunction => Throw UNSUPPORTED
  | ExtString s =>
      (* the empty string is falsy: [!externals] *)
      if String.eqb s "" then Ok false else Ok (String.eqb request s)
  | ExtRegExp r => Ok (test r request)
  | ExtObject keys =>
      (fix loop (l : list string) : Result bool :=
         match l with
         | [] => Ok false
         | k :: l' =>
             if negb (String.eqb k "") && String.eqb request k
             then Ok true else loop l'
         end) keys
  end.

Definition isTargetedRequest (p : TargetingPlugin) (request : string)
  : Result bool :=
  if isSome (find (λ entry, test entry request) (doNotTarget p)) then Ok false
  else b ← isExternalRequest request (externals p); mret (negb b).

Definition targetDependency `{Imports} (p : TargetingPlugin) (dep : Dep.t)
    (babelTarget : BabelTarget) : Result Dep.t :=
  match Dep.request dep with
  | Some request =>
      if negb (truthy (Some request)) then Ok dep
      else
        targeted ← isTargetedRequest p request;
        if negb targeted then Ok dep
        else Ok (Dep.set_request (getTargetedRequest babelTarget request) dep)
  | None => Ok dep
  end.

(** [context.dependencies.forEach(dep => this.targetDependency(dep, t))]:
    the dependencies are rewritten in place, so those before a throw stay
    rewritten. *)
Fixpoint targetDependencies `{Imports} (p : TargetingPlugin)
    (babelTarget : BabelTarget) (deps : list Dep.t)
  : list Dep.t * Result unit :=
  match deps with
  | [] => ([], Ok ())
  | dep :: deps' =>
      match targetDependency p dep babelTarget with
      | Throw e => (dep :: deps', Throw e)
      | Ok dep' =>
          let '(rest, r) := targetDependencies p babelTarget deps' in
          (dep' :: rest, r)
      end
  end.

Definition targetModule `{Imports} (p : TargetingPlugin) (module : Mod.t)
  : Result Mod.t :=
  targeted ← isTargetedRequest p (Mod.request module);
  if negb targeted then Ok module
  else
    match getTargetFromTag (Mod.request module) (targets p) with
    | None => Ok module
    | Some babelTarget =>
        let ogAddDependency := Mod.addDependency module in
        Ok {| Mod.request :=
                getTargetedRequest babelTarget (Mod.request module);
              Mod.options :=
                Some {| Mod.babelTarget := Some babelTarget;
                        Mod.other :=
                          from_option Mod.other "" (Mod.options module) |};
              Mod.dependencies := Mod.dependencies module;
              Mod.addDependency := λ dep deps,
                dep' ← targetDependency p dep babelTarget;
                ogAddDependency dep' deps |}
    end.

(** [path.resolve(pkgRoot, entry)] for an entry of a manifest: Node rejects
    an argument that is not a string. *)
Definition pathResolve `{Imports} (pkgRoot : string) (entry : option string)
  : Result string :=
  match entry with
  | Some e => Ok (path_resolve pkgRoot e)
  | None => Throw (TypeError "Path must be a string")
  end.

(** [entries.find(entry => resource === path.resolve(pkgRoot, entry))] *)
Fixpoint findResolved `{Imports} (resource : option string)
    (pkgRoot : string) (entries : list (option string))
  : Result (option string) :=
  match entries with
  | [] => Ok None
  | entry :: entries' =>
      resolved ← pathResolve pkgRoot entry;
      if strictEq resource resolved then Ok entry
      else findResolved resource pkgRoot entries'
  end.

(** [Object.values(pkg.browser)] *)
Definition browserValues (b : BrowserField) : list (option string) :=
  match b with
  | BrowserAbsent | BrowserOther => []
  | BrowserString s => (λ c, Some (String c "")) <$> String.list_ascii_of_string s
  | BrowserArray entries => Some <$> entries
  | BrowserObject values => values
  end.

Definition browserTruthy (b : BrowserField) : bool :=
  match b with
  | BrowserAbsent => false
  | BrowserString s => negb (String.eqb s "")
  | _ => true
  end.

Definition isTranspiledRequest `{Imports} (p : TargetingPlugin)
    (resolveContext : Ctx.t) : Result bool :=
  let resource := Ctx.resource resolveContext in
  if isSome (find (λ pattern, test pattern (toString resource))
               STANDARD_EXCLUDED) then Ok false
  else if isSome (find (λ pattern, test pattern (toString resource))
                    KNOWN_EXCLUDED) then Ok false
  (* this.exclude.find(pattern => pattern.test(resolveContext.resolve)) *)
  else if isSome (find (λ pattern,
                          test pattern (toString (Ctx.resolve resolveContext)))
                    (exclude p)) then Ok false
  else
    match Ctx.resourceResolveData resolveContext with
    | None =>
        Throw (TypeError "Cannot read property 'descriptionFileRoot' of undefined")
    | Some data =>
        let pkgRoot := Ctx.descriptionFileRoot data in
        match Ctx.descriptionFileData data with
        | None => Throw (TypeError "Cannot read property 'main' of undefined")
        | Some pkg =>
            if truthy (main pkg) &&
               strictEq resource (path_resolve pkgRoot (toString (main pkg)))
            then Ok false
            else if negb (browserTruthy (browser pkg)) then Ok true
            else
              let isString :=
                match browser pkg with
                | BrowserString s => strictEq resource (path_resolve pkgRoot s)
                | _ => false
                end in
              if isString then Ok false
              else
                inArray ←
                  match browser pkg with
                  | BrowserArray entries =>
                      findResolved resource pkgRoot (Some <$> entries)
                  | _ => Ok None
                  end;
                if truthy inArray then Ok false
                else
                  (* typeof(pkg.browser === 'object') is a non-empty string *)
                  inValues ←
                    findResolved resource pkgRoot
                      (browserValues (browser pkg));
                  if truthy inValues then Ok false else Ok true
        end
    end.

Definition getTargetFromContext `{Imports} (context : Ctx.t)
  : option BabelTarget :=
  match from_option Ctx.babelTarget None (Ctx.contextInfo context) with
  | Some t => Some t
  | None =>
      match from_option Ctx.issuerTarget None
              (from_option Ctx.context None
                 (Ctx.resourceResolveData context)) with
      | Some t => Some t
      | None =>
          (fix loop (deps : list Dep.t) : option BabelTarget :=
             match deps with
             | [] => None
             | dep :: deps' =>
                 match Dep.babelTarget dep with
                 | Some t => Some t
                 | None =>
                     match from_option findTarget None (Dep.originModule dep) with
                     | Some t => Some t
                     | None => loop deps'
                     end
                 end
             end) (Ctx.dependencies context)
      end
  end.

Definition targetChunkNames `{Imports} (resolveContext : Ctx.t)
    (babelTarget : BabelTarget) : Ctx.t :=
  Ctx.set_dependencies
    ((λ dep,
        if truthy (Dep.groupName dep)
        then Dep.set_groupName
               (getTargetedAssetName babelTarget (toString (Dep.groupName dep)))
               dep
        else dep) <$> Ctx.dependencies resolveContext)
    resolveContext.

(** The context is rewritten in place: it is returned also when the call
    throws, next to the plugin, whose ledger a blind assignment consumes. *)
Definition checkResolveTarget `{Imports} (p : TargetingPlugin)
    (resolveContext : Ctx.t) (hasLoader : bool)
  : TargetingPlugin * Ctx.t * Result unit :=
  match isTargetedRequest p (Ctx.request resolveContext) with
  | Throw e => (p, resolveContext, Throw e)
  | Ok false => (p, resolveContext, Ok ())
  | Ok true =>
  match isTranspiledRequest p resolveContext with
  | Throw e => (p, resolveContext, Throw e)
  | Ok false => (p, resolveContext, Ok ())
  | Ok true =>
  if negb hasLoader then (p, resolveContext, Ok ())
  else
    let tag (babelTarget : BabelTarget) (c : Ctx.t) : Ctx.t :=
      let c := targetChunkNames c babelTarget in
      Ctx.set_request
        (getTargetedRequest babelTarget (Ctx.request c))
        (if truthy (Ctx.resource c)
         then Some (getTargetedRequest babelTarget (toString (Ctx.resource c)))
         else Ctx.resource c)
        c in
    match getTargetFromTag (Ctx.request resolveContext) (targets p) with
    | Some babelTarget =>
        (p, targetChunkNames resolveContext babelTarget, Ok ())
    | None =>
        match getTargetFromContext resolveContext with
        | Some babelTarget =>
            let '(deps, r) :=
              targetDependencies p babelTarget
                (Ctx.dependencies resolveContext) in
            let c := Ctx.set_dependencies deps resolveContext in
            match r with
            | Throw e => (p, c, Throw e)
            | Ok _ => (p, tag babelTarget c, Ok ())
            end
        | None =>
            match from_option Ctx.context None
                    (Ctx.resourceResolveData resolveContext) with
            | None =>
                (p, resolveContext,
                 Throw (TypeError "Cannot read property 'issuer' of undefined"))
            | Some context =>
                match getBlindTarget p (toString (Ctx.issuer context))
                        (Ctx.request resolveContext) with
                | (p', Throw e) => (p', resolveContext, Throw e)
                | (p', Ok babelTarget) =>
                    (p', tag babelTarget resolveContext, Ok ())
                end
            end
        end
    end
  end end.

(** The transform options of a target as the options of a chain entry: an
    options object without the marker flag. *)
Definition transformOptions (babelTarget : BabelTarget) : LoaderOptions :=
  Opts false None (options babelTarget).

(** [Object.assign({}, loader, { loader: this.babelLoaderPath,
       options: babelTarget.options })], a new object. *)
Definition targetedLoader `{Imports} (oid : nat) (loader : Loader.t)
    (babelTarget : BabelTarget) : Loader.t :=
  {| Loader.oid := oid;
     Loader.loader := babelLoaderPath;
     Loader.options := Some (transformOptions babelTarget);
     Loader.ident := Loader.ident loader |}.

(** [getTargetedBabelLoader(loader, babelTarget)], on the own properties of
    the cache.  The cache is created by [{}]: under a key that names an
    inherited property the code finds that property and hands it on in place
    of a chain entry; the rewriting is stated for targets whose key is no such
    name. *)
Definition getTargetedBabelLoader `{Imports} (p : TargetingPlugin)
    (nextOid : nat) (loader : Loader.t) (babelTarget : BabelTarget)
  : TargetingPlugin * nat * Loader.t :=
  match babelLoaders p !! key babelTarget with
  | Some cached => (p, nextOid, cached)
  | None =>
      let created := targetedLoader nextOid loader babelTarget in
      (set_babelLoaders (<[key babelTarget := created]> (babelLoaders p)) p,
       S nextOid, created)
  end.

(** The state the loop of [replaceLoaders] works on: the plugin (for its
    cache), the identity the next new object gets, and
    [resolveContext.loaders]. *)
Record Rewriting := {
  plugin : TargetingPlugin;
  nextOid : nat;
  chain : list Loader.t;
}.

(** [{ loader: loader.loader, options: loader.options.loaderOptions,
       ident: loader.ident }], a new object. *)
Definition effectiveLoader (oid : nat) (loader : Loader.t)
    (loaderOptions : option LoaderOptions) : Loader.t :=
  {| Loader.oid := oid;
     Loader.loader := Loader.loader loader;
     Loader.options := loaderOptions;
     Loader.ident := Loader.ident loader |}.

(** The body of [loaders.forEach(...)] in [replaceLoaders]. *)
Definition replaceLoader `{Imports} (babelTarget : option BabelTarget)
    (st : Rewriting) (loader : Loader.t) : Rewriting * Result unit :=
  let index := indexOf (chain st) loader in
  match babelTarget with
  | None =>
      ({| plugin := plugin st; nextOid := nextOid st;
          chain := splice (chain st) index 1 [] |}, Ok ())
  | Some babelTarget =>
      match Loader.options loader with
      | None =>
          (st, Throw (TypeError "Cannot read property 'loaderOptions' of undefined"))
      | Some (Opts _ loaderOptions _) =>
          let effective := effectiveLoader (nextOid st) loader loaderOptions in
          if String.eqb (Loader.loader loader) babelLoaderPath then
            let '(p', next', targeted) :=
              getTargetedBabelLoader (plugin st) (S (nextOid st))
                effective babelTarget in
            ({| plugin := p'; nextOid := next';
                chain := splice (chain st) index 1 [targeted] |}, Ok ())
          else
            ({| plugin := plugin st; nextOid := S (nextOid st);
                chain := splice (chain st) index 1 [effective] |},
             Ok ())
      end
  end.

(** [loaders.forEach(body)], stopped by the first throw. *)
Fixpoint forEachLoader (body : Rewriting → Loader.t → Rewriting * Result unit)
    (st : Rewriting) (loaders : list Loader.t) : Rewriting * Result unit :=
  match loaders with
  | [] => (st, Ok ())
  | loader :: loaders' =>
      match body st loader with
      | (st', Ok _) => forEachLoader body st' loaders'
      | (st', Throw e) => (st', Throw e)
      end
  end.

(** [resourceResolveData && isTranspiledRequest(ctx) &&
     getTargetFromContext(ctx)], whose falsy values all read as "no
    target". *)
Definition contextTarget `{Imports} (p : TargetingPlugin)
    (resolveContext : Ctx.t) : Result (option BabelTarget) :=
  match Ctx.resourceResolveData resolveContext with
  | None => Ok None
  | Some _ =>
      transpiled ← isTranspiledRequest p resolveContext;
      if transpiled : bool then Ok (getTargetFromContext resolveContext)
      else Ok None
  end.

Definition replaceLoaders `{Imports} (p : TargetingPlugin) (nextOid : nat)
    (resolveContext : Ctx.t) (loaders : list Loader.t)
  : TargetingPlugin * nat * Ctx.t * Result unit :=
  match contextTarget p resolveContext with
  | Throw e => (p, nextOid, resolveContext, Throw e)
  | Ok babelTarget =>
      let '(st, r) :=
        forEachLoader (replaceLoader babelTarget)
          {| plugin := p; nextOid := nextOid;
             chain := Ctx.loaders resolveContext |}
          loaders in
      (plugin st, Targeting.nextOid st,
       Ctx.set_loaders (chain st) resolveContext, r)
  end.

Definition afterResolve `{Imports} (p : TargetingPlugin) (nextOid : nat)
    (resolveContext : Ctx.t)
  : TargetingPlugin * nat * Ctx.t * Result unit :=
  let loaders := List.filter Loader.isMarker (Ctx.loaders resolveContext) in
  match checkResolveTarget p resolveContext
          (negb (Nat.eqb (length loaders) 0)) with
  | (p', c, Throw e) => (p', nextOid, c, Throw e)
  | (p', c, Ok _) => replaceLoaders p' nextOid c loaders
  end.

(** What the cache holds in every state the plugin reaches: entries that
    [getTargetedBabelLoader] made, so entries for the babel loader with the
    transform options of some target.  Under a key, that need not be the
    target a later module with the key is rewritten for. *)
Definition cacheOfVariants `{Imports} (p : TargetingPlugin) : Prop :=
  ∀ k cached,
    babelLoaders p !! k = Some cached →
    Loader.loader cached = babelLoaderPath ∧
    ∃ transform, Loader.options cached = Some (Opts false None transform).

(** The entry [created] that takes the place of the marker [marker] when the
    cache holds nothing under the key of the target: a new object for the
    babel loader, with the transform options of the target and the [ident] of
    the marker. *)
Definition variantFor `{Imports} (babelTarget : BabelTarget) (fresh : nat)
    (marker created : Loader.t) : Prop :=
  (fresh ≤ Loader.oid created)%nat ∧
  Loader.loader created = babelLoaderPath ∧
  Loader.options created = Some (Opts false None (options babelTarget)) ∧
  Loader.ident created = Loader.ident marker.

(** How an entry [old] of the chain relates to the entry [new] at its place
    after the rewriting for a target, given the cache afterwards and the
    first identity that was free before: the marker around the babel loader
    has become what the cache holds under the key of the target, any other
    marker a new object with the marker's loader, its declared
    [loaderOptions] and its [ident], and every other entry is the same
    object. *)
Definition rewrittenEntry `{Imports} (babelTarget : BabelTarget)
    (cache : gmap string Loader.t) (fresh : nat) (old new : Loader.t)
  : Prop :=
  if Loader.isMarker old then
    if String.eqb (Loader.loader old) babelLoaderPath then
      cache !! key babelTarget = Some new
    else
      (fresh ≤ Loader.oid new)%nat ∧
      Loader.loader new = Loader.loader old ∧
      Loader.ident new = Loader.ident old ∧
      ∃ flag loaderOptions other,
        Loader.options old = Some (Opts flag loaderOptions other) ∧
        Loader.options new = loaderOptions
  else new = old.

End Targeting.

(* ===================================================================== *)
(** * WebpackBabelMultiTargetPlugin *)
(* ===================================================================== *)

Module MultiTarget.

Definition CHILD_COMPILER_PREFIX : string :=
  "webpack-babel-multi-target-compiler-".
Definition BABEL_LOADER : string := "babel-loader".
Definition FILTERED_PLUGINS : list string :=
  ["HardSourceWebpackPlugin"; "HtmlWebpackPlugin"].

(** A plugin instance of a webpack configuration.  [instanceId] is the
    identity of the object ([!==] and [includes] compare objects). *)
Record PluginInstance := {
  instanceId : nat;
  constructorName : string;      (* plugin.constructor.name *)
  (** [plugin.constructor === WebpackBabelMultiTargetPlugin] *)
  isMultiTargetPlugin : bool;
}.

Global Instance PluginInstance_eq_dec : EqDecision PluginInstance.
Proof. solve_decision. Defined.

(** [options.plugins] by run-time type; a function is given by the list a
    call returns. *)
Inductive PluginsField :=
  | PluginsAbsent
  | PluginsFunction (result : list PluginInstance)
  | PluginsInvalid.   (* truthy and not a function *)

(** [WebpackBabelMultiTargetOptions] *)
Module Opt.
Record t := {
  key : option string;
  browserProfile : option string;
  options : string;   (* the babel options, opaque *)
  plugins : PluginsField;
}.
End Opt.

(** [if (!options.key) { options.key = options.browserProfile; }] *)
Definition defaultKey (options : Opt.t) : Opt.t :=
  if negb (truthy (Opt.key options)) then
    {| Opt.key := Opt.browserProfile options;
       Opt.browserProfile := Opt.browserProfile options;
       Opt.options := Opt.options options;
       Opt.plugins := Opt.plugins options |}
  else options.

(** Options that pass the two checks of the constructor. *)
Definition wellFormed (options : Opt.t) : Prop :=
  truthy (Opt.browserProfile options) = true ∧
  Opt.plugins options ≠ PluginsInvalid.

(** The body of [multiTargetOptions.forEach(options => ...)] in the
    constructor. *)
Definition validate (options : Opt.t) : Result Opt.t :=
  if negb (truthy (Opt.browserProfile options)) then
    Throw (Error "WebpackBabelMultiTargetOptions.browserProfile is required")
  else
    match Opt.plugins options with
    | PluginsInvalid =>
        Throw (Error "WebpackBabelMultiTargetOptions.plugins must be a function")
    | _ =>
        Ok (defaultKey options)
    end.

Fixpoint validateAll (l : list Opt.t) : Result (list Opt.t) :=
  match l with
  | [] => Ok []
  | options :: l' =>
      options' ← validate options;
      rest ← validateAll l';
      mret (options' :: rest)
  end.

(** [new WebpackBabelMultiTargetPlugin(...multiTargetOptions)]: the value of
    [this.multiTargetOptions], or what the constructor throws. *)
Definition constructor (multiTargetOptions : list Opt.t)
  : Result (list Opt.t) :=
  match multiTargetOptions with
  | [] =>
      Throw (Error "Must provide at least one WebpackBabelMultiTargetOptions object")
  | _ => validateAll multiTargetOptions
  end.

(** A rule of [config.module.rules], as [findBabelRules] reads it. *)
Inductive Use (R : Type) :=
  | UseAbsent
  | UseString (s : string)
  | UseArray (rules : list R).
Global Arguments UseAbsent {R}.
Global Arguments UseString {R} s.
Global Arguments UseArray {R} rules.

Inductive Rule :=
  | MkRule (loader : option string) (use : Use Rule).

(** One turn of the loop of [findBabelRules], with its recursive call. *)
Fixpoint babelRulesOf (rule : Rule) : list Rule :=
  match rule with
  | MkRule loader use =>
      if strictEq loader BABEL_LOADER ||
         match use with
         | UseString s => String.eqb s BABEL_LOADER
         | _ => false
         end
      then [rule]
      else
        match use with
        | UseArray inner =>
            (fix each (l : list Rule) : list Rule :=
               match l with
               | [] => []
               | r :: l' => (babelRulesOf r ++ each l')%list
               end) inner
        (* the characters of a string are no rules with a loader *)
        | _ => []
        end
  end.

Definition findBabelRules (rules : list Rule) : list Rule :=
  concat (babelRulesOf <$> rules).

(** [compiler.options], the part [apply] reads. *)
Record CompilerOptions := {
  plugins : list PluginInstance;
  rules : list Rule;
}.

(** [config.plugins] of the child: the plugin's own filter. *)
Definition childPlugins (pluginSelf : PluginInstance)
    (plugins : list PluginInstance) : list PluginInstance :=
  List.filter (λ plugin,
      negb (bool_decide (plugin = pluginSelf)) &&
      negb (isMultiTargetPlugin plugin) &&
      negb (bool_decide (constructorName plugin ∈ FILTERED_PLUGINS)))
    plugins.

(** [compiler.options.plugins.forEach(plugin => { if
    (config.plugins.includes(plugin)) { console.error(...); throw ... } })]:
    the lines written to the console and the outcome. *)
Definition DUPLICATION_MESSAGE : string :=
  "Same plugin instance referenced from both original and child compilations. Use the plugins option to specify a plugin configuration factory and move all plugin instantiations into it.".

Fixpoint checkDuplication (parentPlugins configPlugins : list PluginInstance)
  : list string * Result unit :=
  match parentPlugins with
  | [] => ([], Ok ())
  | plugin :: rest =>
      if bool_decide (plugin ∈ configPlugins) then
        (["Found plugin instance duplication: " +:+ constructorName plugin],
         Throw (Error DUPLICATION_MESSAGE))
      else checkDuplication rest configPlugins
  end.

(** [multiTargetOption.plugins ? multiTargetOption.plugins() :
     config.plugins], where [config = merge({}, compiler.options)] holds a
    copy of the plugin array with the same instances. *)
Definition chosenPlugins (compilerOptions : CompilerOptions)
    (multiTargetOption : Opt.t) : Result (list PluginInstance) :=
  match Opt.plugins multiTargetOption with
  | PluginsAbsent => Ok (plugins compilerOptions)
  | PluginsFunction result => Ok result
  | PluginsInvalid =>
      Throw (TypeError "multiTargetOption.plugins is not a function")
  end.

(** A child compiler as far as the plugin sets it up. *)
Record ChildCompiler := {
  childName : string;
  childPluginList : list PluginInstance;
  childOptions : string;   (* the options put on every babel rule *)
}.

(** The body of [multiTargetOptions.map(multiTargetOption => ...)] in
    [apply], up to the naming of the child compiler. *)
Definition forkChild (pluginSelf : PluginInstance)
    (compilerOptions : CompilerOptions) (multiTargetOption : Opt.t)
  : list string * Result ChildCompiler :=
  match chosenPlugins compilerOptions multiTargetOption with
  | Throw e => ([], Throw e)
  | Ok plugins0 =>
      let configPlugins := childPlugins pluginSelf plugins0 in
      match checkDuplication (plugins compilerOptions) configPlugins with
      | (console, Throw e) => (console, Throw e)
      | (console, Ok _) =>
          match findBabelRules (rules compilerOptions) with
          | [] => (console, Throw (Error "Could not find any babel-loader rules"))
          | _ =>
              (console,
               Ok {| childName :=
                       CHILD_COMPILER_PREFIX +:+
                         toString (Opt.key multiTargetOption);
                     childPluginList := configPlugins;
                     childOptions := Opt.options multiTargetOption |})
          end
      end
  end.

(** [compilationBrowserProfiles] once [apply] has forked every child:
    [compilationBrowserProfiles[childCompiler.name] = browserProfile], in
    the order of the targets. *)
Definition recordProfile (profiles : gmap string (option string))
    (multiTargetOption : Opt.t) : gmap string (option string) :=
  <[CHILD_COMPILER_PREFIX +:+ toString (Opt.key multiTargetOption)
    := Opt.browserProfile multiTargetOption]> profiles.

Definition compilationBrowserProfiles (multiTargetOptions : list Opt.t)
  : gmap string (option string) :=
  foldl recordProfile ∅ multiTargetOptions.

(** A child compilation of the parent compilation. *)
Record Child := {
  name : option string;
  assets : gset string;   (* the keys of [child.assets] *)
}.

Inductive AttrValue :=
  | AttrString (s : string)
  | AttrBool (b : bool).

(** A tag of html-webpack-plugin. *)
Record Tag := {
  tagName : string;
  attributes : gmap string AttrValue;
}.

(** The property key [tag.attributes.src] is coerced to. *)
Definition propertyKey (v : option AttrValue) : string :=
  match v with
  | None => "undefined"
  | Some (AttrString s) => s
  | Some (AttrBool true) => "true"
  | Some (AttrBool false) => "false"
  end.


(** [compilation.children.filter(child =>
     child.name.startsWith(CHILD_COMPILER_PREFIX))] *)
Fixpoint prefixedChildren (children : list Child) : Result (list Child) :=
  match children with
  | [] => Ok []
  | child :: children' =>
      match name child with
      | None =>
          Throw (TypeError "Cannot read property 'startsWith' of undefined")
      | Some n =>
          rest ← prefixedChildren children';
          mret (if startsWith n CHILD_COMPILER_PREFIX
                then child :: rest else rest)
      end
  end.

(** The body of [.forEach(tag => ...)] on a script tag. *)
Definition tagScript (multiTargetOptions : list Opt.t)
    (children : list Child) (tag : Tag) : Tag :=
  let src := propertyKey (attributes tag !! "src") in
  let child := find (λ child, bool_decide (src ∈ assets child)) children in
  let isModernBundle :=
    match child with
    | Some child =>
        match compilationBrowserProfiles multiTargetOptions
                !! toString (name child) with
        | Some profile => strictEq profile "modern"
        | None => false
        end
    | None =>
        isSome (find (λ options,
                        strictEq (Opt.browserProfile options) "legacy")
                  multiTargetOptions)
    end in
  {| tagName := tagName tag;
     attributes :=
       if isModernBundle
       then <["type" := AttrString "module"]> (attributes tag)
       else <["nomodule" := AttrBool true]> (attributes tag) |}.

(** The [html-webpack-plugin-alter-asset-tags] handler: [head] and [body]
    afterwards.  The tags are objects rewritten in place, and what is
    written to a tag does not depend on what was written before. *)
Definition alterAssetTags (multiTargetOptions : list Opt.t)
    (compilationChildren : list Child) (head body : list Tag)
  : Result (list Tag * list Tag) :=
  children ← prefixedChildren compilationChildren;
  let update tag :=
    if String.eqb (tagName tag) "script"
    then tagScript multiTargetOptions children tag else tag in
  mret (update <$> head, update <$> body).

End MultiTarget.

(* ===================================================================== *)
(** * TargetingPlugin: lazy routes *)
(* ===================================================================== *)

Module Lazy.

(** [resolveContext.resolveOptions] *)
Record ResolveOptions := {
  babelTargetMap : option (gmap string BabelTarget);
}.

(** What [resolveDependencies(fs, resource, cb)] hands to [cb]: the error and
    the dependencies. *)
Definition Resolved : Type := option JsError * option (list Dep.t).

(** The context object of the [afterResolve] hook of the context module
    factory.  [resolveDependencies] is the function currently installed on
    the object, by the resource it is called with. *)
Record t := {
  mode : option string;
  resource : option string;
  context : option string;
  resolveOptions : option ResolveOptions;
  dependencies : list Dep.t;
  resolveDependencies : string → Result Resolved;
}.

(** The function [targetLazyModules] installs in place of
    [resolveDependencies]: the callback it passes on targets the dependencies
    and calls [cb(null, dependencies)]. *)
Definition wrapResolveDependencies `{Imports} (p : Targeting.TargetingPlugin)
    (babelTarget : BabelTarget) (ogResolveDependencies : string → Result Resolved)
  : string → Result Resolved :=
  λ resource,
    resolved ← ogResolveDependencies resource;
    match resolved.2 with
    | None => Throw (TypeError "Cannot read property 'forEach' of undefined")
    | Some deps =>
        match Targeting.targetDependencies p babelTarget deps with
        | (_, Throw e) => Throw e
        | (deps', Ok _) => Ok (None, Some deps')
        end
    end.

(** [targetLazyModules(resolveContext)]: the plugin and the context
    afterwards, and whether the context was returned ([true]) or [undefined]
    was ([false]). *)
Definition targetLazyModules `{Imports} (p : Targeting.TargetingPlugin)
    (resolveContext : t) : Targeting.TargetingPlugin * t * Result bool :=
  if strictEq (mode resolveContext) "lazy" &&
     truthy (resource resolveContext) &&
     endsWith (toString (resource resolveContext)) "$$_lazy_route_resource"
  then
    match Targeting.getBlindTarget p (toString (context resolveContext))
            (toString (resource resolveContext)) with
    | (p', Throw e) => (p', resolveContext, Throw e)
    | (p', Ok babelTarget) =>
        let targeted :=
          getTargetedRequest babelTarget (toString (resource resolveContext)) in
        match resolveOptions resolveContext with
        | None =>
            (p',
             {| mode := mode resolveContext;
                resource := Some targeted;
                context := context resolveContext;
                resolveOptions := None;
                dependencies := dependencies resolveContext;
                resolveDependencies := resolveDependencies resolveContext |},
             Throw (TypeError "Cannot read property 'babelTargetMap' of undefined"))
        | Some ro =>
            let '(deps, r) :=
              Targeting.targetDependencies p' babelTarget
                (dependencies resolveContext) in
            (p',
             {| mode := mode resolveContext;
                resource := Some targeted;
                context := context resolveContext;
                resolveOptions :=
                  Some {| babelTargetMap :=
                            Some (<[targeted := babelTarget]>
                                    (default ∅ (babelTargetMap ro))) |};
                dependencies := deps;
                resolveDependencies :=
                  wrapResolveDependencies p' babelTarget
                    (resolveDependencies resolveContext) |},
             match r with Throw e => Throw e | Ok _ => Ok true end)
        end
    end
  else (p, resolveContext, Ok false).

End Lazy.

(* ===================================================================== *)
(** * WebpackBabelMultiTargetPlugin: chunks of the child compilations *)
(* ===================================================================== *)

Module Html.

(** A chunk of a child compilation, with what the two handlers read. *)
Record Chunk := {
  name : option string;
  files : list string;
  hash : string;
  size : nat;   (* chunk.size({}) *)
}.

(** The body of [chunks.forEach(...)] in the [before-chunk-ids] handler of
    the child of [multiTargetOption]:
    [if (chunk.name) { chunk.name += `.${multiTargetOption.key}`; }] *)
Definition renameChunk (key : option string) (chunk : Chunk) : Chunk :=
  if truthy (name chunk) then
    {| name := Some (toString (name chunk) +:+ "." +:+ toString key);
       files := files chunk; hash := hash chunk; size := size chunk |}
  else chunk.

Definition beforeChunkIds (key : option string) (chunks : list Chunk)
  : list Chunk :=
  renameChunk key <$> chunks.

(** A chunk object as html-webpack-plugin holds it. *)
Record HtmlChunk := {
  css : list string;
  entry : option string;
  chunkHash : string;
  chunkSize : nat;
}.

(** A child compilation, with what [before-html-generation] reads. *)
Record ChildCompilation := {
  childName : option string;
  chunks : list Chunk;
}.

(** [htmlPluginData.assets] *)
Record Assets := {
  assetChunks : gmap string HtmlChunk;
  js : list (option string);
}.

(** [chunk.files.find(file => file.endsWith('.js'))] *)
Definition jsFile (chunk : Chunk) : option string :=
  find (λ file, endsWith file ".js") (files chunk).

(** [child.name && child.name.startsWith(CHILD_COMPILER_PREFIX)] *)
Definition isChildOfPlugin (child : ChildCompilation) : bool :=
  truthy (childName child) &&
  startsWith (toString (childName child)) MultiTarget.CHILD_COMPILER_PREFIX.

(** [_.chain(sortedChunks).map(chunk => [chunk.name, {...}]).fromPairs()]:
    of two chunks of one name the later stays. *)
Definition htmlChunks (sortedChunks : list Chunk) : gmap string HtmlChunk :=
  foldl (λ pairs chunk,
           <[toString (name chunk) :=
               {| css := []; entry := jsFile chunk;
                  chunkHash := hash chunk; chunkSize := size chunk |}]> pairs)
        ∅ sortedChunks.

(** The body of [.forEach(child => ...)] in the [before-html-generation]
    handler.  [sortChunks] is the method of html-webpack-plugin, with the sort
    mode of its options. *)
Definition addChild (sortChunks : list Chunk → list Chunk) (assets : Assets)
    (child : ChildCompilation) : Assets :=
  let jsChunks := List.filter (λ chunk, truthy (jsFile chunk)) (chunks child) in
  let sortedChunks := sortChunks jsChunks in
  {| (* Object.assign(htmlPluginData.assets.chunks, htmlChunks) *)
     assetChunks := htmlChunks sortedChunks ∪ assetChunks assets;
     (* htmlPluginData.assets.js.push(...assetNames) *)
     js := js assets ++ (jsFile <$> sortedChunks) |}.

Definition beforeHtmlGeneration (sortChunks : list Chunk → list Chunk)
    (children : list ChildCompilation) (assets : Assets) : Assets :=
  foldl (addChild sortChunks) assets (List.filter isChildOfPlugin children).

End Html.

(* ===================================================================== *)
(** * Predicates the properties are stated with *)
(* ===================================================================== *)

(** An externals declaration holds a function, at any depth. *)
Fixpoint hasFunction (externals : Externals) : bool :=
  match externals with
  | ExtFunction => true
  | ExtArray elements =>
      (fix any (l : list Externals) : bool :=
         match l with
         | [] => false
         | ext :: l' => hasFunction ext || any l'
         end) elements
  | _ => false
  end.

(** [module.addDependency(dep)] for each dependency of a list, in order. *)
Definition addDependencies (module : Mod.t) (deps : list Dep.t)
  : Result Mod.t :=
  foldl (λ acc dep, m ← acc; Mod.callAddDependency m dep) (Ok module) deps.

(** A module whose [addDependency] is the wrapper [targetModule] installs for
    [T], around webpack's registration. *)
Definition wrapped `{Imports} (p : Targeting.TargetingPlugin) (T : BabelTarget)
    (m : Mod.t) : Prop :=
  ∀ dep deps,
    Mod.addDependency m dep deps =
      dep' ← Targeting.targetDependency p dep T;
      Mod.registerDependency dep' deps.

(** What the loop of [replaceLoaders] may change of the plugin and of the
    identities between two of its states: the cache may grow, and identities
    may be used up. *)
Definition framed (st st' : Targeting.Rewriting) : Prop :=
  Targeting.plugin st' =
    Targeting.set_babelLoaders
      (Targeting.babelLoaders (Targeting.plugin st')) (Targeting.plugin st) ∧
  (Targeting.nextOid st ≤ Targeting.nextOid st')%nat ∧
  ∀ k c,
    Targeting.babelLoaders (Targeting.plugin st) !! k = Some c →
    Targeting.babelLoaders (Targeting.plugin st') !! k = Some c.

(** [rule.loader === BABEL_LOADER || rule.use === BABEL_LOADER] *)
Definition isBabelRule (rule : MultiTarget.Rule) : bool :=
  match rule with
  | MultiTarget.MkRule loader use =>
      strictEq loader MultiTarget.BABEL_LOADER ||
      match use with
      | MultiTarget.UseString s => String.eqb s MultiTarget.BABEL_LOADER
      | _ => false
      end
  end.

(** What a child keeps of a plugin list: the test of the filter in
    [childPlugins]. *)
Definition survivesFilter (pluginSelf plugin : MultiTarget.PluginInstance)
  : Prop :=
  plugin ≠ pluginSelf ∧
  MultiTarget.isMultiTargetPlugin plugin = false ∧
  MultiTarget.constructorName plugin ∉ MultiTarget.FILTERED_PLUGINS.

(* ===================================================================== *)
(** * A sample environment *)
(* ===================================================================== *)

(** Modelled from the spec: babel.target.ts (the methods of [BabelTarget]) is
    not among the sources.  The tag is the query-style suffix of the spec's
    scenario ([./app.js?babelTarget=legacy]); [getTargetedRequest] "appends
    this target's tag if absent"; [getTargetedAssetName] "appends [.{key}]";
    [getTargetFromTag] resolves an embedded tag to a registered target, "no
    match => null". *)
Module SpecTarget.

Definition tagOf (t : BabelTarget) : string := "?babelTarget=" +:+ key t.

Definition getTargetedRequest (t : BabelTarget) (request : string) : string :=
  if includes request (tagOf t) then request else request +:+ tagOf t.

Definition getTargetedAssetName (t : BabelTarget) (name : string) : string :=
  name +:+ "." +:+ key t.

Definition getTargetFromTag (request : string) (targets : list BabelTarget)
  : option BabelTarget :=
  find (λ t, includes request (tagOf t)) targets.

End SpecTarget.

(** The environment the examples below are evaluated in: the methods above, no
    target recorded on any module, the client entry of webpack-dev-server, one
    pattern in each exclusion table and paths joined with a slash. *)
Definition sampleImports : Imports := {|
  getTargetedRequest := SpecTarget.getTargetedRequest;
  getTargetedAssetName := SpecTarget.getTargetedAssetName;
  getTargetFromTag := SpecTarget.getTargetFromTag;
  findTarget := λ _, None;
  DEV_SERVER_CLIENT := "webpack-dev-server/client";
  STANDARD_EXCLUDED := [ {| test := λ s, includes s "node_modules/core-js/" |} ];
  KNOWN_EXCLUDED := [ {| test := λ s, includes s "node_modules/lodash/" |} ];
  babelLoaderPath := "/app/node_modules/babel-loader/lib/index.js";
  path_resolve := λ root entry, root +:+ "/" +:+ entry;
|}.

Definition legacy : BabelTarget := {| key := "legacy"; options := "es5" |}.
Definition modern : BabelTarget := {| key := "modern"; options := "es2017" |}.


(** The plugin [new TargetingPlugin([legacy, modern], [], undefined,
    undefined)]. *)
Definition samplePlugin : Targeting.TargetingPlugin :=
  {| Targeting.babelLoaders := ∅;
     Targeting.remainingTargets := Some ∅;
     Targeting.targets := [legacy; modern];
     Targeting.exclude := [];
     Targeting.doNotTarget := Targeting.NOT_TARGETED;
     Targeting.externals := ExtUndefined |}.

(** A module created from [request], with webpack's own [addDependency]. *)
Definition sampleModule (request : string) : Mod.t :=
  {| Mod.request := request;
     Mod.options := None;
     Mod.dependencies := [];
     Mod.addDependency := Mod.registerDependency |}.

(** A dependency on [request], as a [require] of it creates one. *)
Definition sampleDependency (request : string) : Dep.t :=
  {| Dep.request := Some request;
     Dep.userRequest := Some request;
     Dep.babelTarget := None;
     Dep.originModule := None;
     Dep.groupName := None |}.

(** The plugin with one caller-supplied exclusion pattern,
    [/node_modules\/vendor-lib\//]. *)
Definition excludingPlugin : Targeting.TargetingPlugin :=
  {| Targeting.babelLoaders := ∅;
     Targeting.remainingTargets := Some ∅;
     Targeting.targets := [legacy; modern];
     Targeting.exclude :=
       [ {| test := λ s, includes s "node_modules/vendor-lib/" |} ];
     Targeting.doNotTarget := Targeting.NOT_TARGETED;
     Targeting.externals := ExtUndefined |}.

(** The context of a file resolved inside the package [vendor-lib], whose
    manifest names another file as [main] and has no [browser] field; as with
    every context webpack passes, there is no [resolve] property. *)
Definition vendorContext : Ctx.t :=
  {| Ctx.request := "/app/node_modules/vendor-lib/src/index.js";
     Ctx.resource := Some "/app/node_modules/vendor-lib/src/index.js";
     Ctx.resolve := None;
     Ctx.contextInfo := None;
     Ctx.resourceResolveData :=
       Some {| Ctx.context :=
                 Some {| Ctx.issuer := Some "/app/src/index.js";
                         Ctx.issuerTarget := None |};
               Ctx.descriptionFileRoot := "/app/node_modules/vendor-lib";
               Ctx.descriptionFileData :=
                 Some {| main := Some "dist/main.js";
                         browser := BrowserAbsent |} |};
     Ctx.dependencies := [];
     Ctx.loaders := [] |}.

(** Target options with a profile, no key and no plugin factory. *)
Definition profileOnly (profile : string) : MultiTarget.Opt.t :=
  {| MultiTarget.Opt.key := None;
     MultiTarget.Opt.browserProfile := Some profile;
     MultiTarget.Opt.options := "";
     MultiTarget.Opt.plugins := MultiTarget.PluginsAbsent |}.

(** Target options with a key and a profile. *)
Definition keyed (key profile : string) : MultiTarget.Opt.t :=
  {| MultiTarget.Opt.key := Some key;
     MultiTarget.Opt.browserProfile := Some profile;
     MultiTarget.Opt.options := "";
     MultiTarget.Opt.plugins := MultiTarget.PluginsAbsent |}.

(** A parent configuration: the multi-target plugin itself, one instance of
    [DefinePlugin], and one rule for [babel-loader]. *)
Definition pluginSelf : MultiTarget.PluginInstance :=
  {| MultiTarget.instanceId := 0;
     MultiTarget.constructorName := "WebpackBabelMultiTargetPlugin";
     MultiTarget.isMultiTargetPlugin := true |}.

Definition definePlugin : MultiTarget.PluginInstance :=
  {| MultiTarget.instanceId := 1;
     MultiTarget.constructorName := "DefinePlugin";
     MultiTarget.isMultiTargetPlugin := false |}.

Definition parentOptions : MultiTarget.CompilerOptions :=
  {| MultiTarget.plugins := [pluginSelf; definePlugin];
     MultiTarget.rules :=
       [MultiTarget.MkRule (Some "babel-loader") MultiTarget.UseAbsent] |}.

(** Two children that both emitted [bundle.js], the legacy one first, and the
    script tag that loads it. *)
Definition legacyChild : MultiTarget.Child :=
  {| MultiTarget.name := Some "webpack-babel-multi-target-compiler-legacy";
     MultiTarget.assets := {[ "bundle.js" ]} |}.

Definition modernChild : MultiTarget.Child :=
  {| MultiTarget.name := Some "webpack-babel-multi-target-compiler-modern";
     MultiTarget.assets := {[ "bundle.js" ]} |}.

Definition scriptTag (src : string) : MultiTarget.Tag :=
  {| MultiTarget.tagName := "script";
     MultiTarget.attributes := {[ "src" := MultiTarget.AttrString src ]} |}.

(** A chain of three entries: a plain loader, the marker around
    [babel-loader] and a marker around another loader. *)
Definition eslintEntry : Loader.t :=
  {| Loader.oid := 0;
     Loader.loader := "/app/node_modules/eslint-loader/index.js";
     Loader.options := None;
     Loader.ident := None |}.

Definition babelMarker : Loader.t :=
  {| Loader.oid := 1;
     Loader.loader := "/app/node_modules/babel-loader/lib/index.js";
     Loader.options := Some (Opts true (Some (Opts false None "cacheDirectory")) "");
     Loader.ident := Some "ref--4-0" |}.

Definition otherMarker : Loader.t :=
  {| Loader.oid := 2;
     Loader.loader := "/app/node_modules/ts-loader/index.js";
     Loader.options := Some (Opts true None "");
     Loader.ident := Some "ref--4-1" |}.

(** The context of an application file issued from a module targeted for
    [target], with the chain above. *)
Definition appContext (target : option BabelTarget) : Ctx.t :=
  {| Ctx.request := "/app/src/feature.js";
     Ctx.resource := Some "/app/src/feature.js";
     Ctx.resolve := None;
     Ctx.contextInfo := Some {| Ctx.babelTarget := target |};
     Ctx.resourceResolveData :=
       Some {| Ctx.context :=
                 Some {| Ctx.issuer := Some "/app/src/index.js";
                         Ctx.issuerTarget := None |};
               Ctx.descriptionFileRoot := "/app";
               Ctx.descriptionFileData :=
                 Some {| main := Some "dist/main.js";
                         browser := BrowserAbsent |} |};
     Ctx.dependencies := [];
     Ctx.loaders := [eslintEntry; babelMarker; otherMarker] |}.

(** The context of the application file [request], reached through a dynamic
    import: no target on the context, none on a dependency. *)
Definition untracedContext (request : string) : Ctx.t :=
  {| Ctx.request := request;
     Ctx.resource := Some "/app/src/app.js";
     Ctx.resolve := None;
     Ctx.contextInfo := None;
     Ctx.resourceResolveData :=
       Some {| Ctx.context :=
                 Some {| Ctx.issuer := Some "/app/src/index.js";
                         Ctx.issuerTarget := None |};
               Ctx.descriptionFileRoot := "/app";
               Ctx.descriptionFileData :=
                 Some {| main := Some "dist/main.js";
                         browser := BrowserAbsent |} |};
     Ctx.dependencies := [];
     Ctx.loaders := [babelMarker] |}.

(** Contexts of files of the package [vendor-lib]: its [main] file, a file
    its [browser] mapping names, and a file of a package excluded by the
    standard table that came without resolve data. *)
Definition vendorData (b : BrowserField) : Ctx.ResolveData :=
  {| Ctx.context := None;
     Ctx.descriptionFileRoot := "/app/node_modules/vendor-lib";
     Ctx.descriptionFileData :=
       Some {| main := Some "dist/main.js"; browser := b |} |}.

Definition fileContext (resource : string) (data : option Ctx.ResolveData)
  : Ctx.t :=
  {| Ctx.request := resource;
     Ctx.resource := Some resource;
     Ctx.resolve := None;
     Ctx.contextInfo := None;
     Ctx.resourceResolveData := data;
     Ctx.dependencies := [];
     Ctx.loaders := [] |}.

(** Target options with a plugin factory that makes its own instances. *)
Definition ownPlugins : list MultiTarget.PluginInstance :=
  [{| MultiTarget.instanceId := 7;
      MultiTarget.constructorName := "DefinePlugin";
      MultiTarget.isMultiTargetPlugin := false |};
   {| MultiTarget.instanceId := 8;
      MultiTarget.constructorName := "HtmlWebpackPlugin";
      MultiTarget.isMultiTargetPlugin := false |}].

Definition withFactory : MultiTarget.Opt.t :=
  {| MultiTarget.Opt.key := Some "modern";
     MultiTarget.Opt.browserProfile := Some "modern";
     MultiTarget.Opt.options := "es2017";
     MultiTarget.Opt.plugins := MultiTarget.PluginsFunction ownPlugins |}.

(** A child compilation some other plugin started, without a name. *)
Definition unnamedChild : MultiTarget.Child :=
  {| MultiTarget.name := None; MultiTarget.assets := ∅ |}.

(** Chunks of a child compilation, and the child itself. *)
Definition mainChunk : Html.Chunk :=
  {| Html.name := Some "main";
     Html.files := ["main.css"; "main.js"; "main.js.map"];
     Html.hash := "abc"; Html.size := 100 |}.

Definition stylesChunk : Html.Chunk :=
  {| Html.name := Some "styles";
     Html.files := ["styles.css"];
     Html.hash := "def"; Html.size := 10 |}.

Definition modernCompilation : Html.ChildCompilation :=
  {| Html.childName := Some "webpack-babel-multi-target-compiler-modern";
     Html.chunks := [stylesChunk; mainChunk] |}.

Definition parentAssets : Html.Assets :=
  {| Html.assetChunks := ∅; Html.js := [Some "polyfills.js"] |}.

(** The context of a lazy route of Angular, whose dependencies are resolved
    on demand. *)
Definition lazyRoute : Lazy.t :=
  {| Lazy.mode := Some "lazy";
     Lazy.resource := Some "/app/src/$$_lazy_route_resource";
     Lazy.context := Some "/app/src";
     Lazy.resolveOptions := Some {| Lazy.babelTargetMap := None |};
     Lazy.dependencies := [sampleDependency "./admin/admin.module"];
     Lazy.resolveDependencies := λ _,
       Ok (Some (Error "ENOENT"),
           Some [sampleDependency "./admin/admin.module";
                 sampleDependency "./admin/admin.css"]) |}.

(* ===================================================================== *)
(** * Properties: string helpers *)
(* ===================================================================== *)

Lemma string_length_app (s p : string) :
  String.length (s +:+ p) = String.length s + String.length p.
Proof. induction s as [|c s IH]; simpl; [done | by rewrite IH]. Qed.

Lemma substring_whole (p : string) :
  String.substring 0 (String.length p) p = p.
Proof. induction p as [|c p IH]; simpl; [done | by rewrite IH]. Qed.

Lemma substring_app_suffix (s p : string) :
  String.substring (String.length s) (String.length p) (s +:+ p) = p.
Proof.
  induction s as [|c s IH]; [apply substring_whole | exact IH].
Qed.

Lemma endsWith_app (s p : string) : endsWith (s +:+ p) p = true.
Proof.
  unfold endsWith. rewrite string_length_app.
  replace (String.length s + String.length p - String.length p)
    with (String.length s) by lia.
  rewrite substring_app_suffix, String.eqb_refl, andb_true_r.
  apply Nat.leb_le. lia.
Qed.

(* ===================================================================== *)
(** * Properties: BabelTargetSingleEntryDependency *)
(* ===================================================================== *)

(** C10.  The dependency built from target [T], request [R] and original name
    [N] has [R] itself as request when [R] starts with the dev-server client
    prefix and [T.getTargetedRequest(R)] otherwise; in both cases its name is
    [T.getTargetedAssetName(N)] and its [loc] ends with a colon followed by
    the key of [T]. *)
Theorem single_entry_constructor `{Imports}
    (T : BabelTarget) (R N : string) (loc : option string) :
  let d := SingleEntry.constructor T R N loc in
  SingleEntry.request d =
    (if startsWith R DEV_SERVER_CLIENT then R else getTargetedRequest T R)
  ∧ SingleEntry.name d = getTargetedAssetName T N
  ∧ endsWith (SingleEntry.loc d) (":" +:+ key T) = true
  ∧ ∃ before, SingleEntry.loc d = before +:+ ":" +:+ key T.
Proof.
  simpl. repeat split.
  - destruct (truthy loc); apply endsWith_app.
  - destruct (truthy loc); eauto.
Qed.

(* ===================================================================== *)
(** * Properties: the blind assignment ledger *)
(* ===================================================================== *)

Section BlindAssignment.
Import Targeting.

Lemma getBlindTarget_targets p issuer key :
  targets (getBlindTarget p issuer key).1 = targets p.
Proof.
  unfold getBlindTarget.
  destruct (default ∅ (default ∅ (remainingTargets p) !! issuer) !! key)
    as [[|? ?]|]; try done.
  destruct (inherited key) as [[[|?]|]|]; try done.
  simpl. by destruct (targets p) eqn:Hts.
Qed.

(** A queue that is not empty gives its head. *)
Lemma getBlindTarget_head p issuer key head rest :
  pending p issuer key = head :: rest →
  (getBlindTarget p issuer key).2 = Ok head.
Proof.
  unfold getBlindTarget, pending.
  destruct (default ∅ (default ∅ (remainingTargets p) !! issuer) !! key)
    as [[|? ?]|]; try by intros [= -> ->].
  destruct (inherited key) as [[[|?]|]|]; try done.
  simpl. by intros ->.
Qed.

(** Under a key that names no inherited property, what a call returns is
    decided by the queue it finds. *)
Lemma getBlindTarget_outcome p issuer key :
  inherited key = None →
  (getBlindTarget p issuer key).2 =
    match pending p issuer key with
    | [] => Throw (BlindTargetingError key)
    | head :: _ => Ok head
    end.
Proof.
  intros Hkey. unfold getBlindTarget, pending. rewrite Hkey.
  destruct (default ∅ (default ∅ (remainingTargets p) !! issuer) !! key)
    as [[|? ?]|]; try done.
  by destruct (targets p).
Qed.

(** Under a key that names an inherited property a bucket without an own
    queue gives none: the call throws, a type error when the inherited value
    has a length other than 0. *)
Lemma getBlindTarget_inherited p issuer key length :
  default ∅ (default ∅ (remainingTargets p) !! issuer) !! key = None →
  inherited key = Some length →
  (getBlindTarget p issuer key).2 =
    match length with
    | Some (S _) =>
        Throw (TypeError
                 "this.remainingTargets[issuer][key].shift is not a function")
    | _ => Throw (BlindTargetingError key)
    end.
Proof.
  intros Hown Hkey. unfold getBlindTarget. rewrite Hown, Hkey.
  by destruct length as [[|?]|].
Qed.

(** A call consumes the head of the queue of its own pair... *)
Lemma getBlindTarget_pending_same p issuer key :
  pending (getBlindTarget p issuer key).1 issuer key =
    tail (pending p issuer key).
Proof.
  unfold getBlindTarget, pending.
  destruct (default ∅ (default ∅ (remainingTargets p) !! issuer) !! key)
    as [[|? ?]|] eqn:Hown; simpl.
  1,2: rewrite lookup_insert_eq; simpl; by rewrite lookup_insert_eq.
  destruct (inherited key) as [[[|?]|]|]; simpl.
  1,2,3: rewrite lookup_insert_eq; simpl; by rewrite Hown.
  destruct (targets p); simpl;
    rewrite lookup_insert_eq; simpl; by rewrite lookup_insert_eq.
Qed.

(** ... and leaves the queue of every other pair as it was. *)
Lemma getBlindTarget_pending_other p issuer key issuer' key' :
  (issuer, key) ≠ (issuer', key') →
  pending (getBlindTarget p issuer key).1 issuer' key' =
    pending p issuer' key'.
Proof.
  intros Hne. unfold pending.
  rewrite getBlindTarget_targets.
  assert (Hown :
    default ∅ (default ∅ (remainingTargets (getBlindTarget p issuer key).1)
                 !! issuer') !! key' =
    default ∅ (default ∅ (remainingTargets p) !! issuer') !! key');
    [|by rewrite Hown].
  unfold getBlindTarget.
  destruct (default ∅ (default ∅ (remainingTargets p) !! issuer) !! key)
    as [[|? ?]|] eqn:Hown;
    [ | | destruct (inherited key) as [[[|?]|]|];
          [ | | | destruct (targets p) ] ]; simpl.
  all: destruct (decide (issuer = issuer')) as [<-|Hi];
    [ rewrite lookup_insert_eq; simpl;
      try (rewrite lookup_insert_ne by congruence); done
    | rewrite lookup_insert_ne by done; done ].
Qed.

Lemma served_0 key queue : served key queue 0 = [].
Proof. unfold served. by rewrite take_0. Qed.

Lemma served_S key queue k :
  served key queue (S k) =
    match queue with
    | [] => Throw (BlindTargetingError key)
    | head :: _ => Ok head
    end :: served key (tail queue) k.
Proof.
  unfold served. destruct queue as [|head rest]; simpl; [|done].
  by rewrite take_nil, Nat.sub_0_r.
Qed.

Lemma outcomesFor_length pair calls outcomes :
  length calls = length outcomes →
  length (outcomesFor pair calls outcomes) =
    length (filter (λ call, call = pair) calls).
Proof.
  revert outcomes.
  induction calls as [|call calls IH]; intros [|r outcomes] Hlen;
    simpl in *; try done.
  rewrite filter_cons. destruct (decide (call = pair)); simpl; auto.
Qed.

Lemma blindCalls_length p calls :
  length (blindCalls p calls).2 = length calls.
Proof.
  revert p. induction calls as [|[issuer key] calls IH]; intros p; [done|].
  simpl. destruct (getBlindTarget p issuer key) as [p1 r] eqn:E1.
  specialize (IH p1). destruct (blindCalls p1 calls) as [p2 rs].
  simpl in *. by rewrite IH.
Qed.

(** In any run of calls, the calls for one pair are served from its queue,
    whatever calls for other pairs come in between. *)
Lemma blindCalls_served p issuer key calls :
  inherited key = None →
  outcomesFor (issuer, key) calls (blindCalls p calls).2 =
    served key (pending p issuer key)
      (length (filter (λ call, call = (issuer, key)) calls)).
Proof.
  intros Hkey.
  revert p. induction calls as [|[issuer' key'] calls IH]; intros p.
  { simpl. by rewrite served_0. }
  simpl. destruct (getBlindTarget p issuer' key') as [p1 r] eqn:E1.
  specialize (IH p1). destruct (blindCalls p1 calls) as [p2 rs] eqn:E2.
  simpl in *. rewrite filter_cons.
  destruct (decide ((issuer', key') = (issuer, key))) as [Heq|Hne].
  - injection Heq as -> ->. simpl. rewrite served_S, IH. f_equal.
    + by rewrite <- getBlindTarget_outcome, E1.
    + by rewrite <- getBlindTarget_pending_same, E1.
  - rewrite IH. f_equal.
    by rewrite <- (getBlindTarget_pending_other p issuer' key'), E1.
Qed.

(** The plugin just constructed has seen no pair. *)
Lemma constructor_pending ts exclude dnt ext p issuer key :
  inherited key = None →
  constructor ts exclude dnt ext = Ok p → pending p issuer key = ts.
Proof.
  intros Hkey [= <-]. unfold pending. simpl. by rewrite lookup_empty, Hkey.
Qed.

End BlindAssignment.

(** The ledger on names that are no inherited properties.  After
    construction over the targets [ts], in any run of calls of
    [getBlindTarget] whose issuers are no such names, the calls made for one
    [(issuer, key)] with such a key return the targets of [ts] one after the
    other in the configured order, each once, and every call for that pair
    after the [length ts]-th throws the blind targeting error for [key]. *)
Lemma blind_assignment_in_order
    (ts : list BabelTarget) (exclude : list RegExp)
    (doNotTarget : option (list RegExp)) (ext : Externals)
    (p : Targeting.TargetingPlugin) (issuer key : string)
    (calls : list (string * string)) :
  Targeting.constructor ts exclude doNotTarget ext = Ok p →
  Forall (λ call, inherited call.1 = None) calls →
  inherited key = None →
  let outcomes :=
    Targeting.outcomesFor (issuer, key) calls (Targeting.blindCalls p calls).2 in
  outcomes =
    (Ok <$> take (length outcomes) ts) ++
    replicate (length outcomes - length ts) (Throw (BlindTargetingError key)).
Proof.
  intros Hnew _ Hkey outcomes.
  assert (Hk : length outcomes =
               length (filter (λ call, call = (issuer, key)) calls)).
  { apply outcomesFor_length. by rewrite blindCalls_length. }
  rewrite Hk. unfold outcomes.
  rewrite blindCalls_served, (constructor_pending _ _ _ _ _ _ _ Hkey Hnew);
    done.
Qed.

(** On the targets [legacy; modern]: three calls for one pair, with a call
    for another pair in between. *)
Lemma blind_assignment_in_order_witness :
  ∃ p, Targeting.constructor [legacy; modern] [] None ExtUndefined = Ok p ∧
    Targeting.outcomesFor ("/app/src/index.js", "./app.js")
      [("/app/src/index.js", "./app.js"); ("/app/src/other.js", "./app.js");
       ("/app/src/index.js", "./app.js"); ("/app/src/index.js", "./app.js")]
      (Targeting.blindCalls p
         [("/app/src/index.js", "./app.js"); ("/app/src/other.js", "./app.js");
          ("/app/src/index.js", "./app.js"); ("/app/src/index.js", "./app.js")]).2
    = [Ok legacy; Ok modern; Throw (BlindTargetingError "./app.js")].
Proof.
  eexists. split; [reflexivity|].
  etransitivity;
    [ exact (blind_assignment_in_order [legacy; modern] [] None ExtUndefined _
               "/app/src/index.js" "./app.js"
               [("/app/src/index.js", "./app.js");
                ("/app/src/other.js", "./app.js");
                ("/app/src/index.js", "./app.js");
                ("/app/src/index.js", "./app.js")]
               eq_refl ltac:(repeat constructor) eq_refl)
    | vm_compute; reflexivity ].
Defined.


(* ===================================================================== *)
(** * Properties: targeting modules and their dependencies *)
(* ===================================================================== *)

Section Propagation.
Import Targeting.
Context `{Imports}.

(** An eligible request is rewritten by [targetDependency]. *)
Lemma targetDependency_eligible p dep T R :
  Dep.request dep = Some R →
  R ≠ "" →
  isTargetedRequest p R = Ok true →
  targetDependency p dep T = Ok (Dep.set_request (getTargetedRequest T R) dep).
Proof.
  intros HR Hne Hel. unfold targetDependency. rewrite HR. simpl.
  destruct (String.eqb_spec R "") as [->|_]; [done|]. simpl.
  by rewrite Hel.
Qed.

(** Every other dependency is handed on as it is. *)
Lemma targetDependency_skipped p dep T :
  match Dep.request dep with
  | Some R => R = "" ∨ isTargetedRequest p R = Ok false
  | None => True
  end →
  targetDependency p dep T = Ok dep.
Proof.
  unfold targetDependency. destruct (Dep.request dep) as [R|]; [|done].
  simpl. destruct (String.eqb_spec R "") as [->|Hne]; [done|]. simpl.
  intros [?| ->]; done.
Qed.

(** What [targetModule] does to a module whose request passes
    [isTargetedRequest]. *)
Lemma targetModule_tagged p module T :
  isTargetedRequest p (Mod.request module) = Ok true →
  getTargetFromTag (Mod.request module) (targets p) = Some T →
  ∃ module',
    targetModule p module = Ok module' ∧
    Mod.request module' = getTargetedRequest T (Mod.request module) ∧
    from_option Mod.babelTarget None (Mod.options module') = Some T ∧
    Mod.dependencies module' = Mod.dependencies module ∧
    ∀ dep deps,
      Mod.addDependency module' dep deps =
        dep' ← targetDependency p dep T; Mod.addDependency module dep' deps.
Proof.
  intros Hel Htag. unfold targetModule. rewrite Hel. simpl. rewrite Htag.
  eexists. split; [reflexivity|]. simpl. done.
Qed.

Lemma targetModule_untagged p module :
  getTargetFromTag (Mod.request module) (targets p) = None →
  isTargetedRequest p (Mod.request module) = Ok true →
  targetModule p module = Ok module.
Proof.
  intros Htag Hel. unfold targetModule. rewrite Hel. simpl. by rewrite Htag.
Qed.

End Propagation.

(** C2.  Once [targetModule] has determined the target [T] of a module, every
    dependency added through the module's [addDependency] whose request [R] is
    eligible (not empty, matching no do-not-target pattern, not external)
    reaches the original registration with its request rewritten to
    [T.getTargetedRequest(R)] and with nothing else of it changed; with
    webpack's own registration the module's dependency list grows by exactly
    that rewritten dependency. *)
Theorem added_dependency_is_targeted `{Imports}
    (p : Targeting.TargetingPlugin) (module : Mod.t) (T : BabelTarget)
    (dep : Dep.t) (R : string) :
  Targeting.isTargetedRequest p (Mod.request module) = Ok true →
  getTargetFromTag (Mod.request module) (Targeting.targets p) = Some T →
  Dep.request dep = Some R →
  R ≠ "" →
  Targeting.isTargetedRequest p R = Ok true →
  ∃ module' registered,
    Targeting.targetModule p module = Ok module' ∧
    from_option Mod.babelTarget None (Mod.options module') = Some T ∧
    Dep.request registered = Some (getTargetedRequest T R) ∧
    Dep.userRequest registered = Dep.userRequest dep ∧
    Dep.babelTarget registered = Dep.babelTarget dep ∧
    Dep.originModule registered = Dep.originModule dep ∧
    Dep.groupName registered = Dep.groupName dep ∧
    (∀ deps,
       Mod.addDependency module' dep deps =
         Mod.addDependency module registered deps) ∧
    (Mod.addDependency module = Mod.registerDependency →
     ∃ module'',
       Mod.callAddDependency module' dep = Ok module'' ∧
       Mod.dependencies module'' = Mod.dependencies module ++ [registered] ∧
       Mod.request module'' = getTargetedRequest T (Mod.request module)).
Proof.
  intros Hmod Htag HR Hne Hdep.
  destruct (targetModule_tagged p module T Hmod Htag)
    as (module' & Hrun & Hreq & Hopt & Hdeps & Hadd).
  exists module', (Dep.set_request (getTargetedRequest T R) dep).
  split; [done|]. split; [done|].
  do 5 (split; [reflexivity|]).
  assert (Hwrapped : ∀ deps,
    Mod.addDependency module' dep deps =
      Mod.addDependency module (Dep.set_request (getTargetedRequest T R) dep)
        deps).
  { intros deps.
    by rewrite Hadd, (targetDependency_eligible p dep T R HR Hne Hdep). }
  split; [done|].
  intros Hog. unfold Mod.callAddDependency.
  rewrite Hwrapped, Hog. simpl. eexists. split; [reflexivity|].
  simpl. by rewrite Hdeps, Hreq.
Qed.

(** C2, on the module [./app.js?babelTarget=modern] and a dependency on
    [./util.js]. *)
Lemma added_dependency_is_targeted_witness :
  ∃ module' registered,
    Targeting.targetModule (H := sampleImports) samplePlugin
      (sampleModule "./app.js?babelTarget=modern") = Ok module' ∧
    from_option Mod.babelTarget None (Mod.options module') = Some modern ∧
    Dep.request registered = Some "./util.js?babelTarget=modern" ∧
    Dep.userRequest registered = Some "./util.js" ∧
    Dep.babelTarget registered = None ∧
    Dep.originModule registered = None ∧
    Dep.groupName registered = None ∧
    (∀ deps,
       Mod.addDependency module' (sampleDependency "./util.js") deps =
         Mod.registerDependency registered deps) ∧
    (Mod.registerDependency = Mod.registerDependency →
     ∃ module'',
       Mod.callAddDependency module' (sampleDependency "./util.js") =
         Ok module'' ∧
       Mod.dependencies module'' = [registered] ∧
       Mod.request module'' = "./app.js?babelTarget=modern").
Proof.
  exact (@added_dependency_is_targeted sampleImports samplePlugin
           (sampleModule "./app.js?babelTarget=modern") modern
           (sampleDependency "./util.js") "./util.js"
           eq_refl eq_refl eq_refl ltac:(discriminate) eq_refl).
Defined.

(** C3 as amended.  At module creation the target comes from a tag in the
    request and from nowhere else: when the request passes [isTargetedRequest]
    and carries the tag of a configured target [T], the request is rewritten
    to [T.getTargetedRequest(request)] and [T] is recorded on
    [module.options]; when it carries no tag the module is left as it is.
    [targetModule] returns no plugin state: it makes no blind assignment. *)
Theorem module_target_from_tag_only `{Imports}
    (p : Targeting.TargetingPlugin) (module : Mod.t) :
  Targeting.isTargetedRequest p (Mod.request module) = Ok true →
  match getTargetFromTag (Mod.request module) (Targeting.targets p) with
  | Some T =>
      ∃ module',
        Targeting.targetModule p module = Ok module' ∧
        Mod.request module' = getTargetedRequest T (Mod.request module) ∧
        from_option Mod.babelTarget None (Mod.options module') = Some T
  | None => Targeting.targetModule p module = Ok module
  end.
Proof.
  intros Hel.
  destruct (getTargetFromTag _ _) as [T|] eqn:Htag.
  - destruct (targetModule_tagged p module T Hel Htag)
      as (module' & ? & ? & ? & _).
    eauto.
  - by apply targetModule_untagged.
Qed.

Lemma module_target_from_tag_only_witness :
  (∃ module',
     Targeting.targetModule (H := sampleImports) samplePlugin
       (sampleModule "./app.js?babelTarget=legacy") = Ok module' ∧
     Mod.request module' = "./app.js?babelTarget=legacy" ∧
     from_option Mod.babelTarget None (Mod.options module') = Some legacy)
  ∧ Targeting.targetModule (H := sampleImports) samplePlugin
      (sampleModule "./app.js") = Ok (sampleModule "./app.js").
Proof.
  split.
  - exact (@module_target_from_tag_only sampleImports samplePlugin
             (sampleModule "./app.js?babelTarget=legacy") eq_refl).
  - exact (@module_target_from_tag_only sampleImports samplePlugin
             (sampleModule "./app.js") eq_refl).
Defined.

(** C3 as stated fails on the untagged, eligible request [./app.js] with the
    targets [legacy; modern]: blind assignment for the pair would give
    [legacy], yet the module keeps its request, and no target is recorded on
    its options. *)
Lemma module_creation_no_blind_fallback :
  Targeting.isTargetedRequest samplePlugin "./app.js" = Ok true ∧
  getTargetFromTag (Imports := sampleImports) "./app.js"
    (Targeting.targets samplePlugin) = None ∧
  (Targeting.getBlindTarget samplePlugin "/app/src/index.js" "./app.js").2
    = Ok legacy ∧
  ¬ ∃ T module',
      Targeting.targetModule (H := sampleImports) samplePlugin
        (sampleModule "./app.js") = Ok module' ∧
      Mod.request module' =
        getTargetedRequest (Imports := sampleImports) T "./app.js" ∧
      from_option Mod.babelTarget None (Mod.options module') = Some T.
Proof.
  split; [reflexivity|]. split; [reflexivity|]. split; [reflexivity|].
  intros (T & module' & Hrun & _ & Hopt).
  vm_compute in Hrun. injection Hrun as <-. discriminate Hopt.
Qed.

(* ===================================================================== *)
(** * Properties: the blind fallback after resolution *)
(* ===================================================================== *)

Section ResolveTimeCorrection.
Import Targeting.
Context `{Imports}.

(** The stage that does fall back to blind assignment: [checkResolveTarget],
    for a request without a tag whose context carries no target. *)
Lemma checkResolveTarget_blind p ctx context T p' :
  isTargetedRequest p (Ctx.request ctx) = Ok true →
  isTranspiledRequest p ctx = Ok true →
  getTargetFromTag (Ctx.request ctx) (targets p) = None →
  getTargetFromContext ctx = None →
  from_option Ctx.context None (Ctx.resourceResolveData ctx) = Some context →
  getBlindTarget p (toString (Ctx.issuer context)) (Ctx.request ctx)
    = (p', Ok T) →
  ∃ ctx',
    checkResolveTarget p ctx true = (p', ctx', Ok ()) ∧
    Ctx.request ctx' = getTargetedRequest T (Ctx.request ctx).
Proof.
  intros Hel Htr Htag Hctx Hcontext Hblind. unfold checkResolveTarget.
  rewrite Hel, Htr. simpl. rewrite Htag, Hctx, Hcontext, Hblind.
  eexists. split; reflexivity.
Qed.

(** The exhausted ledger stops it. *)
Lemma checkResolveTarget_exhausted p ctx context p' e :
  isTargetedRequest p (Ctx.request ctx) = Ok true →
  isTranspiledRequest p ctx = Ok true →
  getTargetFromTag (Ctx.request ctx) (targets p) = None →
  getTargetFromContext ctx = None →
  from_option Ctx.context None (Ctx.resourceResolveData ctx) = Some context →
  getBlindTarget p (toString (Ctx.issuer context)) (Ctx.request ctx)
    = (p', Throw e) →
  checkResolveTarget p ctx true = (p', ctx, Throw e).
Proof.
  intros Hel Htr Htag Hctx Hcontext Hblind. unfold checkResolveTarget.
  rewrite Hel, Htr. simpl. by rewrite Htag, Hctx, Hcontext, Hblind.
Qed.

(** A new watch cycle starts from the whole target list again. *)
Lemma watchRun_pending p issuer key :
  inherited key = None →
  pending (watchRun p) issuer key = targets p.
Proof. intros Hkey. unfold pending. simpl. by rewrite lookup_empty, Hkey. Qed.

End ResolveTimeCorrection.

(** The scenario of the specification: the request [./app.js] resolved three
    times from the same issuer, over the targets [legacy; modern]. *)
Example blind_fallback_scenario :
  let '(p1, c1, _) :=
    Targeting.checkResolveTarget (H := sampleImports) samplePlugin
      (untracedContext "./app.js") true in
  let '(p2, c2, _) :=
    Targeting.checkResolveTarget (H := sampleImports) p1
      (untracedContext "./app.js") true in
  let '(_, _, r3) :=
    Targeting.checkResolveTarget (H := sampleImports) p2
      (untracedContext "./app.js") true in
  (Ctx.request c1, Ctx.request c2, r3) =
    ("./app.js?babelTarget=legacy", "./app.js?babelTarget=modern",
     Throw (BlindTargetingError "./app.js")).
Proof. by vm_compute. Qed.

(** The ledger as resolution reaches it under a key that names an inherited
    property: the request [constructor], resolved without a traceable target,
    stops [checkResolveTarget] with the type error, and is not tagged. *)
Example inherited_key_stops_resolution :
  ∃ p' message,
    Targeting.checkResolveTarget (H := sampleImports) samplePlugin
      (untracedContext "constructor") true
    = (p', untracedContext "constructor", Throw (TypeError message)).
Proof. eexists _, _. reflexivity. Qed.

(* ===================================================================== *)
(** * Properties: externals *)
(* ===================================================================== *)

Section ExternalsChecks.
Import Targeting.

(** Inside a list, the function is reached when no element before it
    answers that the request is external. *)
Lemma isExternalRequest_array_function request before after :
  Forall (λ ext, isExternalRequest request ext = Ok false) before →
  isExternalRequest request (ExtArray (before ++ ExtFunction :: after))
    = Throw UNSUPPORTED.
Proof.
  induction 1 as [|ext before Hext _ IH]; [done|].
  simpl in *. rewrite Hext. simpl. exact IH.
Qed.

(** An element answering "external" before the function hides it. *)
Lemma isExternalRequest_array_hidden request ext after :
  isExternalRequest request ext = Ok true →
  isExternalRequest request (ExtArray (ext :: ExtFunction :: after))
    = Ok true.
Proof. intros Hext. simpl. by rewrite Hext. Qed.

End ExternalsChecks.

(** C6 as amended.  A function-valued externals declaration is accepted by the
    constructor; the error "Using an ExternalsFunctionElement is not supported"
    is thrown when a request is checked, and only for a request that matches
    no do-not-target pattern. *)
Theorem function_externals_rejected_on_check
    (ts : list BabelTarget) (exclude : list RegExp)
    (doNotTarget : option (list RegExp)) :
  ∃ p,
    Targeting.constructor ts exclude doNotTarget ExtFunction = Ok p ∧
    ∀ request,
      Targeting.isTargetedRequest p request =
        if isSome (find (λ entry, test entry request)
                     (Targeting.NOT_TARGETED ++ default [] doNotTarget))
        then Ok false
        else Throw Targeting.UNSUPPORTED.
Proof.
  eexists. split; [reflexivity|].
  intros request. unfold Targeting.isTargetedRequest. simpl.
  by destruct (isSome _).
Qed.

(** C6 as stated fails: constructing the plugin over a function-valued
    externals declaration throws nothing. *)
Lemma function_externals_accepted_at_construction :
  ¬ ∃ e, Targeting.constructor [legacy; modern] [] None ExtFunction = Throw e.
Proof. intros [e He]. discriminate He. Qed.

(* ===================================================================== *)
(** * Properties: the exclusion policy *)
(* ===================================================================== *)

Section Exclusion.
Import Targeting.
Context `{Imports}.

(** The caller's patterns are tested on [String(resolveContext.resolve)]:
    the verdict is the same for every plugin whose patterns agree on that
    string, whatever they say about the resource. *)
Lemma exclude_tested_on_resolve p q ctx :
  isSome (find (λ pattern, test pattern (toString (Ctx.resolve ctx)))
            (exclude p)) =
  isSome (find (λ pattern, test pattern (toString (Ctx.resolve ctx)))
            (exclude q)) →
  isTranspiledRequest p ctx = isTranspiledRequest q ctx.
Proof. intros Heq. unfold isTranspiledRequest. by rewrite Heq. Qed.

End Exclusion.

(** C7 at a failing input.  The resolved file matches the caller's exclusion
    pattern, and [isTranspiledRequest] answers [true]: the pattern was tested
    on the text [undefined]. *)
Theorem caller_exclusion_not_applied :
  Forall (λ pattern,
            test pattern (toString (Ctx.resource vendorContext)) = true)
    (Targeting.exclude excludingPlugin) ∧
  Targeting.isTranspiledRequest (H := sampleImports) excludingPlugin
    vendorContext = Ok true.
Proof. split; [by repeat constructor | reflexivity]. Qed.

(* ===================================================================== *)
(** * Properties: construction of the multi-target plugin *)
(* ===================================================================== *)

Section Construction.
Import MultiTarget.

Lemma validate_wellFormed options :
  wellFormed options → validate options = Ok (defaultKey options).
Proof.
  intros [Hprofile Hplugins]. unfold validate. rewrite Hprofile. simpl.
  by destruct (Opt.plugins options).
Qed.

Lemma validateAll_wellFormed l :
  Forall wellFormed l → validateAll l = Ok (defaultKey <$> l).
Proof.
  induction 1 as [|options l Hwf _ IH]; [done|].
  simpl. rewrite (validate_wellFormed _ Hwf). simpl. by rewrite IH.
Qed.

Lemma defaultKey_omitted options :
  truthy (Opt.key options) = false →
  Opt.key (defaultKey options) = Opt.browserProfile options.
Proof. intros Hkey. unfold defaultKey. by rewrite Hkey. Qed.

Lemma defaultKey_given options :
  truthy (Opt.key options) = true → defaultKey options = options.
Proof. intros Hkey. unfold defaultKey. by rewrite Hkey. Qed.

End Construction.

(** C4 as amended.  The constructor accepts every non-empty list of options
    that each have a profile and no ill-typed [plugins], and gives every
    options object without a key its profile as key; keys are not compared, so
    equal keys are accepted. *)
Theorem keys_default_to_profile (multiTargetOptions : list MultiTarget.Opt.t) :
  multiTargetOptions ≠ [] →
  Forall MultiTarget.wellFormed multiTargetOptions →
  MultiTarget.constructor multiTargetOptions =
    Ok (MultiTarget.defaultKey <$> multiTargetOptions) ∧
  Forall (λ options,
            MultiTarget.Opt.key (MultiTarget.defaultKey options) =
              if truthy (MultiTarget.Opt.key options)
              then MultiTarget.Opt.key options
              else MultiTarget.Opt.browserProfile options)
    multiTargetOptions.
Proof.
  intros Hne Hwf. split.
  - destruct multiTargetOptions as [|options l]; [done|].
    by apply validateAll_wellFormed.
  - apply Forall_forall. intros options _.
    destruct (truthy (MultiTarget.Opt.key options)) eqn:Hkey.
    + by rewrite defaultKey_given.
    + by apply defaultKey_omitted.
Qed.

Lemma keys_default_to_profile_witness :
  MultiTarget.constructor [profileOnly "legacy"; profileOnly "legacy"] =
    Ok [keyed "legacy" "legacy"; keyed "legacy" "legacy"].
Proof.
  exact (proj1 (keys_default_to_profile
                  [profileOnly "legacy"; profileOnly "legacy"]
                  ltac:(discriminate)
                  ltac:(repeat constructor; discriminate))).
Defined.

(** C4 as stated fails on two targets that both omit the key and share the
    profile [legacy]: both get the key [legacy], and the constructor throws
    nothing. *)
Lemma equal_default_keys_accepted :
  let multiTargetOptions := [profileOnly "legacy"; profileOnly "legacy"] in
  (∃ accepted,
     MultiTarget.constructor multiTargetOptions = Ok accepted ∧
     MultiTarget.Opt.key <$> accepted = [Some "legacy"; Some "legacy"]) ∧
  ¬ ∃ e, MultiTarget.constructor multiTargetOptions = Throw e.
Proof.
  split.
  - eexists. split; reflexivity.
  - intros [e He]. discriminate He.
Qed.

(* ===================================================================== *)
(** * Properties: plugin instances shared with a child configuration *)
(* ===================================================================== *)

Section Duplication.
Import MultiTarget.

(** The check stops at the first plugin of the parent that the child
    configuration holds too: it writes that plugin's constructor name to
    the console and throws the fixed message. *)
Lemma checkDuplication_shared parentPlugins configPlugins plugin :
  plugin ∈ parentPlugins →
  plugin ∈ configPlugins →
  ∃ before first after,
    parentPlugins = before ++ first :: after ∧
    Forall (λ q, q ∉ configPlugins) before ∧
    first ∈ configPlugins ∧
    checkDuplication parentPlugins configPlugins =
      (["Found plugin instance duplication: " +:+ constructorName first],
       Throw (Error DUPLICATION_MESSAGE)).
Proof.
  intros Hparent Hconfig.
  induction parentPlugins as [|q rest IH]; [by apply elem_of_nil in Hparent|].
  simpl. case_bool_decide as Hq.
  - exists [], q, rest. by repeat split.
  - apply elem_of_cons in Hparent as [->|Hrest]; [done|].
    destruct (IH Hrest) as (before & first & after & -> & Hbefore & ? & ->).
    exists (q :: before), first, after. repeat split; [|done].
    by constructor.
Qed.

Lemma checkDuplication_disjoint parentPlugins configPlugins :
  Forall (λ q, q ∉ configPlugins) parentPlugins →
  checkDuplication parentPlugins configPlugins = ([], Ok ()).
Proof.
  induction 1 as [|q rest Hq _ IH]; [done|].
  simpl. by case_bool_decide.
Qed.

End Duplication.

(** C5 as amended.  When a plugin instance of the parent configuration is
    also in the plugin list of a child configuration, forking that child
    throws at once; the error carries a fixed message that does not name the
    plugin, and the constructor name of the first such plugin, in the order of
    the parent's list, is written to the console before the throw. *)
Theorem shared_plugin_instance_fails_fast
    (self : MultiTarget.PluginInstance)
    (compilerOptions : MultiTarget.CompilerOptions)
    (multiTargetOption : MultiTarget.Opt.t)
    (chosen : list MultiTarget.PluginInstance)
    (plugin : MultiTarget.PluginInstance) :
  MultiTarget.chosenPlugins compilerOptions multiTargetOption = Ok chosen →
  plugin ∈ MultiTarget.plugins compilerOptions →
  plugin ∈ MultiTarget.childPlugins self chosen →
  ∃ before first after,
    MultiTarget.plugins compilerOptions = before ++ first :: after ∧
    Forall (λ q, q ∉ MultiTarget.childPlugins self chosen) before ∧
    first ∈ MultiTarget.childPlugins self chosen ∧
    MultiTarget.forkChild self compilerOptions multiTargetOption =
      (["Found plugin instance duplication: " +:+
          MultiTarget.constructorName first],
       Throw (Error MultiTarget.DUPLICATION_MESSAGE)).
Proof.
  intros Hchosen Hparent Hchild.
  destruct (checkDuplication_shared _ _ _ Hparent Hchild)
    as (before & first & after & Hsplit & Hbefore & Hfirst & Hcheck).
  exists before, first, after. repeat split; try done.
  unfold MultiTarget.forkChild. by rewrite Hchosen, Hcheck.
Qed.

Lemma shared_plugin_instance_fails_fast_witness :
  ∃ before first after,
    MultiTarget.plugins parentOptions = before ++ first :: after ∧
    Forall (λ q, q ∉ MultiTarget.childPlugins pluginSelf
                       [pluginSelf; definePlugin]) before ∧
    first ∈ MultiTarget.childPlugins pluginSelf [pluginSelf; definePlugin] ∧
    MultiTarget.forkChild pluginSelf parentOptions (keyed "legacy" "legacy") =
      (["Found plugin instance duplication: " +:+
          MultiTarget.constructorName first],
       Throw (Error MultiTarget.DUPLICATION_MESSAGE)).
Proof.
  apply (shared_plugin_instance_fails_fast pluginSelf parentOptions
           (keyed "legacy" "legacy") [pluginSelf; definePlugin] definePlugin).
  - reflexivity.
  - vm_compute. by repeat constructor.
  - vm_compute. by repeat constructor.
Defined.

(** C5 as stated fails on a parent configuration whose [DefinePlugin] instance
    is shared with the child: the child is not forked, and the message of the
    error thrown does not contain the name of the plugin. *)
Lemma duplication_error_does_not_name_plugin :
  definePlugin ∈ MultiTarget.plugins parentOptions ∧
  definePlugin ∈
    MultiTarget.childPlugins pluginSelf (MultiTarget.plugins parentOptions) ∧
  ¬ ∃ message,
      (MultiTarget.forkChild pluginSelf parentOptions
         (keyed "legacy" "legacy")).2 = Throw (Error message) ∧
      includes message (MultiTarget.constructorName definePlugin) = true.
Proof.
  split; [vm_compute; by repeat constructor|].
  split; [vm_compute; by repeat constructor|].
  intros (message & Hthrown & Hnamed).
  vm_compute in Hthrown. injection Hthrown as <-.
  vm_compute in Hnamed. discriminate Hnamed.
Qed.

(* ===================================================================== *)
(** * Properties: module and nomodule hints on script tags *)
(* ===================================================================== *)

Section FindLemmas.
Context {A : Type}.
Implicit Types (p q : A → bool) (l : list A).

Lemma find_Some_first p l x :
  find p l = Some x ↔
  ∃ before after,
    l = before ++ x :: after ∧ p x = true ∧
    Forall (λ y, p y = false) before.
Proof.
  split.
  - induction l as [|y l IH]; [done|]. simpl.
    destruct (p y) eqn:Hy.
    + intros [= ->]. by exists [], l.
    + intros (before & after & -> & ? & ?)%IH.
      exists (y :: before), after. by repeat split; [|constructor].
  - intros (before & after & -> & Hx & Hbefore).
    induction Hbefore as [|y before Hy _ IH]; simpl.
    + by rewrite Hx.
    + by rewrite Hy.
Qed.

Lemma find_None_all p l :
  find p l = None ↔ Forall (λ y, p y = false) l.
Proof.
  induction l as [|y l IH]; simpl; [by split|].
  destruct (p y) eqn:Hy.
  - split; [done|]. intros Hall. apply Forall_cons in Hall as [? _].
    congruence.
  - rewrite IH. split; [by constructor|]. by intros [_ ?]%Forall_cons.
Qed.


Lemma isSome_find_exists p l :
  isSome (find p l) = true ↔ ∃ x, x ∈ l ∧ p x = true.
Proof.
  induction l as [|y l IH]; simpl.
  - split; [done|]. by intros (x & ?%elem_of_nil & _).
  - destruct (p y) eqn:Hy.
    + split; [|done]. intros _. exists y. split; [left|done].
    + rewrite IH. split.
      * intros (x & ? & ?). exists x. split; [by right|done].
      * intros (x & [->|?]%elem_of_cons & ?); [congruence|eauto].
Qed.

End FindLemmas.

Lemma strictEq_true (x : option string) (s : string) :
  strictEq x s = true ↔ x = Some s.
Proof.
  destruct x as [r|]; simpl; [|done].
  rewrite String.eqb_eq. split; congruence.
Qed.

Section ScriptTags.
Import MultiTarget.


(** The table records, under the name of a child, the profile of the last
    target with that key; with distinct keys, the profile of its target. *)
Lemma compilationBrowserProfiles_other acc (l : list Opt.t) n :
  Forall (λ o, CHILD_COMPILER_PREFIX +:+ toString (Opt.key o) ≠ n) l →
  foldl recordProfile acc l !! n = acc !! n.
Proof.
  intros Hall. revert acc.
  induction Hall as [|o l Ho _ IH]; intros acc; [done|].
  simpl. rewrite IH. unfold recordProfile. by rewrite lookup_insert_ne.
Qed.

Lemma compilationBrowserProfiles_distinct (l : list Opt.t) o :
  NoDup ((λ o, toString (Opt.key o)) <$> l) →
  o ∈ l →
  compilationBrowserProfiles l
    !! (CHILD_COMPILER_PREFIX +:+ toString (Opt.key o))
    = Some (Opt.browserProfile o).
Proof.
  unfold compilationBrowserProfiles. generalize (∅ : gmap string (option string)).
  induction l as [|x l IH]; intros acc Hnd Hin; [by apply elem_of_nil in Hin|].
  rewrite fmap_cons in Hnd. apply NoDup_cons in Hnd as [Hx Hnd].
  simpl. apply elem_of_cons in Hin as [->|Hin]; [|by apply IH].
  rewrite compilationBrowserProfiles_other;
    [unfold recordProfile; by rewrite lookup_insert_eq|].
  apply Forall_forall. intros y Hy Heq.
  apply (inj (String.app CHILD_COMPILER_PREFIX)) in Heq.
  apply Hx. rewrite <- Heq. apply list_elem_of_fmap. eauto.
Qed.



End ScriptTags.




(* ===================================================================== *)
(** * Properties: rewriting the loader chain *)
(* ===================================================================== *)

Section ArrayLemmas.
Context {A : Type} `{EqDecision A}.
Implicit Types (l before after items : list A) (x : A).

Lemma indexOf_first before x after :
  Forall (λ y, y ≠ x) before →
  indexOf (before ++ x :: after) x = Z.of_nat (length before).
Proof.
  induction 1 as [|y before Hy _ IH]; simpl.
  - by rewrite decide_True.
  - rewrite decide_False by done. rewrite IH.
    destruct (Z.ltb_spec (Z.of_nat (length before)) 0); lia.
Qed.

Lemma splice_one before x after items :
  splice (before ++ x :: after) (Z.of_nat (length before)) 1 items =
    before ++ items ++ after.
Proof.
  unfold splice. rewrite length_app. simpl.
  destruct (Z.ltb_spec (Z.of_nat (length before)) 0) as [?|_]; [lia|].
  rewrite Z.min_l, Nat2Z.id by lia.
  rewrite take_app_length. f_equal. f_equal.
  replace (length before + 1) with (length (before ++ [x]))
    by (rewrite length_app; simpl; lia).
  by rewrite (cons_middle x before after), app_assoc, drop_app_length.
Qed.

End ArrayLemmas.

Section ChainRewriting.
Import Targeting.
Context `{Imports}.

Lemma isMarker_options l :
  Loader.isMarker l = true →
  ∃ loaderOptions other,
    Loader.options l = Some (Opts true loaderOptions other).
Proof.
  unfold Loader.isMarker.
  destruct (Loader.options l) as [[flag loaderOptions other]|]; [|done].
  intros ->. eauto.
Qed.

Lemma cacheOfVariants_not_marker p k cached :
  cacheOfVariants p →
  babelLoaders p !! k = Some cached →
  Loader.isMarker cached = false.
Proof.
  intros Hcache Hlookup.
  destruct (Hcache _ _ Hlookup) as (_ & transform & Hoptions).
  unfold Loader.isMarker. by rewrite Hoptions.
Qed.

Lemma forEachLoader_step body st st' l ls :
  body st l = (st', Ok ()) →
  forEachLoader body st (l :: ls) = forEachLoader body st' ls.
Proof. intros Hstep. simpl. by rewrite Hstep. Qed.

(** One turn of the loop on an entry found at its own place. *)
Lemma replaceLoader_none p n before l rest :
  indexOf (before ++ l :: rest) l = Z.of_nat (length before) →
  replaceLoader None
    {| plugin := p; nextOid := n; chain := before ++ l :: rest |} l
  = ({| plugin := p; nextOid := n; chain := before ++ rest |}, Ok ()).
Proof.
  intros Hindex. unfold replaceLoader. simpl.
  by rewrite Hindex, splice_one.
Qed.

Lemma replaceLoader_some T p n before l rest flag loaderOptions other :
  indexOf (before ++ l :: rest) l = Z.of_nat (length before) →
  Loader.options l = Some (Opts flag loaderOptions other) →
  replaceLoader (Some T)
    {| plugin := p; nextOid := n; chain := before ++ l :: rest |} l
  = if String.eqb (Loader.loader l) babelLoaderPath then
      match babelLoaders p !! key T with
      | Some cached =>
          ({| plugin := p; nextOid := S n;
              chain := before ++ cached :: rest |}, Ok ())
      | None =>
          let created :=
            targetedLoader (S n) (effectiveLoader n l loaderOptions) T in
          ({| plugin :=
                set_babelLoaders (<[key T := created]> (babelLoaders p)) p;
              nextOid := S (S n);
              chain := before ++ created :: rest |}, Ok ())
      end
    else
      ({| plugin := p; nextOid := S n;
          chain := before ++ effectiveLoader n l loaderOptions :: rest |},
       Ok ()).
Proof.
  intros Hindex Hoptions. unfold replaceLoader. simpl.
  rewrite Hindex, Hoptions.
  destruct (String.eqb _ _);
    [unfold getTargetedBabelLoader; destruct (babelLoaders p !! key T)|];
    by rewrite splice_one.
Qed.

(** Without a target, the loop removes the marker entries one by one and
    touches nothing else. *)
Lemma remove_markers p n before rest :
  Forall (λ l, Loader.isMarker l = false) before →
  forEachLoader (replaceLoader None)
    {| plugin := p; nextOid := n; chain := before ++ rest |}
    (List.filter Loader.isMarker rest)
  = ({| plugin := p; nextOid := n;
        chain := before ++ List.filter (λ l, negb (Loader.isMarker l)) rest |},
     Ok ()).
Proof.
  revert before. induction rest as [|l rest IH]; intros before Hbefore.
  { done. }
  cbn [List.filter]. destruct (Loader.isMarker l) eqn:Hmarker; cbn [negb].
  - erewrite forEachLoader_step; [by apply IH|].
    apply replaceLoader_none, indexOf_first.
    eapply Forall_impl; [exact Hbefore|]. intros y Hy ->. congruence.
  - rewrite (cons_middle l before rest), app_assoc.
    rewrite IH by (apply Forall_app; split; [done|by constructor]).
    by rewrite <- app_assoc.
Qed.

(** With a target, the loop replaces the marker entries one by one, each
    at its place.  Entries already passed are never taken for a marker yet
    to come: they are no markers, or they are new objects.  The cache changes
    under the key of the target at most, and only when it held nothing
    there. *)
Lemma rewrite_markers T bound before rest p n :
  Forall (λ l, Loader.isMarker l = false ∨ (bound ≤ Loader.oid l)%nat)
    before →
  Forall (λ l, (Loader.oid l < bound)%nat) rest →
  (bound ≤ n)%nat →
  cacheOfVariants p →
  ∃ p' n' rest',
    forEachLoader (replaceLoader (Some T))
      {| plugin := p; nextOid := n; chain := before ++ rest |}
      (List.filter Loader.isMarker rest)
    = ({| plugin := p'; nextOid := n'; chain := before ++ rest' |}, Ok ()) ∧
    (n ≤ n')%nat ∧
    cacheOfVariants p' ∧
    p' = set_babelLoaders (babelLoaders p') p ∧
    (∀ k c, babelLoaders p !! k = Some c → babelLoaders p' !! k = Some c) ∧
    (∀ k c, babelLoaders p' !! k = Some c →
       babelLoaders p !! k = Some c ∨
       k = key T ∧ babelLoaders p !! k = None ∧
       ∃ marker, marker ∈ rest ∧ Loader.isMarker marker = true ∧
         Loader.loader marker = babelLoaderPath ∧
         variantFor T bound marker c) ∧
    Forall2 (rewrittenEntry T (babelLoaders p') bound) rest rest'.
Proof.
  revert before p n.
  induction rest as [|l rest IH]; intros before p n Hbefore Hrest Hn Hcache.
  { exists p, n, []. split_and!; try done; [by destruct p|by left]. }
  apply Forall_cons in Hrest as [Hl Hrest].
  cbn [List.filter]. destruct (Loader.isMarker l) eqn:Hmarker.
  2: { (* no marker: the entry stays *)
    destruct (IH (before ++ [l]) p n)
      as (p' & n' & rest' & Hrun & Hn' & Hcache' & Hp' & Hmono & Hnew & Hall);
      try done.
    { apply Forall_app. split; [done|]. constructor; [by left|done]. }
    exists p', n', (l :: rest').
    rewrite <- !app_assoc in Hrun.
    split; [exact Hrun|]. split_and!; try done.
    - intros k c Hk. destruct (Hnew k c Hk) as [?|(? & ? & m & Hm & ?)];
        [by left|right]. split_and!; try done.
      exists m. split; [by apply elem_of_cons; right|done].
    - constructor; [|done]. unfold rewrittenEntry. by rewrite Hmarker. }
  (* a marker: it is found at its own place *)
  assert (Hindex : indexOf (before ++ l :: rest) l
                   = Z.of_nat (length before)).
  { apply indexOf_first. eapply Forall_impl; [exact Hbefore|].
    intros y [Hy|Hy] ->; [congruence|lia]. }
  destruct (isMarker_options l Hmarker) as (loaderOptions & other & Hoptions).
  pose proof (replaceLoader_some T p n before l rest _ _ _ Hindex Hoptions)
    as Hstep.
  destruct (String.eqb (Loader.loader l) babelLoaderPath) eqn:Hbabel.
  - destruct (babelLoaders p !! key T) as [cached|] eqn:Hlookup.
    + (* the cached replacement *)
      destruct (IH (before ++ [cached]) p (S n))
        as (p' & n' & rest' & Hrun & Hn' & Hcache' & Hp' & Hmono & Hnew & Hall);
        try done; try lia.
      { apply Forall_app. split; [done|]. constructor; [|done].
        left. by eapply cacheOfVariants_not_marker. }
      exists p', n', (cached :: rest').
      rewrite <- !app_assoc in Hrun.
      split; [by rewrite (forEachLoader_step _ _ _ _ _ Hstep)|].
      split_and!; try done; try lia.
      * intros k c Hk. destruct (Hnew k c Hk) as [?|(? & ? & m & Hm & ?)];
          [by left|right]. split_and!; try done.
        exists m. split; [by apply elem_of_cons; right|done].
      * constructor; [|done]. unfold rewrittenEntry.
        rewrite Hmarker, Hbabel. by apply Hmono.
    + (* a new replacement, put into the cache *)
      set (created :=
             targetedLoader (S n) (effectiveLoader n l loaderOptions) T) in *.
      set (p1 := set_babelLoaders (<[key T := created]> (babelLoaders p)) p)
        in *.
      assert (Hcache1 : cacheOfVariants p1).
      { intros k c. unfold p1. simpl.
        destruct (decide (k = key T)) as [->|Hk].
        - rewrite lookup_insert_eq. intros [= <-]. split; [done|].
          by exists (options T).
        - rewrite lookup_insert_ne by done. apply Hcache. }
      destruct (IH (before ++ [created]) p1 (S (S n)))
        as (p' & n' & rest' & Hrun & Hn' & Hcache' & Hp' & Hmono & Hnew & Hall);
        try done; try lia.
      { apply Forall_app. split; [done|]. constructor; [|done]. by left. }
      exists p', n', (created :: rest').
      rewrite <- !app_assoc in Hrun.
      split; [by rewrite (forEachLoader_step _ _ _ _ _ Hstep)|].
      split; [lia|]. split; [done|]. split.
      { rewrite Hp'. by destruct p. }
      split.
      { intros k c Hk. apply Hmono. unfold p1. simpl.
        rewrite lookup_insert_ne; [done|]. intros <-. congruence. }
      split.
      { intros k c Hk.
        assert (Hp1 : babelLoaders p1 !! k = Some c).
        { destruct (Hnew k c Hk) as [?|(-> & Hnone & _)]; [done|].
          unfold p1 in Hnone. simpl in Hnone.
          by rewrite lookup_insert_eq in Hnone. }
        unfold p1 in Hp1. simpl in Hp1.
        destruct (decide (k = key T)) as [->|Hne].
        - rewrite lookup_insert_eq in Hp1. injection Hp1 as <-.
          right. split_and!; try done.
          exists l. split; [by apply elem_of_cons; left|].
          split; [done|]. split; [by apply String.eqb_eq|].
          unfold variantFor. simpl. split_and!; try done. lia.
        - rewrite lookup_insert_ne in Hp1 by done. by left. }
      constructor; [|done]. unfold rewrittenEntry.
      rewrite Hmarker, Hbabel. apply Hmono. unfold p1. simpl.
      by rewrite lookup_insert_eq.
  - (* another loader: its effective form *)
    destruct (IH (before ++ [effectiveLoader n l loaderOptions]) p (S n))
      as (p' & n' & rest' & Hrun & Hn' & Hcache' & Hp' & Hmono & Hnew & Hall);
      try done; try lia.
    { apply Forall_app. split; [done|]. constructor; [|done].
      right. simpl. lia. }
    exists p', n', (effectiveLoader n l loaderOptions :: rest').
    rewrite <- !app_assoc in Hrun.
    split; [by rewrite (forEachLoader_step _ _ _ _ _ Hstep)|].
    split_and!; try done; try lia.
    + intros k c Hk. destruct (Hnew k c Hk) as [?|(? & ? & m & Hm & ?)];
        [by left|right]. split_and!; try done.
      exists m. split; [by apply elem_of_cons; right|done].
    + constructor; [|done]. unfold rewrittenEntry.
      rewrite Hmarker, Hbabel. simpl. split_and!; try done.
      by exists true, loaderOptions, other.
Qed.

End ChainRewriting.

Section ReplaceLoaders.
Import Targeting.
Context `{Imports}.

Lemma replaceLoaders_no_target p n ctx :
  contextTarget p ctx = Ok None →
  replaceLoaders p n ctx (List.filter Loader.isMarker (Ctx.loaders ctx)) =
    (p, n,
     Ctx.set_loaders
       (List.filter (λ l, negb (Loader.isMarker l)) (Ctx.loaders ctx)) ctx,
     Ok ()).
Proof.
  intros Htarget. unfold replaceLoaders. rewrite Htarget.
  by rewrite (remove_markers p n [] (Ctx.loaders ctx)).
Qed.

Lemma replaceLoaders_target p n ctx T :
  contextTarget p ctx = Ok (Some T) →
  Forall (λ l, (Loader.oid l < n)%nat) (Ctx.loaders ctx) →
  cacheOfVariants p →
  ∃ p' n' chain',
    replaceLoaders p n ctx (List.filter Loader.isMarker (Ctx.loaders ctx)) =
      (p', n', Ctx.set_loaders chain' ctx, Ok ()) ∧
    (n ≤ n')%nat ∧
    Forall2 (rewrittenEntry T (babelLoaders p') n) (Ctx.loaders ctx) chain' ∧
    cacheOfVariants p' ∧
    (∀ k c, babelLoaders p !! k = Some c → babelLoaders p' !! k = Some c) ∧
    (∀ k c, babelLoaders p' !! k = Some c →
       babelLoaders p !! k = Some c ∨
       k = key T ∧ babelLoaders p !! k = None ∧
       ∃ marker, marker ∈ Ctx.loaders ctx ∧ Loader.isMarker marker = true ∧
         Loader.loader marker = babelLoaderPath ∧
         variantFor T n marker c).
Proof.
  intros Htarget Hfresh Hcache. unfold replaceLoaders. rewrite Htarget.
  destruct (rewrite_markers T n [] (Ctx.loaders ctx) p n)
    as (p' & n' & chain' & Hrun & Hn' & Hcache' & _ & Hmono & Hnew & Hall);
    try done.
  exists p', n', chain'. simpl in Hrun. rewrite Hrun. by split_and!.
Qed.

(** Two modules rewritten one after the other for targets with the same
    key: the markers around the babel loader are replaced, in both chains,
    by one and the same object. *)
Lemma replacement_shared_across_modules
    p n ctx1 T1 p1 n1 chain1 n1' ctx2 T2 p2 n2 chain2 :
  contextTarget p ctx1 = Ok (Some T1) →
  Forall (λ l, (Loader.oid l < n)%nat) (Ctx.loaders ctx1) →
  cacheOfVariants p →
  replaceLoaders p n ctx1 (List.filter Loader.isMarker (Ctx.loaders ctx1)) =
    (p1, n1, Ctx.set_loaders chain1 ctx1, Ok ()) →
  contextTarget p1 ctx2 = Ok (Some T2) →
  Forall (λ l, (Loader.oid l < n1')%nat) (Ctx.loaders ctx2) →
  replaceLoaders p1 n1' ctx2 (List.filter Loader.isMarker (Ctx.loaders ctx2)) =
    (p2, n2, Ctx.set_loaders chain2 ctx2, Ok ()) →
  key T1 = key T2 →
  ∀ i j old1 old2 new1 new2,
    Ctx.loaders ctx1 !! i = Some old1 → chain1 !! i = Some new1 →
    Ctx.loaders ctx2 !! j = Some old2 → chain2 !! j = Some new2 →
    Loader.isMarker old1 = true → Loader.loader old1 = babelLoaderPath →
    Loader.isMarker old2 = true → Loader.loader old2 = babelLoaderPath →
    new1 = new2.
Proof.
  intros Ht1 Hf1 Hc1 Hrun1 Ht2 Hf2 Hrun2 Hkey
    i j old1 old2 new1 new2 Hold1 Hnew1 Hold2 Hnew2 Hm1 Hb1 Hm2 Hb2.
  destruct (replaceLoaders_target p n ctx1 T1 Ht1 Hf1 Hc1)
    as (p1' & n1'' & chain1' & Hrun1' & _ & Hall1 & Hc2 & _).
  rewrite Hrun1 in Hrun1'. injection Hrun1' as <- <- <-.
  destruct (replaceLoaders_target p1 n1' ctx2 T2 Ht2 Hf2 Hc2)
    as (p2' & n2' & chain2' & Hrun2' & _ & Hall2 & _ & Hmono & _).
  rewrite Hrun2 in Hrun2'. injection Hrun2' as <- <- <-.
  pose proof (Forall2_lookup_lr _ _ _ _ _ _ Hall1 Hold1 Hnew1) as Hr1.
  pose proof (Forall2_lookup_lr _ _ _ _ _ _ Hall2 Hold2 Hnew2) as Hr2.
  unfold rewrittenEntry in Hr1, Hr2.
  rewrite Hm1, Hb1, String.eqb_refl in Hr1.
  rewrite Hm2, Hb2, String.eqb_refl in Hr2.
  apply Hmono in Hr1. rewrite Hkey in Hr1. congruence.
Qed.

(** The plugin just constructed has an empty cache. *)
Lemma constructor_cacheOfVariants ts exclude dnt ext p :
  Targeting.constructor ts exclude dnt ext = Ok p → cacheOfVariants p.
Proof. intros [= <-] k c. simpl. by rewrite lookup_empty. Qed.

End ReplaceLoaders.




(** [afterResolve] on a file issued from a module targeted for [modern]: the
    request is tagged, the marker around the babel loader becomes the variant
    for [modern], the other marker its effective form. *)
Example after_resolve_for_modern :
  let '(_, _, ctx, r) :=
    Targeting.afterResolve (H := sampleImports) samplePlugin 3
      (appContext (Some modern)) in
  (Ctx.request ctx, Ctx.loaders ctx, r) =
    ("/app/src/feature.js?babelTarget=modern",
     [eslintEntry;
      {| Loader.oid := 4;
         Loader.loader := "/app/node_modules/babel-loader/lib/index.js";
         Loader.options := Some (Opts false None "es2017");
         Loader.ident := Some "ref--4-0" |};
      {| Loader.oid := 5;
         Loader.loader := "/app/node_modules/ts-loader/index.js";
         Loader.options := None;
         Loader.ident := Some "ref--4-1" |}],
     Ok ()).
Proof. by vm_compute. Qed.

(* ===================================================================== *)
(** * Further properties: the ledger *)
(* ===================================================================== *)

Section LedgerMore.
Import Targeting.

Lemma blindCalls_targets p calls :
  targets (blindCalls p calls).1 = targets p.
Proof.
  revert p. induction calls as [|[issuer key] calls IH]; intros p; [done|].
  simpl. destruct (getBlindTarget p issuer key) as [p1 r] eqn:E1.
  specialize (IH p1). destruct (blindCalls p1 calls) as [p2 rs].
  simpl in *. rewrite IH.
  by rewrite <- (getBlindTarget_targets p issuer key), E1.
Qed.

Lemma outcomesFor_all pair calls outcomes :
  Forall (λ call, call = pair) calls →
  length calls = length outcomes →
  outcomesFor pair calls outcomes = outcomes.
Proof.
  intros Hall. revert outcomes.
  induction Hall as [|call calls -> _ IH]; intros [|r outcomes] Hlen;
    simpl in *; try done.
  rewrite decide_True by done. f_equal. apply IH. lia.
Qed.

Lemma filter_all_same (pair : string * string)
    (calls : list (string * string)) :
  Forall (λ call, call = pair) (filter (λ call, call = pair) calls).
Proof.
  apply Forall_forall. intros call Hin.
  by apply list_elem_of_filter in Hin as [? _].
Qed.

Lemma filter_filter_same (pair : string * string)
    (calls : list (string * string)) :
  filter (λ call, call = pair) (filter (λ call, call = pair) calls) =
    filter (λ call, call = pair) calls.
Proof.
  induction calls as [|call calls IH]; [done|].
  rewrite filter_cons. destruct (decide (call = pair)); [|done].
  rewrite filter_cons, decide_True by done. by rewrite IH.
Qed.

Local Abbreviation own p issuer key :=
  (default ∅ (default ∅ (remainingTargets p) !! issuer) !! key).

(** A call leaves the own queue of every other pair as it was. *)
Lemma getBlindTarget_own_other p issuer key issuer' key' :
  (issuer, key) ≠ (issuer', key') →
  own (getBlindTarget p issuer key).1 issuer' key' = own p issuer' key'.
Proof.
  intros Hne. unfold getBlindTarget.
  destruct (own p issuer key) as [[|? ?]|] eqn:Hown;
    [ | | destruct (inherited key) as [[[|?]|]|];
          [ | | | destruct (targets p) ] ]; simpl.
  all: destruct (decide (issuer = issuer')) as [<-|Hi];
    [ rewrite lookup_insert_eq; simpl;
      try (rewrite lookup_insert_ne by congruence); done
    | rewrite lookup_insert_ne by done; done ].
Qed.

(** What a call for a pair returns, and the own queue it leaves, depend on
    the own queue of the pair and on the target list only. *)
Lemma getBlindTarget_same_view p q issuer key :
  own p issuer key = own q issuer key →
  targets p = targets q →
  (getBlindTarget p issuer key).2 = (getBlindTarget q issuer key).2 ∧
  own (getBlindTarget p issuer key).1 issuer key =
    own (getBlindTarget q issuer key).1 issuer key.
Proof.
  intros Hown Hts. unfold getBlindTarget. rewrite <- Hown, <- Hts.
  destruct (own p issuer key) as [[|? ?]|] eqn:Hp; simpl.
  1,2: split; [done|];
    rewrite !lookup_insert_eq; simpl; by rewrite !lookup_insert_eq.
  destruct (inherited key) as [[[|?]|]|]; simpl.
  1,2,3: split; [done|];
    rewrite !lookup_insert_eq; simpl; by rewrite Hp, <- Hown.
  destruct (targets p); simpl; (split; [done|]);
    rewrite !lookup_insert_eq; simpl; by rewrite !lookup_insert_eq.
Qed.

(** So the calls of a run that is all for one pair return the same from two
    states that agree on the pair. *)
Lemma blindCalls_same_view p q issuer key calls :
  Forall (λ call, call = (issuer, key)) calls →
  own p issuer key = own q issuer key →
  targets p = targets q →
  (blindCalls p calls).2 = (blindCalls q calls).2.
Proof.
  intros Hall. revert p q.
  induction Hall as [|call calls -> _ IH]; intros p q Hown Hts; [done|].
  simpl.
  destruct (getBlindTarget_same_view p q issuer key Hown Hts) as [Hr Hown'].
  pose proof (getBlindTarget_targets p issuer key) as Hp.
  pose proof (getBlindTarget_targets q issuer key) as Hq.
  destruct (getBlindTarget p issuer key) as [p1 r1].
  destruct (getBlindTarget q issuer key) as [q1 r2].
  simpl in *. subst r2.
  specialize (IH p1 q1 Hown' ltac:(congruence)).
  destruct (blindCalls p1 calls) as [p2 rs1].
  destruct (blindCalls q1 calls) as [q2 rs2].
  simpl in *. by subst.
Qed.

(** The outcomes for a pair in a run are those of the run with the calls for
    other pairs left out. *)
Lemma blindCalls_filter p issuer key calls :
  outcomesFor (issuer, key) calls (blindCalls p calls).2 =
    (blindCalls p (filter (λ call, call = (issuer, key)) calls)).2.
Proof.
  revert p. induction calls as [|[issuer' key'] calls IH]; intros p; [done|].
  rewrite filter_cons. simpl.
  pose proof (getBlindTarget_own_other p issuer' key' issuer key) as Hother.
  pose proof (getBlindTarget_targets p issuer' key') as Hts.
  destruct (getBlindTarget p issuer' key') as [p1 r] eqn:E1.
  specialize (IH p1).
  destruct (blindCalls p1 calls) as [p2 rs] eqn:E2. simpl in *.
  destruct (decide ((issuer', key') = (issuer, key))) as [Heq|Hne].
  - injection Heq as -> ->. simpl. rewrite E1.
    destruct (blindCalls p1 (filter _ calls)) as [p3 rs'] eqn:E3.
    simpl in *. by rewrite IH.
  - rewrite IH.
    apply (blindCalls_same_view p1 p issuer key);
      [apply filter_all_same|by apply Hother|done].
Qed.

End LedgerMore.

(** X1.  What a pair is served does not depend on the calls made for other
    pairs: in any run whose issuers name no inherited property, from any
    state of the ledger, the outcomes of the calls for one pair are the
    outcomes of the run with all other calls left out.  Keys may be any
    strings, those that name inherited properties among them. *)
Theorem blind_pairs_are_independent
    (p : Targeting.TargetingPlugin) (pair : string * string)
    (calls : list (string * string)) :
  Forall (λ call, inherited call.1 = None) calls →
  Targeting.outcomesFor pair calls (Targeting.blindCalls p calls).2 =
    (Targeting.blindCalls p (filter (λ call, call = pair) calls)).2.
Proof. intros _. destruct pair as [issuer key]. apply blindCalls_filter. Qed.

(** X1, on a run of calls for three pairs, one of them under the key
    [constructor]. *)
Lemma blind_pairs_are_independent_witness :
  Targeting.outcomesFor ("/app/src/index.js", "./app.js")
    [("/app/src/index.js", "./app.js"); ("/app/src/index.js", "constructor");
     ("/app/src/other.js", "./app.js"); ("/app/src/index.js", "./app.js")]
    (Targeting.blindCalls samplePlugin
       [("/app/src/index.js", "./app.js"); ("/app/src/index.js", "constructor");
        ("/app/src/other.js", "./app.js"); ("/app/src/index.js", "./app.js")]).2
  = (Targeting.blindCalls samplePlugin
       (filter (λ call, call = ("/app/src/index.js", "./app.js"))
          [("/app/src/index.js", "./app.js");
           ("/app/src/index.js", "constructor");
           ("/app/src/other.js", "./app.js");
           ("/app/src/index.js", "./app.js")])).2.
Proof.
  apply (blind_pairs_are_independent samplePlugin
           ("/app/src/index.js", "./app.js")).
  repeat constructor.
Defined.

(** X2.  The [watchRun] tap starts the ledger afresh: whatever calls were made
    before it, the calls after it for a pair are served the whole target list
    again, front to back, and the blind targeting error after that.  Stated
    for runs whose issuers name no inherited property and a key that names
    none. *)
Theorem watch_run_resets_ledger
    (p : Targeting.TargetingPlugin) (issuer key : string)
    (earlier later : list (string * string)) :
  Forall (λ call, inherited call.1 = None) (earlier ++ later) →
  inherited key = None →
  let p1 := Targeting.watchRun (Targeting.blindCalls p earlier).1 in
  Targeting.outcomesFor (issuer, key) later (Targeting.blindCalls p1 later).2 =
    Targeting.served key (Targeting.targets p)
      (length (filter (λ call, call = (issuer, key)) later)).
Proof.
  intros _ Hkey p1. rewrite blindCalls_served by done. f_equal.
  unfold p1. rewrite watchRun_pending by done. apply blindCalls_targets.
Qed.

(** X2, on the targets [legacy; modern]: a pair served once before the reset
    is served both targets again after it. *)
Lemma watch_run_resets_ledger_witness :
  Targeting.outcomesFor ("/app/src/index.js", "./app.js")
    [("/app/src/index.js", "./app.js"); ("/app/src/index.js", "./app.js");
     ("/app/src/index.js", "./app.js")]
    (Targeting.blindCalls
       (Targeting.watchRun
          (Targeting.blindCalls samplePlugin
             [("/app/src/index.js", "./app.js")]).1)
       [("/app/src/index.js", "./app.js"); ("/app/src/index.js", "./app.js");
        ("/app/src/index.js", "./app.js")]).2
  = [Ok legacy; Ok modern; Throw (BlindTargetingError "./app.js")].
Proof.
  etransitivity;
    [ exact (watch_run_resets_ledger samplePlugin
               "/app/src/index.js" "./app.js"
               [("/app/src/index.js", "./app.js")]
               [("/app/src/index.js", "./app.js");
                ("/app/src/index.js", "./app.js");
                ("/app/src/index.js", "./app.js")]
               ltac:(repeat constructor) eq_refl)
    | vm_compute; reflexivity ].
Defined.

(* ===================================================================== *)
(** * Further properties: externals and do-not-target patterns *)
(* ===================================================================== *)

Section ExternalsMore.
Import Targeting.

Lemma Externals_nested_ind (P : Externals → Prop) :
  P ExtUndefined →
  (∀ s, P (ExtString s)) →
  (∀ r, P (ExtRegExp r)) →
  (∀ keys, P (ExtObject keys)) →
  P ExtFunction →
  (∀ elements, Forall P elements → P (ExtArray elements)) →
  ∀ ext, P ext.
Proof.
  intros Hu Hs Hr Ho Hf Ha.
  fix IH 1.
  intros [ |s|r|keys| |elements];
    [exact Hu|apply Hs|apply Hr|apply Ho|exact Hf|].
  apply Ha. induction elements as [|ext elements IHl]; constructor;
    [apply IH|exact IHl].
Qed.

(** The loop over the keys of a mapping. *)
Lemma isExternalRequest_object request keys :
  isExternalRequest request (ExtObject keys) =
    Ok (bool_decide (request ∈ keys) && negb (String.eqb request "")).
Proof.
  induction keys as [|k keys IH]; [done|].
  simpl in *. rewrite IH.
  destruct (String.eqb_spec request k) as [->|Hne].
  - destruct (String.eqb_spec k "") as [->|Hk]; simpl.
    + by rewrite andb_false_r.
    + rewrite bool_decide_eq_true_2 by left. done.
  - rewrite andb_false_r. f_equal. f_equal.
    apply bool_decide_ext. rewrite elem_of_cons.
    split; [by right | intros [?|?]; [congruence|done]].
Qed.

Lemma isExternalRequest_array_cons request ext elements :
  isExternalRequest request (ExtArray (ext :: elements)) =
    b ← isExternalRequest request ext;
    if b : bool then Ok true
    else isExternalRequest request (ExtArray elements).
Proof. done. Qed.

(** Whatever the declaration, the check answers or throws the one error, and
    it throws only when the declaration holds a function. *)
Lemma isExternalRequest_outcome request ext :
  match isExternalRequest request ext with
  | Ok _ => True
  | Throw e => e = UNSUPPORTED ∧ hasFunction ext = true
  end.
Proof.
  induction ext as [ |s|r|keys| |elements IH] using Externals_nested_ind.
  - done.
  - simpl. by destruct (String.eqb s "").
  - done.
  - by rewrite isExternalRequest_object.
  - done.
  - induction IH as [|ext elements Hext _ IHl]; [exact I|].
    rewrite isExternalRequest_array_cons.
    assert (Hany : hasFunction (ExtArray (ext :: elements)) =
                   hasFunction ext || hasFunction (ExtArray elements))
      by done.
    rewrite Hany. clear Hany.
    destruct (isExternalRequest request ext) as [[|]|e];
      destruct (isExternalRequest request (ExtArray elements)) as [b'|e'];
      try exact I.
    + destruct IHl as [-> ->]. by rewrite orb_true_r.
    + by destruct Hext as [-> ->].
    + by destruct Hext as [-> ->].
Qed.

Lemma isTargetedRequest_function_free p request :
  hasFunction (externals p) = false →
  ∃ b, isTargetedRequest p request = Ok b.
Proof.
  intros Hfree. unfold isTargetedRequest.
  destruct (isSome _); [eauto|].
  pose proof (isExternalRequest_outcome request (externals p)) as Hout.
  destruct (isExternalRequest request (externals p)) as [b|e]; simpl; [eauto|].
  destruct Hout as [_ Hf]. congruence.
Qed.

End ExternalsMore.

(** X3.  [isExternalRequest] throws only the error "Using an
    ExternalsFunctionElement is not supported", and only for a declaration
    that holds a function, at whatever depth of nested lists; for every other
    declaration it answers. *)
Theorem external_check_throws_only_on_function
    (request : string) (ext : Externals) :
  (∀ e, Targeting.isExternalRequest request ext = Throw e →
        e = Targeting.UNSUPPORTED ∧ hasFunction ext = true) ∧
  (hasFunction ext = false →
   ∃ b, Targeting.isExternalRequest request ext = Ok b).
Proof.
  pose proof (isExternalRequest_outcome request ext) as Hout.
  destruct (Targeting.isExternalRequest request ext) as [b|e].
  - split; [done|eauto].
  - destruct Hout as [-> Hf]. split; [by intros ? [= <-]|congruence].
Qed.

(** X4.  A mapping is treated as the list of its keys: the request is
    external exactly when it is one of the keys and is not empty.  The values
    of the mapping play no part. *)
Theorem external_mapping_is_its_keys (request : string) (keys : list string) :
  Targeting.isExternalRequest request (ExtObject keys) =
    Targeting.isExternalRequest request (ExtArray (ExtString <$> keys)) ∧
  Targeting.isExternalRequest request (ExtObject keys) =
    Ok (bool_decide (request ∈ keys) && negb (String.eqb request "")).
Proof.
  split; [|apply isExternalRequest_object].
  induction keys as [|k keys IH]; [done|].
  rewrite fmap_cons, isExternalRequest_array_cons, <- IH. simpl.
  destruct (String.eqb k ""); simpl; [done|].
  by destruct (String.eqb request k).
Qed.

(** X5.  The do-not-target patterns are tried before the externals: a request
    ending in [.css] or [.scss], or matching a pattern the caller gave, is
    not targeted, and the externals declaration is not looked at, so not even
    a function-valued one makes the check throw. *)
Theorem do_not_target_precedes_externals
    (ts : list BabelTarget) (exclude : list RegExp)
    (doNotTarget : option (list RegExp)) (ext : Externals)
    (p : Targeting.TargetingPlugin) (request : string) :
  Targeting.constructor ts exclude doNotTarget ext = Ok p →
  endsWith request ".css" = true ∨ endsWith request ".scss" = true ∨
    (∃ pattern, pattern ∈ default [] doNotTarget ∧
                test pattern request = true) →
  Targeting.isTargetedRequest p request = Ok false.
Proof.
  intros [= <-] Hmatch. unfold Targeting.isTargetedRequest.
  cbn [Targeting.doNotTarget].
  assert (Hfound : isSome (find (λ entry, test entry request)
            (Targeting.NOT_TARGETED ++ default [] doNotTarget)) = true).
  { apply isSome_find_exists.
    destruct Hmatch as [Hcss|[Hscss|(pattern & Hin & Hp)]].
    - eexists. split; [left|]. simpl. by rewrite Hcss.
    - eexists. split; [left|]. simpl. by rewrite Hscss, orb_true_r.
    - exists pattern. split; [|done]. apply elem_of_app. by right. }
  unfold Targeting.NOT_TARGETED in Hfound. cbn [app] in Hfound.
  by rewrite Hfound.
Qed.

Lemma do_not_target_precedes_externals_witness :
  Targeting.isTargetedRequest
    {| Targeting.babelLoaders := ∅;
       Targeting.remainingTargets := Some ∅;
       Targeting.targets := [legacy; modern];
       Targeting.exclude := [];
       Targeting.doNotTarget := Targeting.NOT_TARGETED ++ [];
       Targeting.externals := ExtFunction |}
    "./theme/main.scss" = Ok false.
Proof.
  apply (do_not_target_precedes_externals [legacy; modern] [] None ExtFunction
           _ "./theme/main.scss" eq_refl).
  right. left. reflexivity.
Defined.

(* ===================================================================== *)
(** * Further properties: dependencies of a targeted module *)
(* ===================================================================== *)

Section PropagationMore.
Import Targeting.
Context `{Imports}.

Lemma targetDependency_function_free p dep T :
  hasFunction (externals p) = false →
  ∃ dep', targetDependency p dep T = Ok dep'.
Proof.
  intros Hfree. unfold targetDependency.
  destruct (Dep.request dep) as [R|]; [|eauto].
  destruct (negb (truthy (Some R))); [eauto|].
  destruct (isTargetedRequest_function_free p R Hfree) as [b ->]. simpl.
  destruct b; simpl; eauto.
Qed.

Lemma addDependencies_wrapped p T m deps :
  hasFunction (externals p) = false →
  wrapped p T m →
  ∃ final added,
    addDependencies m deps = Ok final ∧
    Mod.dependencies final = Mod.dependencies m ++ added ∧
    Mod.request final = Mod.request m ∧
    Forall2 (λ dep dep', targetDependency p dep T = Ok dep') deps added.
Proof.
  intros Hfree. revert m.
  induction deps as [|dep deps IH]; intros m Hw.
  { exists m, []. split_and!; [done|by rewrite app_nil_r|done|constructor]. }
  destruct (targetDependency_function_free p dep T Hfree) as [dep' Hdep].
  set (m1 := {| Mod.request := Mod.request m; Mod.options := Mod.options m;
                Mod.dependencies := Mod.dependencies m ++ [dep'];
                Mod.addDependency := Mod.addDependency m |}).
  assert (Hcall : Mod.callAddDependency m dep = Ok m1).
  { unfold Mod.callAddDependency. by rewrite Hw, Hdep. }
  destruct (IH m1 (λ d ds, Hw d ds))
    as (final & added & Hrun & Hdeps & Hreq & Hall).
  exists final, (dep' :: added). split_and!.
  - unfold addDependencies in *. cbn [foldl].
    change (Ok m ≫= λ m0, Mod.callAddDependency m0 dep)
      with (Mod.callAddDependency m dep).
    by rewrite Hcall.
  - rewrite Hdeps. simpl. by rewrite <- app_assoc.
  - done.
  - by constructor.
Qed.

End PropagationMore.

(** X6.  [targetDependency] writes nothing but the request: the user request,
    the target, the origin module and the group name of the dependency stay
    as they are, and the request is either left alone or, for an eligible
    one, rewritten to the form targeted for [T]. *)
Theorem target_dependency_writes_request_only `{Imports}
    (p : Targeting.TargetingPlugin) (dep dep' : Dep.t) (T : BabelTarget) :
  Targeting.targetDependency p dep T = Ok dep' →
  Dep.userRequest dep' = Dep.userRequest dep ∧
  Dep.babelTarget dep' = Dep.babelTarget dep ∧
  Dep.originModule dep' = Dep.originModule dep ∧
  Dep.groupName dep' = Dep.groupName dep ∧
  (dep' = dep ∨
   ∃ R, Dep.request dep = Some R ∧ R ≠ "" ∧
        Targeting.isTargetedRequest p R = Ok true ∧
        Dep.request dep' = Some (getTargetedRequest T R)).
Proof.
  unfold Targeting.targetDependency.
  destruct (Dep.request dep) as [R|] eqn:HR; [|intros [= <-]; by split_and!; [..|left]].
  simpl. destruct (String.eqb_spec R "") as [->|Hne]; simpl.
  { intros [= <-]. by split_and!; [..|left]. }
  destruct (Targeting.isTargetedRequest p R) as [[|]|e] eqn:Hel; simpl;
    intros [= <-].
  - split_and!; try done. right. exists R. by split_and!.
  - by split_and!; [..|left].
Qed.

Lemma target_dependency_writes_request_only_witness :
  Dep.userRequest
    (Dep.set_request "./util.js?babelTarget=modern"
       (sampleDependency "./util.js")) = Some "./util.js".
Proof.
  exact (proj1 (@target_dependency_writes_request_only sampleImports
                  samplePlugin (sampleDependency "./util.js")
                  (Dep.set_request "./util.js?babelTarget=modern"
                     (sampleDependency "./util.js"))
                  modern eq_refl)).
Defined.

(** X7.  Propagation over everything a targeted module requires: when the
    externals hold no function, every dependency added to the module after
    [targetModule], one after the other, is registered, in order, as
    [targetDependency] for the module's target leaves it, and no call
    throws. *)
Theorem all_added_dependencies_are_targeted `{Imports}
    (p : Targeting.TargetingPlugin) (module : Mod.t) (T : BabelTarget)
    (deps : list Dep.t) :
  Targeting.isTargetedRequest p (Mod.request module) = Ok true →
  getTargetFromTag (Mod.request module) (Targeting.targets p) = Some T →
  Mod.addDependency module = Mod.registerDependency →
  hasFunction (Targeting.externals p) = false →
  ∃ module' final added,
    Targeting.targetModule p module = Ok module' ∧
    addDependencies module' deps = Ok final ∧
    Mod.dependencies final = Mod.dependencies module ++ added ∧
    Forall2 (λ dep dep', Targeting.targetDependency p dep T = Ok dep')
      deps added.
Proof.
  intros Hel Htag Hog Hfree.
  destruct (targetModule_tagged p module T Hel Htag)
    as (module' & Hrun & _ & _ & Hdeps & Hadd).
  destruct (addDependencies_wrapped p T module' deps Hfree)
    as (final & added & Hfinal & Hfdeps & _ & Hall).
  { intros dep ds. by rewrite Hadd, Hog. }
  exists module', final, added. split_and!; try done.
  by rewrite Hfdeps, Hdeps.
Qed.

Lemma all_added_dependencies_are_targeted_witness :
  ∃ module' final added,
    Targeting.targetModule (H := sampleImports) samplePlugin
      (sampleModule "./app.js?babelTarget=modern") = Ok module' ∧
    addDependencies module'
      [sampleDependency "./util.js"; sampleDependency "./theme.css"]
      = Ok final ∧
    Mod.dependencies final =
      Mod.dependencies (sampleModule "./app.js?babelTarget=modern") ++ added ∧
    Forall2
      (λ dep dep',
         Targeting.targetDependency (H := sampleImports) samplePlugin dep modern
           = Ok dep')
      [sampleDependency "./util.js"; sampleDependency "./theme.css"] added.
Proof.
  exact (@all_added_dependencies_are_targeted sampleImports samplePlugin
           (sampleModule "./app.js?babelTarget=modern") modern
           [sampleDependency "./util.js"; sampleDependency "./theme.css"]
           eq_refl eq_refl eq_refl eq_refl).
Defined.

(* ===================================================================== *)
(** * Further properties: the exclusion policy *)
(* ===================================================================== *)

Section ExclusionMore.
Import Targeting.
Context `{Imports}.

Lemma findResolved_strings resource pkgRoot entries :
  Forall is_Some entries →
  ∃ found, findResolved resource pkgRoot entries = Ok found.
Proof.
  induction 1 as [|entry entries [e ->] _ [found IH]]; [by eexists|].
  simpl. destruct (strictEq resource _); eauto.
Qed.


Lemma truthy_nonempty x : x ≠ "" → truthy (Some x) = true.
Proof. intros Hx. simpl. by destruct (String.eqb_spec x ""). Qed.

End ExclusionMore.

(** X8.  A file that is exactly the [main] file of its package is not
    transpiled, whatever the three pattern lists say. *)
Theorem main_file_is_not_transpiled `{Imports}
    (p : Targeting.TargetingPlugin) (ctx : Ctx.t) (data : Ctx.ResolveData)
    (pkg : PackageJson) (m : string) :
  Ctx.resourceResolveData ctx = Some data →
  Ctx.descriptionFileData data = Some pkg →
  main pkg = Some m →
  m ≠ "" →
  Ctx.resource ctx = Some (path_resolve (Ctx.descriptionFileRoot data) m) →
  Targeting.isTranspiledRequest p ctx = Ok false.
Proof.
  intros Hdata Hpkg Hmain Hm Hres. unfold Targeting.isTranspiledRequest.
  do 3 (destruct (isSome _); [done|]).
  rewrite Hdata, Hpkg, Hmain, Hres, (truthy_nonempty m Hm). simpl.
  by rewrite String.eqb_refl.
Qed.

Lemma main_file_is_not_transpiled_witness :
  Targeting.isTranspiledRequest (H := sampleImports) samplePlugin
    (fileContext "/app/node_modules/vendor-lib/dist/main.js"
       (Some (vendorData BrowserAbsent))) = Ok false.
Proof.
  apply (@main_file_is_not_transpiled sampleImports samplePlugin _
           (vendorData BrowserAbsent)
           {| main := Some "dist/main.js"; browser := BrowserAbsent |}
           "dist/main.js");
    by try reflexivity.
Defined.

(** X9.  A file matching a pattern of one of the two built-in tables is
    rejected before the manifest is read: the answer is [false] also for a
    context that carries no resolve data at all. *)
Theorem excluded_package_needs_no_manifest `{Imports}
    (p : Targeting.TargetingPlugin) (ctx : Ctx.t) (pattern : RegExp) :
  pattern ∈ STANDARD_EXCLUDED ++ KNOWN_EXCLUDED →
  test pattern (toString (Ctx.resource ctx)) = true →
  Targeting.isTranspiledRequest p ctx = Ok false.
Proof.
  intros Hin Hp. unfold Targeting.isTranspiledRequest.
  apply elem_of_app in Hin as [Hin|Hin].
  - assert (Hf : isSome (find
               (λ pattern, test pattern (toString (Ctx.resource ctx)))
               STANDARD_EXCLUDED) = true)
      by (apply isSome_find_exists; eauto).
    by rewrite Hf.
  - destruct (isSome (find _ STANDARD_EXCLUDED)); [done|].
    assert (Hf : isSome (find
               (λ pattern, test pattern (toString (Ctx.resource ctx)))
               KNOWN_EXCLUDED) = true)
      by (apply isSome_find_exists; eauto).
    by rewrite Hf.
Qed.

Lemma excluded_package_needs_no_manifest_witness :
  Targeting.isTranspiledRequest (H := sampleImports) samplePlugin
    (fileContext "/app/node_modules/core-js/modules/es6.map.js" None)
    = Ok false.
Proof.
  apply (@excluded_package_needs_no_manifest sampleImports samplePlugin _
           {| test := λ s, includes s "node_modules/core-js/" |}).
  - by left.
  - reflexivity.
Defined.

(** X10.  When no pattern settles the answer, the manifest is read without a
    check: for a context without resolve data, or a file outside every
    package, [isTranspiledRequest] throws a type error. *)
Theorem missing_manifest_throws `{Imports}
    (p : Targeting.TargetingPlugin) (ctx : Ctx.t) :
  Forall (λ pattern, test pattern (toString (Ctx.resource ctx)) = false)
    (STANDARD_EXCLUDED ++ KNOWN_EXCLUDED) →
  Forall (λ pattern, test pattern (toString (Ctx.resolve ctx)) = false)
    (Targeting.exclude p) →
  Ctx.resourceResolveData ctx = None ∨
    (∃ data, Ctx.resourceResolveData ctx = Some data ∧
             Ctx.descriptionFileData data = None) →
  ∃ message, Targeting.isTranspiledRequest p ctx = Throw (TypeError message).
Proof.
  intros Htables Hexclude Hmissing. unfold Targeting.isTranspiledRequest.
  apply Forall_app in Htables as [Hstandard Hknown].
  apply find_None_all in Hstandard, Hknown, Hexclude.
  rewrite Hstandard, Hknown, Hexclude. simpl.
  destruct Hmissing as [->|(data & -> & ->)]; eauto.
Qed.

Lemma missing_manifest_throws_witness :
  ∃ message,
    Targeting.isTranspiledRequest (H := sampleImports) samplePlugin
      (fileContext "/tmp/generated/entry.js" None) = Throw (TypeError message).
Proof.
  apply (@missing_manifest_throws sampleImports samplePlugin).
  - by repeat constructor.
  - constructor.
  - by left.
Defined.

Lemma isTranspiledRequest_answers `{Imports}
    (p : Targeting.TargetingPlugin) (ctx : Ctx.t) (data : Ctx.ResolveData)
    (pkg : PackageJson) :
  Ctx.resourceResolveData ctx = Some data →
  Ctx.descriptionFileData data = Some pkg →
  Forall is_Some (Targeting.browserValues (browser pkg)) →
  ∃ b, Targeting.isTranspiledRequest p ctx = Ok b.
Proof.
  intros Hdata Hpkg Hvalues. unfold Targeting.isTranspiledRequest.
  do 3 (destruct (isSome _); [eauto|]).
  rewrite Hdata, Hpkg.
  destruct (_ && _); [eauto|].
  destruct (negb _); [eauto|].
  destruct (match browser pkg with BrowserString _ => _ | _ => false end);
    [eauto|].
  destruct (findResolved_strings (Ctx.resource ctx)
              (Ctx.descriptionFileRoot data) _ Hvalues) as [inValues Hv].
  assert (∃ inArray,
    match browser pkg with
    | BrowserArray entries =>
        Targeting.findResolved (Ctx.resource ctx)
          (Ctx.descriptionFileRoot data) (Some <$> entries)
    | _ => Ok None
    end = Ok inArray) as [inArray ->].
  { destruct (browser pkg); eauto. }
  simpl. destruct (truthy inArray); [eauto|].
  rewrite Hv. simpl. destruct (truthy inValues); eauto.
Qed.





(** The other forms of the field: an entry of a list, a value of a mapping
    next to an ignored module, and one character of a string. *)
Example browser_values_are_not_transpiled :
  Targeting.isTranspiledRequest (H := sampleImports) samplePlugin
    (fileContext "/app/node_modules/vendor-lib/lib/b.js"
       (Some (vendorData (BrowserArray ["lib/a.js"; "lib/b.js"])))) = Ok false ∧
  Targeting.isTranspiledRequest (H := sampleImports) samplePlugin
    (fileContext "/app/node_modules/vendor-lib/lib/b.js"
       (Some (vendorData (BrowserObject [Some "lib/b.js"; None])))) = Ok false ∧
  Targeting.isTranspiledRequest (H := sampleImports) samplePlugin
    (fileContext "/app/node_modules/vendor-lib/x"
       (Some (vendorData (BrowserString "x.js")))) = Ok false.
Proof. by vm_compute. Qed.

(* ===================================================================== *)
(** * Further properties: the target of a resolve context *)
(* ===================================================================== *)

Section ContextTargets.
Import Targeting.
Context `{Imports}.

(** The target a dependency carries, directly or through its origin
    module, as the loop of [getTargetFromContext] looks for it. *)
Lemma getTargetFromContext_None ctx :
  getTargetFromContext ctx = None ↔
    from_option Ctx.babelTarget None (Ctx.contextInfo ctx) = None ∧
    from_option Ctx.issuerTarget None
      (from_option Ctx.context None (Ctx.resourceResolveData ctx)) = None ∧
    Forall (λ dep, Dep.babelTarget dep = None ∧
                   from_option findTarget None (Dep.originModule dep) = None)
      (Ctx.dependencies ctx).
Proof.
  unfold getTargetFromContext.
  destruct (from_option Ctx.babelTarget None _) as [t|];
    [split; [done|by intros [? _]]|].
  destruct (from_option Ctx.issuerTarget None _) as [t|];
    [split; [done|by intros (_ & ? & _)]|].
  induction (Ctx.dependencies ctx) as [|dep deps IH].
  { split; [intros _; split_and!; [done|done|constructor]|done]. }
  simpl.
  destruct (Dep.babelTarget dep) as [t|] eqn:Hd.
  { split; [done|]. intros (_ & _ & Hall).
    apply Forall_cons in Hall as [[? _] _]. congruence. }
  destruct (from_option findTarget None (Dep.originModule dep)) as [t|] eqn:Ho.
  { split; [done|]. intros (_ & _ & Hall).
    apply Forall_cons in Hall as [[_ ?] _]. congruence. }
  rewrite IH. split.
  - intros (? & ? & ?). split_and!; try done. by constructor.
  - intros (? & ? & Hall). apply Forall_cons in Hall as [_ ?]. by split_and!.
Qed.

Lemma getTargetFromContext_Some ctx T :
  getTargetFromContext ctx = Some T →
  from_option Ctx.babelTarget None (Ctx.contextInfo ctx) = Some T ∨
  from_option Ctx.issuerTarget None
    (from_option Ctx.context None (Ctx.resourceResolveData ctx)) = Some T ∨
  ∃ dep, dep ∈ Ctx.dependencies ctx ∧
    (Dep.babelTarget dep = Some T ∨
     from_option findTarget None (Dep.originModule dep) = Some T).
Proof.
  unfold getTargetFromContext.
  destruct (from_option Ctx.babelTarget None _) as [t|]; [by left|].
  destruct (from_option Ctx.issuerTarget None _) as [t|]; [by right; left|].
  intros Hloop. right. right.
  induction (Ctx.dependencies ctx) as [|dep deps IH]; [done|].
  simpl in Hloop.
  destruct (Dep.babelTarget dep) as [t|] eqn:Hd.
  { exists dep. split; [left|]. left. congruence. }
  destruct (from_option findTarget None (Dep.originModule dep)) as [t|] eqn:Ho.
  { exists dep. split; [left|]. right. congruence. }
  destruct (IH Hloop) as (dep' & ? & ?). exists dep'. split; [by right|done].
Qed.

(** Tagging a context for a target changes nothing a target is read from. *)
Lemma getTargetFromContext_tagged ctx T request resource :
  getTargetFromContext ctx = None →
  getTargetFromContext
    (Ctx.set_request request resource (targetChunkNames ctx T)) = None.
Proof.
  rewrite !getTargetFromContext_None. intros (? & ? & Hall).
  split_and!; try done. simpl.
  apply Forall_fmap. eapply Forall_impl; [exact Hall|].
  intros dep [? ?]. simpl. by destruct (truthy (Dep.groupName dep)).
Qed.

End ContextTargets.

(** X13.  [getTargetFromContext] finds no target exactly when nothing carries
    one: not the context info, not the issuer's context, and no dependency,
    directly or through its origin module.  A target it returns is one of
    those. *)
Theorem context_target_is_carried `{Imports} (ctx : Ctx.t) :
  (Targeting.getTargetFromContext ctx = None ↔
     from_option Ctx.babelTarget None (Ctx.contextInfo ctx) = None ∧
     from_option Ctx.issuerTarget None
       (from_option Ctx.context None (Ctx.resourceResolveData ctx)) = None ∧
     Forall (λ dep, Dep.babelTarget dep = None ∧
                    from_option findTarget None (Dep.originModule dep) = None)
       (Ctx.dependencies ctx)) ∧
  (∀ T, Targeting.getTargetFromContext ctx = Some T →
     from_option Ctx.babelTarget None (Ctx.contextInfo ctx) = Some T ∨
     from_option Ctx.issuerTarget None
       (from_option Ctx.context None (Ctx.resourceResolveData ctx)) = Some T ∨
     ∃ dep, dep ∈ Ctx.dependencies ctx ∧
       (Dep.babelTarget dep = Some T ∨
        from_option findTarget None (Dep.originModule dep) = Some T)).
Proof.
  split; [apply getTargetFromContext_None|apply getTargetFromContext_Some].
Qed.

(* ===================================================================== *)
(** * Further properties: the after-resolve stage *)
(* ===================================================================== *)

Section ResolveMore.
Import Targeting.
Context `{Imports}.

Lemma checkResolveTarget_untouched p ctx hasLoader :
  hasLoader = false ∨
    isTargetedRequest p (Ctx.request ctx) = Ok false ∨
    isTranspiledRequest p ctx = Ok false →
  ∃ r, checkResolveTarget p ctx hasLoader = (p, ctx, r).
Proof.
  intros Hskip. unfold checkResolveTarget.
  destruct (isTargetedRequest p (Ctx.request ctx)) as [[|]|e]; eauto.
  destruct (isTranspiledRequest p ctx) as [[|]|e]; eauto.
  destruct hasLoader; simpl; eauto.
  destruct Hskip as [?|[?|?]]; congruence.
Qed.

Lemma getBlindTarget_exclude p issuer key :
  exclude (getBlindTarget p issuer key).1 = exclude p.
Proof.
  unfold getBlindTarget.
  destruct (default ∅ (default ∅ (remainingTargets p) !! issuer) !! key)
    as [[|? ?]|]; try done.
  destruct (inherited key) as [[[|?]|]|]; try done.
  simpl. by destruct (targets p).
Qed.

(** The blind branch of [checkResolveTarget], by the queue of the pair. *)
Lemma checkResolveTarget_blind_head p ctx context T rest :
  isTargetedRequest p (Ctx.request ctx) = Ok true →
  isTranspiledRequest p ctx = Ok true →
  getTargetFromTag (Ctx.request ctx) (targets p) = None →
  getTargetFromContext ctx = None →
  from_option Ctx.context None (Ctx.resourceResolveData ctx) = Some context →
  pending p (toString (Ctx.issuer context)) (Ctx.request ctx) = T :: rest →
  let p' := (getBlindTarget p (toString (Ctx.issuer context))
               (Ctx.request ctx)).1 in
  checkResolveTarget p ctx true =
    (p',
     Ctx.set_request
       (getTargetedRequest T (Ctx.request ctx))
       (if truthy (Ctx.resource ctx)
        then Some (getTargetedRequest T (toString (Ctx.resource ctx)))
        else Ctx.resource ctx)
       (targetChunkNames ctx T),
     Ok ()) ∧
  pending p' (toString (Ctx.issuer context)) (Ctx.request ctx) = rest.
Proof.
  intros Hel Htr Htag Hctx Hcontext Hqueue p'. split.
  - unfold checkResolveTarget.
    rewrite Hel, Htr. simpl. rewrite Htag, Hctx, Hcontext.
    pose proof (getBlindTarget_head p (toString (Ctx.issuer context))
                  (Ctx.request ctx) T rest Hqueue) as Hout.
    fold p' in Hout.
    destruct (getBlindTarget p _ _) as [p1 r] eqn:Hcall.
    simpl in Hout. subst r. done.
  - unfold p'. by rewrite getBlindTarget_pending_same, Hqueue.
Qed.

End ResolveMore.

(** X14.  [checkResolveTarget] leaves the context and the ledger as they are
    when the chain holds no marker, when the request is not to be targeted,
    or when the file is not to be transpiled: no tag, no blind assignment. *)
Theorem resolve_check_skips `{Imports}
    (p : Targeting.TargetingPlugin) (ctx : Ctx.t) (hasLoader : bool) :
  hasLoader = false ∨
    Targeting.isTargetedRequest p (Ctx.request ctx) = Ok false ∨
    Targeting.isTranspiledRequest p ctx = Ok false →
  ∃ r, Targeting.checkResolveTarget p ctx hasLoader = (p, ctx, r).
Proof. apply checkResolveTarget_untouched. Qed.

Lemma resolve_check_skips_witness :
  ∃ r,
    Targeting.checkResolveTarget (H := sampleImports) samplePlugin
      (untracedContext "./theme.css") true
    = (samplePlugin, untracedContext "./theme.css", r).
Proof.
  apply (@resolve_check_skips sampleImports samplePlugin
           (untracedContext "./theme.css") true).
  right. left. reflexivity.
Defined.

(** X15.  The blind fallback of the after-resolve stage: for a request to be
    targeted and transpiled that carries no tag, in a context that carries no
    target, [checkResolveTarget] takes the head of the queue of
    [(issuer, request)], tags the request and, if there is one, the resource
    with it, and leaves the rest of the queue for the next resolution of the
    pair. *)
Theorem resolve_check_assigns_queue_head `{Imports}
    (p : Targeting.TargetingPlugin) (ctx : Ctx.t)
    (context : Ctx.IssuerContext) (T : BabelTarget) (rest : list BabelTarget) :
  Targeting.isTargetedRequest p (Ctx.request ctx) = Ok true →
  Targeting.isTranspiledRequest p ctx = Ok true →
  getTargetFromTag (Ctx.request ctx) (Targeting.targets p) = None →
  Targeting.getTargetFromContext ctx = None →
  from_option Ctx.context None (Ctx.resourceResolveData ctx) = Some context →
  Targeting.pending p (toString (Ctx.issuer context)) (Ctx.request ctx)
    = T :: rest →
  ∃ p' ctx',
    Targeting.checkResolveTarget p ctx true = (p', ctx', Ok ()) ∧
    Ctx.request ctx' = getTargetedRequest T (Ctx.request ctx) ∧
    Ctx.resource ctx' =
      (if truthy (Ctx.resource ctx)
       then Some (getTargetedRequest T (toString (Ctx.resource ctx)))
       else Ctx.resource ctx) ∧
    Ctx.loaders ctx' = Ctx.loaders ctx ∧
    Targeting.pending p' (toString (Ctx.issuer context)) (Ctx.request ctx)
      = rest.
Proof.
  intros Hel Htr Htag Hctx Hcontext Hqueue.
  destruct (checkResolveTarget_blind_head p ctx context T rest
              Hel Htr Htag Hctx Hcontext Hqueue) as [Hrun Hrest].
  eexists _, _. split; [exact Hrun|]. by split_and!.
Qed.

Lemma resolve_check_assigns_queue_head_witness :
  ∃ p' ctx',
    Targeting.checkResolveTarget (H := sampleImports) samplePlugin
      (untracedContext "./app.js") true = (p', ctx', Ok ()) ∧
    Ctx.request ctx' = "./app.js?babelTarget=legacy" ∧
    Ctx.resource ctx' = Some "/app/src/app.js?babelTarget=legacy" ∧
    Ctx.loaders ctx' = [babelMarker] ∧
    Targeting.pending p' "/app/src/index.js" "./app.js" = [modern].
Proof.
  exact (@resolve_check_assigns_queue_head sampleImports samplePlugin
           (untracedContext "./app.js")
           {| Ctx.issuer := Some "/app/src/index.js";
              Ctx.issuerTarget := None |}
           legacy [modern] eq_refl eq_refl eq_refl eq_refl eq_refl eq_refl).
Defined.

Section AfterResolveMore.
Import Targeting.
Context `{Imports}.

Lemma set_loaders_same ctx : Ctx.set_loaders (Ctx.loaders ctx) ctx = ctx.
Proof. by destruct ctx. Qed.

Lemma set_babelLoaders_same p : set_babelLoaders (babelLoaders p) p = p.
Proof. by destruct p. Qed.

Lemma replaceLoaders_nothing p n ctx :
  ∃ r, replaceLoaders p n ctx [] = (p, n, ctx, r).
Proof.
  unfold replaceLoaders. destruct (contextTarget p ctx); [|eauto].
  simpl. rewrite set_loaders_same. eauto.
Qed.

Lemma framed_same st st' :
  plugin st' = plugin st → (nextOid st ≤ nextOid st')%nat → framed st st'.
Proof.
  intros Hp Hn. split_and!; [|done|by rewrite Hp].
  by rewrite Hp, set_babelLoaders_same.
Qed.

Lemma framed_refl st : framed st st.
Proof. by apply framed_same. Qed.

Lemma framed_trans st1 st2 st3 : framed st1 st2 → framed st2 st3 → framed st1 st3.
Proof.
  intros (Hp & Hn & Hm) (Hp' & Hn' & Hm'). split_and!.
  - rewrite Hp', Hp. by destruct (plugin st1).
  - lia.
  - eauto.
Qed.

Lemma replaceLoader_framed target st l :
  framed st (replaceLoader target st l).1.
Proof.
  unfold replaceLoader. destruct target as [T|]; [|by apply framed_same].
  destruct (Loader.options l) as [[flag loaderOptions other]|];
    [|apply framed_refl].
  destruct (String.eqb _ _).
  - unfold getTargetedBabelLoader.
    destruct (babelLoaders (plugin st) !! key T) as [cached|] eqn:Hlookup.
    + apply framed_same; simpl; [done|lia].
    + split_and!; simpl; [by destruct (plugin st)|lia|].
      intros k c Hk. rewrite lookup_insert_ne; [done|]. intros <-. congruence.
  - apply framed_same; simpl; [done|lia].
Qed.

Lemma forEachLoader_framed target st loaders :
  framed st (forEachLoader (replaceLoader target) st loaders).1.
Proof.
  revert st. induction loaders as [|l loaders IH]; intros st;
    [apply framed_refl|].
  simpl. pose proof (replaceLoader_framed target st l) as Hstep.
  destruct (replaceLoader target st l) as [st' [[]|e]]; simpl in *; [|done].
  eapply framed_trans; [exact Hstep|apply IH].
Qed.

End AfterResolveMore.

(** X16.  A module targeted blindly loses its markers.  When
    [checkResolveTarget] assigns the head of the queue, the request is tagged,
    but the context still carries no target, and [replaceLoaders], which reads
    the target off the context only, removes every marker entry from the
    chain: the module is built without the per-target transform. *)
Theorem blind_target_loses_markers `{Imports}
    (p : Targeting.TargetingPlugin) (nextOid : nat) (ctx : Ctx.t)
    (data : Ctx.ResolveData) (pkg : PackageJson)
    (context : Ctx.IssuerContext) (T : BabelTarget) (rest : list BabelTarget) :
  Targeting.isTargetedRequest p (Ctx.request ctx) = Ok true →
  Targeting.isTranspiledRequest p ctx = Ok true →
  getTargetFromTag (Ctx.request ctx) (Targeting.targets p) = None →
  Targeting.getTargetFromContext ctx = None →
  Ctx.resourceResolveData ctx = Some data →
  Ctx.descriptionFileData data = Some pkg →
  Forall is_Some (Targeting.browserValues (browser pkg)) →
  Ctx.context data = Some context →
  Targeting.pending p (toString (Ctx.issuer context)) (Ctx.request ctx)
    = T :: rest →
  List.filter Loader.isMarker (Ctx.loaders ctx) ≠ [] →
  ∃ p' ctx',
    Targeting.afterResolve p nextOid ctx = (p', nextOid, ctx', Ok ()) ∧
    Ctx.request ctx' = getTargetedRequest T (Ctx.request ctx) ∧
    Ctx.loaders ctx' =
      List.filter (λ l, negb (Loader.isMarker l)) (Ctx.loaders ctx).
Proof.
  intros Hel Htr Htag Hctx Hdata Hpkg Hvalues Hcontext Hqueue Hmarkers.
  assert (Hcontext' :
    from_option Ctx.context None (Ctx.resourceResolveData ctx) = Some context)
    by (by rewrite Hdata).
  destruct (checkResolveTarget_blind_head p ctx context T rest
              Hel Htr Htag Hctx Hcontext' Hqueue) as [Hrun _].
  unfold Targeting.afterResolve.
  destruct (List.filter Loader.isMarker (Ctx.loaders ctx))
    as [|marker markers] eqn:Hfilter; [done|].
  cbn [length Nat.eqb negb]. rewrite Hrun.
  set (p' := (Targeting.getBlindTarget p _ _).1).
  set (ctx' := Ctx.set_request _ _ _).
  assert (Htarget : Targeting.contextTarget p' ctx' = Ok None).
  { unfold Targeting.contextTarget. subst ctx'. cbn [Ctx.resourceResolveData
      Ctx.set_request Targeting.targetChunkNames Ctx.set_dependencies].
    rewrite Hdata.
    destruct (isTranspiledRequest_answers p'
                (Ctx.set_request
                   (getTargetedRequest T (Ctx.request ctx))
                   (if truthy (Ctx.resource ctx)
                    then Some (getTargetedRequest T
                                 (toString (Ctx.resource ctx)))
                    else Ctx.resource ctx)
                   (Targeting.targetChunkNames ctx T))
                data pkg) as [b Hb]; [by simpl|done|done|].
    rewrite Hb. simpl. destruct b; [|done].
    by rewrite getTargetFromContext_tagged. }
  pose proof (replaceLoaders_no_target p' nextOid ctx' Htarget) as Hreplace.
  assert (Hloaders : Ctx.loaders ctx' = Ctx.loaders ctx) by done.
  rewrite Hloaders, Hfilter in Hreplace. rewrite Hreplace.
  eexists _, _. split; [reflexivity|]. by split.
Qed.

Lemma blind_target_loses_markers_witness :
  ∃ p' ctx',
    Targeting.afterResolve (H := sampleImports) samplePlugin 3
      (untracedContext "./app.js") = (p', 3, ctx', Ok ()) ∧
    Ctx.request ctx' = "./app.js?babelTarget=legacy" ∧
    Ctx.loaders ctx' = [].
Proof.
  apply (@blind_target_loses_markers sampleImports samplePlugin 3
           (untracedContext "./app.js")
           {| Ctx.context :=
                Some {| Ctx.issuer := Some "/app/src/index.js";
                        Ctx.issuerTarget := None |};
              Ctx.descriptionFileRoot := "/app";
              Ctx.descriptionFileData :=
                Some {| main := Some "dist/main.js";
                        browser := BrowserAbsent |} |}
           {| main := Some "dist/main.js"; browser := BrowserAbsent |}
           {| Ctx.issuer := Some "/app/src/index.js";
              Ctx.issuerTarget := None |}
           legacy [modern]); try reflexivity.
  - constructor.
  - discriminate.
Defined.

(** X17.  On a chain without a marker entry, [afterResolve] changes nothing:
    the plugin, the identities and the context come back as they were, with
    no tag and no blind assignment.  (It may still throw: the request is
    checked all the same.) *)
Theorem after_resolve_without_markers `{Imports}
    (p : Targeting.TargetingPlugin) (nextOid : nat) (ctx : Ctx.t) :
  List.filter Loader.isMarker (Ctx.loaders ctx) = [] →
  ∃ r, Targeting.afterResolve p nextOid ctx = (p, nextOid, ctx, r).
Proof.
  intros Hnone. unfold Targeting.afterResolve. rewrite Hnone.
  destruct (checkResolveTarget_untouched p ctx false (or_introl eq_refl))
    as [r Hcheck].
  cbn [length Nat.eqb negb]. rewrite Hcheck.
  destruct r as [[]|e]; [apply replaceLoaders_nothing|eauto].
Qed.

Lemma after_resolve_without_markers_witness :
  ∃ r,
    Targeting.afterResolve (H := sampleImports) samplePlugin 3
      (fileContext "/app/node_modules/vendor-lib/src/index.js"
         (Some (vendorData BrowserAbsent)))
    = (samplePlugin, 3,
       fileContext "/app/node_modules/vendor-lib/src/index.js"
         (Some (vendorData BrowserAbsent)), r).
Proof.
  apply (@after_resolve_without_markers sampleImports samplePlugin 3
           (fileContext "/app/node_modules/vendor-lib/src/index.js"
              (Some (vendorData BrowserAbsent)))).
  reflexivity.
Defined.

(** X18.  Whatever loaders it is called with, and whether it returns or
    throws, [replaceLoaders] changes of the plugin nothing but the cache of
    replacements, and in the cache it only adds: an entry once cached under a
    key stays as it is.  Of the context it changes the chain only. *)
Theorem replace_loaders_frame `{Imports}
    (p : Targeting.TargetingPlugin) (nextOid : nat) (ctx : Ctx.t)
    (loaders : list Loader.t) :
  ∃ p' nextOid' ctx' r,
    Targeting.replaceLoaders p nextOid ctx loaders = (p', nextOid', ctx', r) ∧
    p' = Targeting.set_babelLoaders (Targeting.babelLoaders p') p ∧
    (nextOid ≤ nextOid')%nat ∧
    (∀ k c, Targeting.babelLoaders p !! k = Some c →
            Targeting.babelLoaders p' !! k = Some c) ∧
    ctx' = Ctx.set_loaders (Ctx.loaders ctx') ctx.
Proof.
  unfold Targeting.replaceLoaders.
  destruct (Targeting.contextTarget p ctx) as [target|e].
  - pose proof (forEachLoader_framed target
        {| Targeting.plugin := p; Targeting.nextOid := nextOid;
           Targeting.chain := Ctx.loaders ctx |} loaders) as (Hp & Hn & Hm).
    destruct (Targeting.forEachLoader _ _ _) as [st r]. simpl in *.
    eexists _, _, _, _. split; [reflexivity|]. by split_and!.
  - exists p, nextOid, ctx, (Throw e). split; [done|].
    split_and!; [by rewrite set_babelLoaders_same|done|done|].
    by rewrite set_loaders_same.
Qed.

Section ArrayEdges.
Context {A : Type} `{EqDecision A}.
Implicit Types (l : list A) (x : A).

Lemma indexOf_absent l x : x ∉ l → indexOf l x = (-1)%Z.
Proof.
  induction l as [|y l IH]; [done|].
  intros Hnot. apply not_elem_of_cons in Hnot as [Hne Hnot].
  simpl. rewrite decide_False by done. by rewrite IH.
Qed.

(** [splice(-1, 1)] takes the last element away. *)
Lemma splice_last l : splice l (-1) 1 [] = removelast l.
Proof.
  unfold splice. simpl.
  destruct l as [|y l] using rev_ind; [done|].
  rewrite length_app. simpl.
  replace (Z.to_nat (Z.max (Z.of_nat (length l + 1) + -1) 0))
    with (length l) by lia.
  rewrite take_app_length, removelast_last.
  rewrite drop_ge; [by rewrite app_nil_r|]. rewrite length_app. simpl. lia.
Qed.

End ArrayEdges.

(** X19.  Called without a target for a loader that is not an entry of the
    chain, [replaceLoaders] removes the last entry of the chain: [indexOf]
    answers -1, and [splice(-1, 1)] counts from the end. *)
Theorem unknown_loader_removes_last_entry `{Imports}
    (p : Targeting.TargetingPlugin) (nextOid : nat) (ctx : Ctx.t)
    (loader : Loader.t) :
  Targeting.contextTarget p ctx = Ok None →
  loader ∉ Ctx.loaders ctx →
  Targeting.replaceLoaders p nextOid ctx [loader] =
    (p, nextOid, Ctx.set_loaders (removelast (Ctx.loaders ctx)) ctx, Ok ()) ∧
  Ctx.loaders (Targeting.replaceLoaders p nextOid ctx [loader]).1.2 =
    removelast (Ctx.loaders ctx).
Proof.
  intros Htarget Hnot. unfold Targeting.replaceLoaders. rewrite Htarget.
  simpl. by rewrite (indexOf_absent _ _ Hnot), splice_last.
Qed.

Lemma unknown_loader_removes_last_entry_witness :
  Targeting.replaceLoaders (H := sampleImports) samplePlugin 3
    (appContext None) [{| Loader.oid := 7;
                          Loader.loader := "/app/node_modules/css-loader/index.js";
                          Loader.options := None;
                          Loader.ident := None |}] =
    (samplePlugin, 3,
     Ctx.set_loaders [eslintEntry; babelMarker] (appContext None), Ok ()) ∧
  Ctx.loaders
    (Targeting.replaceLoaders (H := sampleImports) samplePlugin 3
       (appContext None)
       [{| Loader.oid := 7;
           Loader.loader := "/app/node_modules/css-loader/index.js";
           Loader.options := None;
           Loader.ident := None |}]).1.2 =
    [eslintEntry; babelMarker].
Proof.
  apply (@unknown_loader_removes_last_entry sampleImports samplePlugin 3
           (appContext None)).
  - reflexivity.
  - intros Hin. repeat (apply elem_of_cons in Hin as [Hin|Hin];
                          [discriminate Hin|]).
    by apply elem_of_nil in Hin.
Defined.

(** The witness of [replacement_shared_across_modules]: two files issued from
    modules targeted for [modern], rewritten one after the other.  The
    markers around the babel loader become one object; the other markers
    become two. *)
Lemma replacement_shared_across_modules_witness :
  ∃ p1 p2 shared1 shared2 other1 other2,
    Targeting.replaceLoaders (H := sampleImports) samplePlugin 3
      (appContext (Some modern)) [babelMarker; otherMarker] =
      (p1, 6,
       Ctx.set_loaders [eslintEntry; shared1; other1]
         (appContext (Some modern)),
       Ok ()) ∧
    Targeting.replaceLoaders (H := sampleImports) p1 6
      (appContext (Some modern)) [babelMarker; otherMarker] =
      (p2, 8,
       Ctx.set_loaders [eslintEntry; shared2; other2]
         (appContext (Some modern)),
       Ok ()) ∧
    shared1 = shared2 ∧
    other1 ≠ other2.
Proof.
  eexists _, _, _, _, _, _.
  split; [vm_compute; reflexivity|].
  split; [vm_compute; reflexivity|].
  split; [|discriminate].
  eapply (@replacement_shared_across_modules sampleImports
            samplePlugin 3 (appContext (Some modern)) modern
            _ 6 _ 6 (appContext (Some modern)) modern _ 8 _
            eq_refl
            ltac:(repeat constructor; simpl; lia)
            ltac:(intros k c; simpl; rewrite lookup_empty; discriminate)
            ltac:(vm_compute; reflexivity)
            eq_refl
            ltac:(repeat constructor; simpl; lia)
            ltac:(vm_compute; reflexivity)
            eq_refl
            1 1 babelMarker babelMarker);
    reflexivity.
Defined.

(* ===================================================================== *)
(** * Further properties: entry dependencies *)
(* ===================================================================== *)

(** X20.  The request of a dev-server client entry stays untagged, the same
    for every target; its resource identifier tells the targets apart all the
    same: two entries for one such request have different identifiers when
    their targets have different keys. *)
Theorem dev_server_entries_are_told_apart `{Imports}
    (T1 T2 : BabelTarget) (R N1 N2 : string) (loc1 loc2 : option string) :
  startsWith R DEV_SERVER_CLIENT = true →
  key T1 ≠ key T2 →
  SingleEntry.getResourceIdentifier (SingleEntry.constructor T1 R N1 loc1) ≠
  SingleEntry.getResourceIdentifier (SingleEntry.constructor T2 R N2 loc2).
Proof.
  intros Hdev Hkeys. unfold SingleEntry.getResourceIdentifier. simpl.
  rewrite Hdev. intros Heq.
  do 3 apply (inj (String.app _)) in Heq. done.
Qed.

Lemma dev_server_entries_are_told_apart_witness :
  SingleEntry.getResourceIdentifier
    (SingleEntry.constructor (H := sampleImports) legacy
       "webpack-dev-server/client?http://localhost:8080" "main" None) ≠
  SingleEntry.getResourceIdentifier
    (SingleEntry.constructor (H := sampleImports) modern
       "webpack-dev-server/client?http://localhost:8080" "main" None).
Proof.
  apply (@dev_server_entries_are_told_apart sampleImports legacy modern).
  - reflexivity.
  - discriminate.
Defined.

(* ===================================================================== *)
(** * Further properties: the orchestrator *)
(* ===================================================================== *)

Section OrchestratorMore.
Import MultiTarget.

Lemma validate_Ok options accepted :
  validate options = Ok accepted → wellFormed options.
Proof.
  unfold validate, wellFormed.
  destruct (truthy (Opt.browserProfile options)); simpl; [|done].
  by destruct (Opt.plugins options).
Qed.

Lemma validateAll_Ok l accepted :
  validateAll l = Ok accepted → Forall wellFormed l.
Proof.
  revert accepted. induction l as [|options l IH]; intros accepted; [done|].
  simpl. destruct (validate options) as [o|e] eqn:Hv; simpl; [|done].
  destruct (validateAll l) as [rest|e] eqn:Hall; simpl; [|done].
  intros _. constructor; [by eapply validate_Ok|by eapply IH].
Qed.

Lemma Rule_nested_ind (P : Rule → Prop) :
  (∀ loader, P (MkRule loader UseAbsent)) →
  (∀ loader s, P (MkRule loader (UseString s))) →
  (∀ loader inner, Forall P inner → P (MkRule loader (UseArray inner))) →
  ∀ rule, P rule.
Proof.
  intros Ha Hs Hi. fix IH 1. intros [loader [|s|inner]];
    [apply Ha|apply Hs|].
  apply Hi. induction inner as [|r inner IHl]; constructor;
    [apply IH|exact IHl].
Qed.

(** The recursive call on [rule.use] is [findBabelRules] on the inner
    rules. *)
Lemma babelRulesOf_unfold loader use :
  babelRulesOf (MkRule loader use) =
    if isBabelRule (MkRule loader use) then [MkRule loader use]
    else match use with
         | UseArray inner => findBabelRules inner
         | _ => []
         end.
Proof.
  simpl. destruct (_ || _); [done|].
  destruct use as [|s|inner]; try done.
  unfold findBabelRules. induction inner as [|r inner IH]; [done|].
  simpl. by rewrite IH.
Qed.

Lemma findBabelRules_cons rule rules :
  findBabelRules (rule :: rules) = babelRulesOf rule ++ findBabelRules rules.
Proof. done. Qed.

Lemma babelRulesOf_sound rule :
  Forall (λ r, isBabelRule r = true) (babelRulesOf rule).
Proof.
  induction rule as [loader|loader s|loader inner IH] using Rule_nested_ind;
    rewrite babelRulesOf_unfold;
    destruct (isBabelRule _) eqn:Hb; try (by repeat constructor).
  clear Hb. induction IH as [|r inner Hr _ IHl]; [constructor|].
  rewrite findBabelRules_cons. apply Forall_app. split; [exact Hr|exact IHl].
Qed.

Lemma elem_of_childPlugins self plugins q :
  q ∈ childPlugins self plugins ↔ q ∈ plugins ∧ survivesFilter self q.
Proof.
  unfold childPlugins, survivesFilter.
  rewrite list_elem_of_In, filter_In, <- list_elem_of_In.
  rewrite !andb_true_iff, !negb_true_iff, !bool_decide_eq_false.
  split; [intros (? & (? & ?) & ?)|intros (? & ? & ? & ?)]; by split_and!.
Qed.

End OrchestratorMore.

(** X21.  The constructor of the multi-target plugin accepts a list of
    options exactly when the list is not empty and every options object has a
    profile and, for [plugins], nothing or a function.  Nothing else is
    checked. *)
Theorem multi_target_constructor_accepts
    (multiTargetOptions : list MultiTarget.Opt.t) :
  (∃ accepted, MultiTarget.constructor multiTargetOptions = Ok accepted) ↔
  multiTargetOptions ≠ [] ∧ Forall MultiTarget.wellFormed multiTargetOptions.
Proof.
  split.
  - intros [accepted Hnew].
    destruct multiTargetOptions as [|options l]; [done|].
    split; [done|]. by eapply validateAll_Ok.
  - intros [Hne Hwf]. destruct multiTargetOptions as [|options l]; [done|].
    eexists. by apply validateAll_wellFormed.
Qed.

(** X22.  [findBabelRules] returns nothing but rules whose loader or whose
    [use] is [babel-loader]; it returns every such rule of the list it is
    given, and what it finds in the [use] list of a rule that is not one
    itself. *)
Theorem find_babel_rules_finds_babel_rules (rules : list MultiTarget.Rule) :
  Forall (λ rule, isBabelRule rule = true) (MultiTarget.findBabelRules rules) ∧
  (∀ rule, rule ∈ rules → isBabelRule rule = true →
           rule ∈ MultiTarget.findBabelRules rules) ∧
  (∀ loader inner found,
     MultiTarget.MkRule loader (MultiTarget.UseArray inner) ∈ rules →
     isBabelRule (MultiTarget.MkRule loader (MultiTarget.UseArray inner))
       = false →
     found ∈ MultiTarget.findBabelRules inner →
     found ∈ MultiTarget.findBabelRules rules).
Proof.
  split_and!.
  - induction rules as [|rule rules IH]; [constructor|].
    rewrite findBabelRules_cons. apply Forall_app.
    split; [apply babelRulesOf_sound|done].
  - intros rule Hin Hb. induction rules as [|r rules IH];
      [by apply elem_of_nil in Hin|].
    rewrite findBabelRules_cons. apply elem_of_app.
    apply elem_of_cons in Hin as [<-|Hin]; [left|right; by apply IH].
    destruct rule as [loader use]. rewrite babelRulesOf_unfold, Hb. by left.
  - intros loader inner found Hin Hb Hfound.
    induction rules as [|r rules IH]; [by apply elem_of_nil in Hin|].
    rewrite findBabelRules_cons. apply elem_of_app.
    apply elem_of_cons in Hin as [<-|Hin]; [left|right; by apply IH].
    by rewrite babelRulesOf_unfold, Hb.
Qed.

(** X23.  When no plugin instance of the parent is in the child's plugin
    list, forking writes nothing to the console, and its outcome depends on
    the rules only: without a babel rule it throws "Could not find any
    babel-loader rules"; with one, the child compiler is named with the
    reserved prefix and the key of the target, and its plugins are those of
    the chosen list that are neither this plugin, nor another multi-target
    plugin, nor one of the two filtered kinds. *)
Theorem child_forked_without_shared_plugins
    (self : MultiTarget.PluginInstance)
    (compilerOptions : MultiTarget.CompilerOptions)
    (multiTargetOption : MultiTarget.Opt.t)
    (chosen : list MultiTarget.PluginInstance) :
  MultiTarget.chosenPlugins compilerOptions multiTargetOption = Ok chosen →
  Forall (λ plugin, plugin ∉ MultiTarget.childPlugins self chosen)
    (MultiTarget.plugins compilerOptions) →
  MultiTarget.forkChild self compilerOptions multiTargetOption =
    ([],
     match MultiTarget.findBabelRules (MultiTarget.rules compilerOptions) with
     | [] => Throw (Error "Could not find any babel-loader rules")
     | _ =>
         Ok {| MultiTarget.childName :=
                 MultiTarget.CHILD_COMPILER_PREFIX +:+
                   toString (MultiTarget.Opt.key multiTargetOption);
               MultiTarget.childPluginList :=
                 MultiTarget.childPlugins self chosen;
               MultiTarget.childOptions :=
                 MultiTarget.Opt.options multiTargetOption |}
     end) ∧
  ∀ q, q ∈ MultiTarget.childPlugins self chosen ↔
       q ∈ chosen ∧ survivesFilter self q.
Proof.
  intros Hchosen Hdisjoint. split; [|intros q; apply elem_of_childPlugins].
  unfold MultiTarget.forkChild.
  rewrite Hchosen, (checkDuplication_disjoint _ _ Hdisjoint).
  by destruct (MultiTarget.findBabelRules _).
Qed.

Lemma child_forked_without_shared_plugins_witness :
  MultiTarget.forkChild pluginSelf parentOptions withFactory =
    ([],
     Ok {| MultiTarget.childName :=
             "webpack-babel-multi-target-compiler-modern";
           MultiTarget.childPluginList :=
             [{| MultiTarget.instanceId := 7;
                 MultiTarget.constructorName := "DefinePlugin";
                 MultiTarget.isMultiTargetPlugin := false |}];
           MultiTarget.childOptions := "es2017" |}).
Proof.
  refine (proj1 (child_forked_without_shared_plugins pluginSelf parentOptions
                   withFactory ownPlugins eq_refl _)).
  repeat constructor; vm_compute;
    intros Hin; repeat (apply elem_of_cons in Hin as [Hin|Hin];
                          [discriminate Hin|]);
    by apply elem_of_nil in Hin.
Defined.

(** X24.  Without a plugin factory the child is given the parent's own plugin
    instances, so forking throws the duplication error exactly when the
    parent holds a plugin that passes the child's filter: the only parent
    configurations that fork are those whose plugins are all filtered out. *)
Theorem no_factory_needs_filtered_plugins
    (self : MultiTarget.PluginInstance)
    (compilerOptions : MultiTarget.CompilerOptions)
    (multiTargetOption : MultiTarget.Opt.t) :
  MultiTarget.Opt.plugins multiTargetOption = MultiTarget.PluginsAbsent →
  ((MultiTarget.forkChild self compilerOptions multiTargetOption).2 =
     Throw (Error MultiTarget.DUPLICATION_MESSAGE) ↔
   ∃ q, q ∈ MultiTarget.plugins compilerOptions ∧ survivesFilter self q).
Proof.
  intros Habsent.
  assert (Hchosen : MultiTarget.chosenPlugins compilerOptions multiTargetOption
                    = Ok (MultiTarget.plugins compilerOptions))
    by (unfold MultiTarget.chosenPlugins; by rewrite Habsent).
  split.
  - intros Hthrown.
    destruct (decide (Forall
      (λ q, q ∉ MultiTarget.childPlugins self
                  (MultiTarget.plugins compilerOptions))
      (MultiTarget.plugins compilerOptions))) as [Hdisjoint|Hshared].
    + unfold MultiTarget.forkChild in Hthrown.
      rewrite Hchosen, (checkDuplication_disjoint _ _ Hdisjoint) in Hthrown.
      destruct (MultiTarget.findBabelRules _); discriminate Hthrown.
    + apply not_Forall_Exists, Exists_exists in Hshared as (q & Hin & Hq);
        [|apply _].
      apply dec_stable in Hq. apply elem_of_childPlugins in Hq as [_ Hq].
      eauto.
  - intros (q & Hin & Hq).
    assert (Hchild : q ∈ MultiTarget.childPlugins self
                          (MultiTarget.plugins compilerOptions))
      by (by apply elem_of_childPlugins).
    destruct (checkDuplication_shared _ _ _ Hin Hchild)
      as (before & first & after & _ & _ & _ & Hcheck).
    unfold MultiTarget.forkChild. by rewrite Hchosen, Hcheck.
Qed.

Lemma no_factory_needs_filtered_plugins_witness :
  (MultiTarget.forkChild pluginSelf parentOptions (keyed "legacy" "legacy")).2 =
    Throw (Error MultiTarget.DUPLICATION_MESSAGE) ↔
  ∃ q, q ∈ MultiTarget.plugins parentOptions ∧ survivesFilter pluginSelf q.
Proof.
  exact (no_factory_needs_filtered_plugins pluginSelf parentOptions
           (keyed "legacy" "legacy") eq_refl).
Defined.

(** X25.  Under the name of a child compiler, the table of profiles holds the
    profile of the last configured target with that key: an earlier target
    with the same key is overwritten. *)
Theorem profile_recorded_is_of_last_target
    (before after : list MultiTarget.Opt.t) (o : MultiTarget.Opt.t) :
  Forall (λ o', toString (MultiTarget.Opt.key o') ≠
                toString (MultiTarget.Opt.key o)) after →
  MultiTarget.compilationBrowserProfiles (before ++ o :: after)
    !! (MultiTarget.CHILD_COMPILER_PREFIX +:+ toString (MultiTarget.Opt.key o))
    = Some (MultiTarget.Opt.browserProfile o).
Proof.
  intros Hafter. unfold MultiTarget.compilationBrowserProfiles.
  rewrite foldl_app. simpl.
  rewrite compilationBrowserProfiles_other.
  - unfold MultiTarget.recordProfile. by rewrite lookup_insert_eq.
  - eapply Forall_impl; [exact Hafter|]. intros o' Hne Heq.
    by apply (inj (String.app _)) in Heq.
Qed.

Lemma profile_recorded_is_of_last_target_witness :
  MultiTarget.compilationBrowserProfiles
    [keyed "app" "modern"; keyed "app" "legacy"; keyed "other" "modern"]
    !! "webpack-babel-multi-target-compiler-app" = Some (Some "legacy").
Proof.
  apply (profile_recorded_is_of_last_target
           [keyed "app" "modern"] [keyed "other" "modern"]
           (keyed "app" "legacy")).
  repeat constructor. discriminate.
Defined.

Section TagsMore.
Import MultiTarget.

Lemma prefixedChildren_unnamed children child :
  child ∈ children →
  name child = None →
  prefixedChildren children =
    Throw (TypeError "Cannot read property 'startsWith' of undefined").
Proof.
  intros Hin Hname. induction children as [|c children IH];
    [by apply elem_of_nil in Hin|].
  simpl. apply elem_of_cons in Hin as [<-|Hin]; [by rewrite Hname|].
  destruct (name c); [|done]. by rewrite (IH Hin).
Qed.

Lemma tagScript_attributes multiTargetOptions children tag :
  tagName (tagScript multiTargetOptions children tag) = tagName tag ∧
  (attributes (tagScript multiTargetOptions children tag) =
     <["type" := AttrString "module"]> (attributes tag) ∨
   attributes (tagScript multiTargetOptions children tag) =
     <["nomodule" := AttrBool true]> (attributes tag)).
Proof.
  unfold tagScript. simpl. split; [done|].
  destruct (match find _ children with Some _ => _ | None => _ end); eauto.
Qed.

End TagsMore.

(** X26.  The handler that rewrites the script tags reads the name of every
    child compilation without a check: with one unnamed child among the
    children it throws a type error, and no tag is rewritten. *)
Theorem unnamed_child_breaks_tag_rewriting
    (multiTargetOptions : list MultiTarget.Opt.t)
    (children : list MultiTarget.Child) (child : MultiTarget.Child)
    (head body : list MultiTarget.Tag) :
  child ∈ children →
  MultiTarget.name child = None →
  MultiTarget.alterAssetTags multiTargetOptions children head body =
    Throw (TypeError "Cannot read property 'startsWith' of undefined").
Proof.
  intros Hin Hname. unfold MultiTarget.alterAssetTags.
  by rewrite (prefixedChildren_unnamed children child Hin Hname).
Qed.

Lemma unnamed_child_breaks_tag_rewriting_witness :
  MultiTarget.alterAssetTags
    [keyed "legacy" "legacy"; keyed "modern" "modern"]
    [modernChild; unnamedChild] [] [scriptTag "bundle.js"] =
    Throw (TypeError "Cannot read property 'startsWith' of undefined").
Proof.
  apply (unnamed_child_breaks_tag_rewriting _ _ unnamedChild).
  - right. left.
  - reflexivity.
Defined.

(** X27.  When the handler returns, [head] and [body] hold as many tags as
    before, in the same order and with the same names; every attribute other
    than [type] and [nomodule] is as it was, the source among them; and a
    script tag has had exactly one of the two written, the other one left as
    it was. *)
Theorem tag_rewriting_keeps_other_attributes
    (multiTargetOptions : list MultiTarget.Opt.t)
    (children : list MultiTarget.Child)
    (head body head' body' : list MultiTarget.Tag) :
  MultiTarget.alterAssetTags multiTargetOptions children head body =
    Ok (head', body') →
  let kept (tag tag' : MultiTarget.Tag) :=
    MultiTarget.tagName tag' = MultiTarget.tagName tag ∧
    (∀ k, k ≠ "type" → k ≠ "nomodule" →
          MultiTarget.attributes tag' !! k = MultiTarget.attributes tag !! k) ∧
    (MultiTarget.tagName tag ≠ "script" → tag' = tag) ∧
    (MultiTarget.tagName tag = "script" →
       (MultiTarget.attributes tag' !! "type"
          = Some (MultiTarget.AttrString "module") ∧
        MultiTarget.attributes tag' !! "nomodule"
          = MultiTarget.attributes tag !! "nomodule") ∨
       (MultiTarget.attributes tag' !! "nomodule"
          = Some (MultiTarget.AttrBool true) ∧
        MultiTarget.attributes tag' !! "type"
          = MultiTarget.attributes tag !! "type")) in
  Forall2 kept head head' ∧ Forall2 kept body body'.
Proof.
  intros Hrun kept. unfold MultiTarget.alterAssetTags in Hrun.
  destruct (MultiTarget.prefixedChildren children) as [prefixed|e];
    simpl in Hrun; [|done].
  injection Hrun as <- <-.
  assert (Hkept : ∀ tag,
    kept tag (if String.eqb (MultiTarget.tagName tag) "script"
              then MultiTarget.tagScript multiTargetOptions prefixed tag
              else tag)).
  { intros tag. unfold kept.
    destruct (String.eqb_spec (MultiTarget.tagName tag) "script")
      as [Hscript|Hother]; [|by split_and!].
    destruct (tagScript_attributes multiTargetOptions prefixed tag)
      as [Hname [Hattr|Hattr]]; rewrite Hattr; split_and!; try done.
    - intros k Hk _. by rewrite lookup_insert_ne.
    - intros _. left. by rewrite lookup_insert_eq, lookup_insert_ne.
    - intros k _ Hk. by rewrite lookup_insert_ne.
    - intros _. right. by rewrite lookup_insert_eq, lookup_insert_ne. }
  split; apply Forall2_fmap_r, Forall_Forall2_diag, Forall_forall;
    intros tag _; apply Hkept.
Qed.

Lemma tag_rewriting_keeps_other_attributes_witness :
  ∃ tag',
    MultiTarget.alterAssetTags
      [keyed "legacy" "legacy"; keyed "modern" "modern"]
      [legacyChild; modernChild] [] [scriptTag "bundle.js"] = Ok ([], [tag']) ∧
    MultiTarget.attributes tag' !! "src"
      = MultiTarget.attributes (scriptTag "bundle.js") !! "src".
Proof.
  eexists. split; [reflexivity|].
  pose proof (tag_rewriting_keeps_other_attributes
                [keyed "legacy" "legacy"; keyed "modern" "modern"]
                [legacyChild; modernChild] [] [scriptTag "bundle.js"]
                _ _ eq_refl) as [_ Hbody].
  apply Forall2_cons in Hbody as [(_ & Hsame & _) _].
  apply Hsame; discriminate.
Defined.

(* ===================================================================== *)
(** * Further properties: chunks of the child compilations *)
(* ===================================================================== *)

Section ChunksMore.
Import Html.

Lemma jsFile_ends_with_js chunk f :
  jsFile chunk = Some f → endsWith f ".js" = true.
Proof.
  unfold jsFile. intros Hfound.
  by apply find_Some_first in Hfound as (_ & _ & _ & ? & _).
Qed.

Lemma addChild_js sortChunks assets child :
  (∀ l, sortChunks l ⊆ l) →
  ∃ added,
    js (addChild sortChunks assets child) = js assets ++ added ∧
    Forall (λ e, ∃ f, e = Some f ∧ endsWith f ".js" = true) added.
Proof.
  intros Hsort. eexists. split; [reflexivity|].
  apply Forall_fmap, Forall_forall. intros chunk Hin.
  apply Hsort in Hin.
  apply list_elem_of_In, filter_In in Hin as [_ Htruthy].
  simpl. destruct (jsFile chunk) as [f|] eqn:Hf; [|done].
  exists f. split; [done|]. by eapply jsFile_ends_with_js.
Qed.

Lemma foldl_addChild_js sortChunks children assets :
  (∀ l, sortChunks l ⊆ l) →
  ∃ added,
    js (foldl (addChild sortChunks) assets children) = js assets ++ added ∧
    Forall (λ e, ∃ f, e = Some f ∧ endsWith f ".js" = true) added.
Proof.
  intros Hsort. revert assets.
  induction children as [|child children IH]; intros assets.
  { exists []. by rewrite app_nil_r. }
  simpl. destruct (IH (addChild sortChunks assets child))
    as (added & Hjs & Hall).
  destruct (addChild_js sortChunks assets child Hsort)
    as (first & Hfirst & Hall').
  exists (first ++ added). rewrite Hjs, Hfirst, app_assoc.
  split; [done|]. by apply Forall_app.
Qed.

End ChunksMore.

(** X28.  The [before-chunk-ids] handler of a child puts the key of its target
    behind the name of every named chunk and leaves the unnamed ones alone: a
    chunk of one name gets different names in the children of targets with
    different keys. *)
Theorem chunk_names_carry_the_key
    (key1 key2 : option string) (chunk : Html.Chunk) :
  toString key1 ≠ toString key2 →
  if truthy (Html.name chunk) then
    Html.name (Html.renameChunk key1 chunk)
      = Some (toString (Html.name chunk) +:+ "." +:+ toString key1) ∧
    Html.name (Html.renameChunk key1 chunk) ≠
      Html.name (Html.renameChunk key2 chunk)
  else
    Html.renameChunk key1 chunk = chunk.
Proof.
  intros Hkeys. unfold Html.renameChunk.
  destruct (truthy (Html.name chunk)); [|done]. simpl.
  split; [done|]. intros [= Heq].
  do 2 apply (inj (String.app _)) in Heq. done.
Qed.

Lemma chunk_names_carry_the_key_witness :
  Html.name (Html.renameChunk (Some "legacy") mainChunk) = Some "main.legacy" ∧
  Html.name (Html.renameChunk (Some "legacy") mainChunk) ≠
    Html.name (Html.renameChunk (Some "modern") mainChunk).
Proof.
  exact (chunk_names_carry_the_key (Some "legacy") (Some "modern") mainChunk
           ltac:(discriminate)).
Defined.

(** X29.  The [before-html-generation] handler only adds to the script
    assets: the names already listed stay, in their order, in front, and when
    [sortChunks] returns no chunk it was not given, every name added is a file
    ending in [.js].  Children without a name or without the reserved prefix
    add nothing, and do not make the handler throw. *)
Theorem child_scripts_are_appended
    (sortChunks : list Html.Chunk → list Html.Chunk)
    (children : list Html.ChildCompilation) (assets : Html.Assets) :
  (∀ l, sortChunks l ⊆ l) →
  (∃ added,
     Html.js (Html.beforeHtmlGeneration sortChunks children assets) =
       Html.js assets ++ added ∧
     Forall (λ e, ∃ f, e = Some f ∧ endsWith f ".js" = true) added) ∧
  (Forall (λ child, Html.isChildOfPlugin child = false) children →
   Html.beforeHtmlGeneration sortChunks children assets = assets).
Proof.
  intros Hsort. split.
  - by apply foldl_addChild_js.
  - intros Hnone. unfold Html.beforeHtmlGeneration.
    induction Hnone as [|child children Hchild _ IH]; [done|].
    simpl. by rewrite Hchild.
Qed.

Lemma child_scripts_are_appended_witness :
  Html.js (Html.beforeHtmlGeneration (λ l, l)
             [{| Html.childName := None; Html.chunks := [mainChunk] |};
              modernCompilation] parentAssets)
    = [Some "polyfills.js"; Some "main.js"].
Proof.
  destruct (proj1 (child_scripts_are_appended (λ l, l)
              [{| Html.childName := None; Html.chunks := [mainChunk] |};
               modernCompilation] parentAssets ltac:(done)))
    as (added & Hjs & _).
  reflexivity.
Defined.

(* ===================================================================== *)
(** * Further properties: lazy routes *)
(* ===================================================================== *)

Section LazyMore.
Import Targeting.
Context `{Imports}.

Lemma getBlindTarget_externals p issuer key :
  externals (getBlindTarget p issuer key).1 = externals p.
Proof.
  unfold getBlindTarget.
  destruct (default ∅ (default ∅ (remainingTargets p) !! issuer) !! key)
    as [[|? ?]|]; try done.
  destruct (inherited key) as [[[|?]|]|]; try done.
  simpl. by destruct (targets p).
Qed.

Lemma targetDependencies_function_free p T deps :
  hasFunction (externals p) = false →
  ∃ deps',
    targetDependencies p T deps = (deps', Ok ()) ∧
    Forall2 (λ dep dep', targetDependency p dep T = Ok dep') deps deps'.
Proof.
  intros Hfree. induction deps as [|dep deps (deps' & Hrun & Hall)].
  { exists []. split; [done|constructor]. }
  destruct (targetDependency_function_free p dep T Hfree) as [dep' Hdep].
  exists (dep' :: deps'). simpl. rewrite Hdep, Hrun.
  split; [done|by constructor].
Qed.

(** Contexts that are no lazy routes are not touched, and the ledger is not
    consumed for them. *)
Lemma targetLazyModules_other p ctx :
  Lazy.mode ctx ≠ Some "lazy" ∨
    endsWith (toString (Lazy.resource ctx)) "$$_lazy_route_resource" = false →
  Lazy.targetLazyModules p ctx = (p, ctx, Ok false).
Proof.
  intros Hnot. unfold Lazy.targetLazyModules.
  destruct (strictEq (Lazy.mode ctx) "lazy") eqn:Hmode; [|done].
  apply strictEq_true in Hmode.
  destruct Hnot as [Hm | Hm]; [done|]. by rewrite Hm, andb_false_r.
Qed.

Lemma endsWith_nonempty r suffix :
  suffix ≠ "" → endsWith r suffix = true → r ≠ "".
Proof.
  intros Hs Hends ->. unfold endsWith in Hends. simpl in Hends.
  destruct suffix; [done|]. done.
Qed.

End LazyMore.

(** X30.  A lazy route is targeted blindly, by the pair of its context and
    its resource.  With externals that hold no function, [targetLazyModules]
    takes the head of the queue of the pair, tags the resource with it,
    records the target in the map of the resolve options under the tagged
    resource, targets the dependencies at hand, and wraps
    [resolveDependencies]: the dependencies the original function resolves
    are handed on targeted, and an error it reported is handed on as
    [null]. *)
Theorem lazy_route_is_targeted `{Imports}
    (p : Targeting.TargetingPlugin) (ctx : Lazy.t) (r : string)
    (ro : Lazy.ResolveOptions) (T : BabelTarget) (rest : list BabelTarget) :
  Lazy.mode ctx = Some "lazy" →
  Lazy.resource ctx = Some r →
  endsWith r "$$_lazy_route_resource" = true →
  Lazy.resolveOptions ctx = Some ro →
  Targeting.pending p (toString (Lazy.context ctx)) r = T :: rest →
  hasFunction (Targeting.externals p) = false →
  ∃ p' ctx' map,
    Lazy.targetLazyModules p ctx = (p', ctx', Ok true) ∧
    Lazy.resource ctx' = Some (getTargetedRequest T r) ∧
    Lazy.resolveOptions ctx' = Some {| Lazy.babelTargetMap := Some map |} ∧
    map !! getTargetedRequest T r = Some T ∧
    Targeting.pending p' (toString (Lazy.context ctx)) r = rest ∧
    Forall2 (λ dep dep', Targeting.targetDependency p' dep T = Ok dep')
      (Lazy.dependencies ctx) (Lazy.dependencies ctx') ∧
    ∀ resource err deps,
      Lazy.resolveDependencies ctx resource = Ok (err, Some deps) →
      ∃ deps',
        Lazy.resolveDependencies ctx' resource = Ok (None, Some deps') ∧
        Forall2 (λ dep dep', Targeting.targetDependency p' dep T = Ok dep')
          deps deps'.
Proof.
  intros Hmode Hres Hends Hro Hqueue Hfree.
  unfold Lazy.targetLazyModules. rewrite Hmode, Hres, Hro.
  assert (Hr : r ≠ "")
    by (by apply (endsWith_nonempty r "$$_lazy_route_resource")).
  assert (Hlazy : strictEq (Some "lazy") "lazy" = true) by done.
  rewrite Hlazy, (truthy_nonempty r Hr).
  assert (Hstr : toString (Some r) = r) by done.
  rewrite !Hstr, Hends. cbn [andb].
  pose proof (getBlindTarget_head p (toString (Lazy.context ctx)) r T rest
                Hqueue) as Hout.
  pose proof (getBlindTarget_pending_same p (toString (Lazy.context ctx)) r)
    as Hrest.
  pose proof (getBlindTarget_externals p (toString (Lazy.context ctx)) r)
    as Hext.
  rewrite Hqueue in Hrest.
  destruct (Targeting.getBlindTarget p _ r) as [p' res]. simpl in *.
  subst res. rewrite <- Hext in Hfree.
  destruct (targetDependencies_function_free p' T (Lazy.dependencies ctx) Hfree)
    as (deps' & Hdeps & Hall).
  rewrite Hdeps.
  eexists _, _, _. split; [reflexivity|]. simpl.
  split_and!; try done.
  - by rewrite lookup_insert_eq.
  - intros resource err deps Hog.
    unfold Lazy.wrapResolveDependencies. rewrite Hog. simpl.
    destruct (targetDependencies_function_free p' T deps Hfree)
      as (resolved & -> & Hresolved).
    eauto.
Qed.

Lemma lazy_route_is_targeted_witness :
  ∃ p' ctx' map,
    Lazy.targetLazyModules (H := sampleImports) samplePlugin lazyRoute
      = (p', ctx', Ok true) ∧
    Lazy.resource ctx' =
      Some "/app/src/$$_lazy_route_resource?babelTarget=legacy" ∧
    Lazy.resolveOptions ctx' = Some {| Lazy.babelTargetMap := Some map |} ∧
    map !! "/app/src/$$_lazy_route_resource?babelTarget=legacy" = Some legacy ∧
    Targeting.pending p' "/app/src" "/app/src/$$_lazy_route_resource"
      = [modern] ∧
    Forall2
      (λ dep dep',
         Targeting.targetDependency (H := sampleImports) p' dep legacy = Ok dep')
      (Lazy.dependencies lazyRoute) (Lazy.dependencies ctx') ∧
    ∀ resource err deps,
      Lazy.resolveDependencies lazyRoute resource = Ok (err, Some deps) →
      ∃ deps',
        Lazy.resolveDependencies ctx' resource = Ok (None, Some deps') ∧
        Forall2
          (λ dep dep',
             Targeting.targetDependency (H := sampleImports) p' dep legacy
               = Ok dep')
          deps deps'.
Proof.
  exact (@lazy_route_is_targeted sampleImports samplePlugin lazyRoute
           "/app/src/$$_lazy_route_resource"
           {| Lazy.babelTargetMap := None |} legacy [modern]
           eq_refl eq_refl eq_refl eq_refl eq_refl eq_refl).
Defined.

(** The wrapped function of the lazy route above swallows the error of the
    original and tags what it resolved, the style sheet excepted. *)
Example lazy_route_dependencies_resolved :
  let '(_, ctx', _) :=
    Lazy.targetLazyModules (H := sampleImports) samplePlugin lazyRoute in
  Lazy.resolveDependencies ctx' "/app/src/$$_lazy_route_resource" =
    Ok (None,
        Some [Dep.set_request "./admin/admin.module?babelTarget=legacy"
                (sampleDependency "./admin/admin.module");
              sampleDependency "./admin/admin.css"]).
Proof. by vm_compute. Qed.
